(** * vscode-jest: process listeners

    A shallow embedding of [src/JestExt/process-listeners.ts]: the
    [LongRunMonitor], the [AbstractProcessListener] dispatch, the
    [ListTestFileListener] and the [RunTestListener], together with the
    part of the JavaScript runtime they rely on (strings, numbers, regular
    expressions, timers), followed by the properties of the run-lifecycle
    protocol that are established about them. *)

From Stdlib Require Import String Ascii Bool Arith ZArith QArith Lia List.
From Stdlib Require DecimalString.
Import ListNotations.
Close Scope Q_scope.

Set Implicit Arguments.
Set Warnings "-register-all".

(* ================================================================== *)
(** * JavaScript strings *)
(* ================================================================== *)

(** A JavaScript string is a sequence of code units.  Code units are
    modelled by [ascii], i.e. the range U+0000..U+00FF. *)
Module JsString.

Definition jsstring := list ascii.

(** String literal of the source. *)
Definition str (s : string) : jsstring := list_ascii_of_string s.

Definition LF : ascii := "010"%char.
Definition CR : ascii := "013"%char.
Definition DQUOTE : ascii := "034"%char.

Definition code (c : ascii) : N := N_of_ascii c.

Fixpoint eqb (a b : jsstring) : bool :=
  match a, b with
  | [], [] => true
  | x :: a', y :: b' => Ascii.eqb x y && eqb a' b'
  | _, _ => false
  end.

(** [String.prototype.startsWith] *)
Fixpoint startsWith (p s : jsstring) : bool :=
  match p, s with
  | [], _ => true
  | x :: p', y :: s' => Ascii.eqb x y && startsWith p' s'
  | _ :: _, [] => false
  end.

(** [String.prototype.includes] *)
Fixpoint includes (p s : jsstring) : bool :=
  startsWith p s ||
  match s with
  | [] => false
  | _ :: s' => includes p s'
  end.

(** ECMAScript LineTerminator, within the modelled range. *)
Definition isLineTerminator (c : ascii) : bool :=
  Ascii.eqb c LF || Ascii.eqb c CR.

(** ECMAScript WhiteSpace and LineTerminator ([\s]), within the modelled
    range: TAB, LF, VT, FF, CR, SP, NBSP. *)
Definition isSpace (c : ascii) : bool :=
  let n := code c in
  ((9 <=? n) && (n <=? 13) || (n =? 32) || (n =? 160))%N.

Definition isDigit (c : ascii) : bool :=
  let n := code c in ((48 <=? n) && (n <=? 57))%N.

(** [Canonicalize] of a case-insensitive, non-unicode regular expression:
    the upper-case mapping of a single code unit.  U+00B5, U+00DF and
    U+00FF have no single upper-case code unit in the modelled range and
    are left alone. *)
Definition canonicalize (c : ascii) : ascii :=
  let n := code c in
  if ((97 <=? n) && (n <=? 122))%N then ascii_of_N (n - 32)
  else if ((224 <=? n) && (n <=? 254) && negb (n =? 247))%N
       then ascii_of_N (n - 32)
       else c.

(** The other member of the case pair of an upper-case code unit. *)
Definition uncanonicalize (c : ascii) : ascii :=
  let n := code c in
  if ((65 <=? n) && (n <=? 90))%N then ascii_of_N (n + 32)
  else if ((192 <=? n) && (n <=? 222) && negb (n =? 215))%N
       then ascii_of_N (n + 32)
       else c.

End JsString.
Export JsString.

(* ================================================================== *)
(** * JavaScript numbers *)
(* ================================================================== *)

(** A Number is NaN, an infinity or a finite double; finite doubles are
    dyadic rationals and are embedded in [Q].  The two zeros are not told
    apart. *)
Module JsNumber.

Inductive number : Type :=
| NaN
| PosInf
| NegInf
| Fin (q : Q).

Definition ofZ (z : Z) : number := Fin (inject_Z z).

(** [x > 0] *)
Definition gt0 (x : number) : bool :=
  match x with
  | NaN | NegInf => false
  | PosInf => true
  | Fin q => (0 <? Qnum q)%Z
  end.

(** [x <= 0] *)
Definition le0 (x : number) : bool :=
  match x with
  | NaN | PosInf => false
  | NegInf => true
  | Fin q => (Qnum q <=? 0)%Z
  end.

(** [Number.isInteger] *)
Definition isInteger (x : number) : bool :=
  match x with
  | Fin q => (Qnum q mod Zpos (Qden q) =? 0)%Z
  | _ => false
  end.

(** Round a non-negative integer to the nearest double, ties to even;
    integers from [2^1024 - 2^970] on round to [+Infinity]. *)
Definition roundInteger (n : Z) : number :=
  if (n <? 2 ^ 53)%Z then ofZ n
  else
    let e := (Z.log2 n - 52)%Z in
    let q := (n / 2 ^ e)%Z in
    let r := (n mod 2 ^ e)%Z in
    let half := (2 ^ (e - 1))%Z in
    let q' := if (half <? r)%Z || ((r =? half)%Z && Z.odd q)
              then (q + 1)%Z else q in
    let v := (q' * 2 ^ e)%Z in
    if (2 ^ 1024 <=? v)%Z then PosInf else ofZ v.

Definition digitValue (c : ascii) : Z := Z.of_N (code c) - 48.

(** Mathematical value of a string of decimal digits. *)
Definition decimalValue (ds : jsstring) : Z :=
  fold_left (fun acc c => 10 * acc + digitValue c)%Z ds 0%Z.

(** [Number(s)] for [s] a string of decimal digits, the only kind of
    argument the listeners pass to it ([Number('')] is [0]); [NaN] stands
    for the result on every other argument. *)
Definition Number (s : jsstring) : number :=
  if forallb isDigit s then roundInteger (decimalValue s) else NaN.

End JsNumber.
Export JsNumber.

(* ================================================================== *)
(** * Regular expressions *)
(* ================================================================== *)

(** A backtracking matcher for the fragment of ECMAScript regular
    expressions that the listeners use.  A pattern is matched at one
    position; the matcher returns every way the pattern can match there,
    in the order in which a backtracking engine tries them, so that the
    head of the list is the match that JavaScript reports. *)
Module RegExp.

Record Flags : Type := mkFlags {
  global : bool;
  ignoreCase : bool;
  multiline : bool
}.

Inductive ClassItem : Type :=
| ClassChar (c : ascii)
| ClassSpace                       (* \s *)
| ClassNotSpace                    (* \S *)
| ClassDigit.                      (* \d *)

Inductive Regex : Type :=
| Empty
| Char (c : ascii)                 (* a pattern character *)
| Dot                              (* .   *)
| Digit                            (* \d  *)
| Class (negated : bool) (items : list ClassItem)  (* [...] and [^...] *)
| AssertStart                      (* ^   *)
| AssertEnd                        (* $   *)
| Seq (r1 r2 : Regex)
| Alt (r1 r2 : Regex)              (* r1|r2 *)
| Star (greedy : bool) (r : Regex) (* r* and r*? *)
| Plus (greedy : bool) (r : Regex) (* r+ and r+? *)
| Opt (r : Regex)                  (* r?  *)
| Group (i : nat) (r : Regex).     (* the i-th capturing group *)

(** A run of pattern characters. *)
Definition LitL (l : jsstring) : Regex :=
  fold_right (fun c r => Seq (Char c) r) Empty l.

Definition Lit (s : string) : Regex := LitL (str s).

(** Matcher state: the code unit before the current position (if any),
    the input from the current position on, and the captures so far
    (the most recent binding of a group comes first). *)
Record MState : Type := mkMState {
  prev : option ascii;
  rest : jsstring;
  caps : list (nat * option jsstring)
}.

Fixpoint capture (i : nat) (cs : list (nat * option jsstring))
  : option jsstring :=
  match cs with
  | [] => None
  | (j, v) :: cs' => if Nat.eqb i j then v else capture i cs'
  end.

Definition charEq (fl : Flags) (a b : ascii) : bool :=
  if ignoreCase fl
  then Ascii.eqb (canonicalize a) (canonicalize b)
  else Ascii.eqb a b.

Definition itemHas (it : ClassItem) (c : ascii) : bool :=
  match it with
  | ClassChar a => Ascii.eqb a c
  | ClassSpace => isSpace c
  | ClassNotSpace => negb (isSpace c)
  | ClassDigit => isDigit c
  end.

Definition setHas (items : list ClassItem) (c : ascii) : bool :=
  existsb (fun it => itemHas it c) items.

(** CharacterSetMatcher: with [ignoreCase] a code unit is in the set
    when some member of the set has the same canonical form. *)
Definition classHas (fl : Flags) (items : list ClassItem) (c : ascii)
  : bool :=
  if ignoreCase fl
  then setHas items c || setHas items (canonicalize c)
       || setHas items (uncanonicalize (canonicalize c))
  else setHas items c.

(** Consume one code unit satisfying [p]. *)
Definition step (p : ascii -> bool) (st : MState) : list MState :=
  match rest st with
  | c :: s' => if p c then [mkMState (Some c) s' (caps st)] else []
  | [] => []
  end.

Definition atLineStart (fl : Flags) (st : MState) : bool :=
  match prev st with
  | None => true
  | Some c => multiline fl && isLineTerminator c
  end.

Definition atLineEnd (fl : Flags) (st : MState) : bool :=
  match rest st with
  | [] => true
  | c :: _ => multiline fl && isLineTerminator c
  end.

(** Capture groups that occur in a pattern. *)
Fixpoint groups (r : Regex) : list nat :=
  match r with
  | Seq r1 r2 | Alt r1 r2 => groups r1 ++ groups r2
  | Star _ r' | Plus _ r' | Opt r' => groups r'
  | Group i r' => i :: groups r'
  | _ => []
  end.

Definition clearGroups (gs : list nat) (st : MState) : MState :=
  mkMState (prev st) (rest st)
           (map (fun i => (i, None)) gs ++ caps st).

(** RepeatMatcher with [min = 0] and [max = infinity]: an iteration
    clears the captures of the repeated pattern, and is rejected when it
    consumed nothing.  [fuel] bounds the number of iterations and is
    never exhausted when it exceeds the length of the input.  [r+] is one
    iteration, which may consume nothing, followed by [r*]. *)
Fixpoint repeat (body : MState -> list MState) (gs : list nat)
         (greedy : bool) (fuel : nat) (st : MState) : list MState :=
  match fuel with
  | O => [st]
  | S fuel' =>
      let more :=
        flat_map (repeat body gs greedy fuel')
                 (filter (fun st' => length (rest st') <? length (rest st))
                         (body (clearGroups gs st))) in
      if greedy then more ++ [st] else st :: more
  end.

Definition setCapture (i : nat) (from : MState) (to : MState) : MState :=
  mkMState (prev to) (rest to)
           ((i, Some (firstn (length (rest from) - length (rest to))
                             (rest from))) :: caps to).

Fixpoint matcher (fl : Flags) (r : Regex) (st : MState) : list MState :=
  match r with
  | Empty => [st]
  | Char c => step (charEq fl c) st
  | Dot => step (fun x => negb (isLineTerminator x)) st
  | Digit => step isDigit st
  | Class neg items => step (fun x => xorb neg (classHas fl items x)) st
  | AssertStart => if atLineStart fl st then [st] else []
  | AssertEnd => if atLineEnd fl st then [st] else []
  | Seq r1 r2 => flat_map (matcher fl r2) (matcher fl r1 st)
  | Alt r1 r2 => matcher fl r1 st ++ matcher fl r2 st
  | Star g r' =>
      repeat (matcher fl r') (groups r') g (S (length (rest st))) st
  | Plus g r' =>
      flat_map (fun st' => repeat (matcher fl r') (groups r') g
                                  (S (length (rest st'))) st')
               (matcher fl r' (clearGroups (groups r') st))
  | Opt r' =>
      filter (fun st' => length (rest st') <? length (rest st))
             (matcher fl r' (clearGroups (groups r') st)) ++ [st]
  | Group i r' => map (setCapture i st) (matcher fl r' st)
  end.

Record RegExp : Type := mkRegExp {
  source : Regex;
  flags : Flags
}.

(** The result of a successful match: where it starts, the matched text
    and the captures. *)
Record MatchResult : Type := mkMatchResult {
  index : nat;
  matched : jsstring;
  captures : list (nat * option jsstring)
}.

(** [result[i]] for [i >= 1]. *)
Definition group (i : nat) (m : MatchResult) : option jsstring :=
  capture i (captures m).

(** Match at the current position only. *)
Definition execAt (re : RegExp) (p : option ascii) (s : jsstring)
  : option MState :=
  hd_error (matcher (flags re) (source re) (mkMState p s [])).

Definition matchedText (s : jsstring) (st : MState) : jsstring :=
  firstn (length s - length (rest st)) s.

(** Leftmost match at or after the current position, which is at
    offset [i] of the input. *)
Fixpoint searchFrom (re : RegExp) (p : option ascii) (s : jsstring)
         (i : nat) : option MatchResult :=
  match execAt re p s with
  | Some st => Some (mkMatchResult i (matchedText s st) (caps st))
  | None =>
      match s with
      | [] => None
      | c :: s' => searchFrom re (Some c) s' (S i)
      end
  end.

(** [RegExp.prototype.exec] from [lastIndex = 0]. *)
Definition exec (re : RegExp) (s : jsstring) : option MatchResult :=
  searchFrom re None s 0.

(** [RegExp.prototype.test] of a regular expression without the [g]
    flag. *)
Definition test (re : RegExp) (s : jsstring) : bool :=
  match exec re s with Some _ => true | None => false end.

(** The successive matches of a global regular expression: the input is
    cut into the code units outside every match and the matched texts. *)
Inductive Piece : Type :=
| Kept (c : ascii)
| Matched (m : jsstring).

(** [skip] is the number of code units of the current match still to be
    passed over.  After an empty match the search resumes one code unit
    further. *)
Fixpoint pieces (re : RegExp) (p : option ascii) (s : jsstring)
         (skip : nat) {struct s} : list Piece :=
  match skip with
  | S k =>
      match s with
      | [] => []
      | c :: s' => pieces re (Some c) s' k
      end
  | O =>
      match execAt re p s with
      | Some st =>
          let m := matchedText s st in
          Matched m ::
            match s with
            | [] => []
            | c :: s' =>
                match length m with
                | O => Kept c :: pieces re (Some c) s' 0
                | S k => pieces re (Some c) s' k
                end
            end
      | None =>
          match s with
          | [] => []
          | c :: s' => Kept c :: pieces re (Some c) s' 0
          end
      end
  end.

Definition matchesOf (ps : list Piece) : list jsstring :=
  flat_map (fun p => match p with Matched m => [m] | Kept _ => [] end) ps.

(** [String.prototype.match] with a regular expression without [g]. *)
Definition stringMatch (s : jsstring) (re : RegExp) : option MatchResult :=
  exec re s.

(** [String.prototype.match] with a global regular expression: every
    matched text, or [null] when there is none. *)
Definition stringMatchAll (s : jsstring) (re : RegExp)
  : option (list jsstring) :=
  match matchesOf (pieces re None s 0) with
  | [] => None
  | ms => Some ms
  end.

(** [String.prototype.replace] with a global regular expression and a
    replacement text without [$]. *)
Definition stringReplace (s : jsstring) (re : RegExp) (by_ : jsstring)
  : jsstring :=
  flat_map (fun p => match p with Matched _ => by_ | Kept c => [c] end)
           (pieces re None s 0).

Declare Scope regex_scope.
Delimit Scope regex_scope with regex.
Notation "r1 @@ r2" := (Seq r1 r2)
  (at level 61, right associativity) : regex_scope.

End RegExp.
Export RegExp.

(* ================================================================== *)
(** * Values, processes, events *)
(* ================================================================== *)

(** Untyped JavaScript values, as far as settings and parsed JSON need
    them. *)
Inductive JsValue : Type :=
| JsUndefined
| JsNull
| JsBool (b : bool)
| JsNum (n : number)
| JsStr (s : jsstring)
| JsArr (items : list JsValue)
| JsObj (fields : list (jsstring * JsValue)).

(** ToBoolean *)
Definition truthy (v : JsValue) : bool :=
  match v with
  | JsUndefined | JsNull => false
  | JsBool b => b
  | JsNum NaN => false
  | JsNum (Fin q) => negb (Qnum q =? 0)%Z
  | JsNum _ => true
  | JsStr s => negb (JsString.eqb s [])
  | JsArr _ | JsObj _ => true
  end.

(** A thrown value. *)
Inductive JsError : Type :=
| Error (name message : jsstring).

(** [JestProcessRequest]: its [type] tag and whether it carries a truthy
    [updateSnapshot]. *)
Record JestProcessRequest : Type := mkRequest {
  type : jsstring;
  updateSnapshot : bool
}.

(** The process handle, as a listener sees it when an event arrives. *)
Record JestProcess : Type := mkProcess {
  id : nat;
  request : JestProcessRequest;
  stopReason : option jsstring
}.

(** Requests handed to [session.scheduleProcess]. *)
Inductive ScheduleRequest : Type :=
| WatchAllTests                                  (* {type: 'watch-all-tests'} *)
| UpdateSnapshot (baseRequest : JestProcessRequest).

(** [JestRunEvent] *)
Inductive JestRunEvent : Type :=
| ProcessStartEvent (process : JestProcess)
| StartEvent (process : JestProcess)
| DataEvent (process : JestProcess) (text : jsstring)
            (raw : option jsstring) (newLine isError : option bool)
| LongRunEvent (process : JestProcess) (numTotalTestSuites : option number)
               (threshold : number)
| EndEvent (process : JestProcess)
| ExitEvent (process : JestProcess) (error : option jsstring)
            (code : option Z).

(** Arguments of the [ListTestFilesCallback]. *)
Record ListResult : Type := mkListResult {
  fileNames : option (list jsstring);
  errorText : option jsstring;
  resultCode : option Z
}.

(** What a listener does to the outside, in the order it does it.
    [Logging] keeps the listener name, the level and the message (the first
    argument after the level). *)
Inductive Action : Type :=
| Fire (e : JestRunEvent)                         (* onRunEvent.fire *)
| Logging (name level message : jsstring)         (* this.logging *)
| ScheduleProcess (r : ScheduleRequest)           (* session.scheduleProcess *)
| ProcessStop (process : JestProcess)             (* process.stop() *)
| UpdateWithData (data : JsValue) (process : JestProcess)
| ShowInformationMessage (message title : jsstring) (process : JestProcess)
| OnResult (r : ListResult)                       (* this.onResult *)
| SetTimeout (timer : nat) (delay : number)
| ClearTimeout (timer : nat).

(** Inbound process events with their payloads; a null and an absent exit
    code or signal are both [None] ([code ?? undefined]). *)
Inductive JestProcessEvent : Type :=
| processStarting
| executableStdErr (data : jsstring)
| executableJSON (data : JsValue)
| executableOutput (data : jsstring)
| terminalError (data : jsstring)
| processClose (code : option Z) (signal : option jsstring)
| processExit (code : option Z) (signal : option jsstring)
| unexpectedEvent (tag : jsstring).

Record Settings : Type := mkSettings {
  monitorLongRun : JsValue;
  enableSnapshotUpdateMessages : bool
}.

(** [ListenerSession], read-only part. *)
Record ListenerSession : Type := mkSession {
  settings : Settings;
  workspaceName : jsstring
}.

(** Functions of the platform and of modules outside this file. *)
Class Host : Type := mkHost {
  cleanAnsi : jsstring -> jsstring;                 (* ../helpers *)
  toErrorString : JsError -> jsstring;              (* ../helpers *)
  JSON_parse : jsstring -> JsError + JsValue;       (* JSON.parse *)
  Uri_file_fsPath : JsValue -> JsError + jsstring   (* vscode.Uri.file(f).fsPath *)
}.

(** Template-literal conversions. *)
Definition showZ (z : Z) : jsstring :=
  str (DecimalString.NilZero.string_of_int (Z.to_int z)).

Definition showOpt {A} (f : A -> jsstring) (o : option A) : jsstring :=
  match o with
  | Some a => f a
  | None => str "undefined"
  end.

(* ================================================================== *)
(** * State and output of a method *)
(* ================================================================== *)

(** A method takes the state of its object to a result, a new state and
    the actions it performed. *)
Definition M (S A : Type) : Type := S -> A * S * list Action.

Definition ret {S A} (a : A) : M S A := fun s => (a, s, []).

Definition bind {S A B} (m : M S A) (k : A -> M S B) : M S B :=
  fun s =>
    let '(a, s1, out1) := m s in
    let '(b, s2, out2) := k a s1 in
    (b, s2, out1 ++ out2).

Definition get {S} : M S S := fun s => (s, s, []).
Definition modify {S} (f : S -> S) : M S unit := fun s => (tt, f s, []).
Definition emit {S} (a : Action) : M S unit := fun s => (tt, s, [a]).

Declare Scope method_scope.
Delimit Scope method_scope with method.
Notation "x <- m ;; k" := (bind m (fun x => k))
  (at level 62, m at next level, right associativity) : method_scope.
Notation "m ;; k" := (bind m (fun _ => k))
  (at level 62, right associativity) : method_scope.
Open Scope method_scope.

Definition when {S} (b : bool) (m : M S unit) : M S unit :=
  if b then m else ret tt.

(** State and actions after running a method. *)
Definition stateOf {S A} (r : A * S * list Action) : S := snd (fst r).
Definition actionsOf {S A} (r : A * S * list Action) : list Action := snd r.
Definition valueOf {S A} (r : A * S * list Action) : A := fst (fst r).

(** Run a method on a part of the state. *)
Definition zoom {S T A} (proj : S -> T) (upd : T -> S -> S) (m : M T A)
  : M S A :=
  fun s => let '(a, t, out) := m (proj s) in (a, upd t s, out).

(** The events fired among some actions. *)
Definition firedEvents (out : list Action) : list JestRunEvent :=
  flat_map (fun a => match a with Fire e => [e] | _ => [] end) out.

(* ================================================================== *)
(** * The regular expressions of the listeners *)
(* ================================================================== *)

Open Scope regex_scope.

(** [/^\[.*?\]$/gm] *)
Definition JsonArrayRegexp : RegExp :=
  mkRegExp (AssertStart @@ Char "[" @@ Star false Dot @@ Char "]" @@ AssertEnd)
           (mkFlags true false true).

(** [/(snapshots? failed)|(snapshot test failed)/i] *)
Definition SnapshotFailRegex : RegExp :=
  mkRegExp (Alt (Group 1 (Lit "snapshot" @@ Opt (Char "s") @@ Lit " failed"))
                (Group 2 (Lit "snapshot test failed")))
           (mkFlags false true false).

(** [/Test suite failed to run[\s\S]*fatal:[\s\S]*is outside repository/im] *)
Definition IS_OUTSIDE_REPOSITORY_REGEXP : RegExp :=
  mkRegExp (Lit "Test suite failed to run"
            @@ Star true (Class false [ClassSpace; ClassNotSpace])
            @@ Lit "fatal:"
            @@ Star true (Class false [ClassSpace; ClassNotSpace])
            @@ Lit "is outside repository")
           (mkFlags false true true).

(** [/^s*--watch is not supported without git\/hg, please use --watchAlls*/im] *)
Definition WATCH_IS_NOT_SUPPORTED_REGEXP : RegExp :=
  mkRegExp (AssertStart
            @@ Star true (Char "s")
            @@ Lit "--watch is not supported without git/hg, please use --watchAll"
            @@ Star true (Char "s"))
           (mkFlags false true true).

(** The pattern [onRunComplete: execError: ] followed by a capturing group
    around [.*], with the flags [im]. *)
Definition RUN_EXEC_ERROR : RegExp :=
  mkRegExp (Lit "onRunComplete: execError: " @@ Group 1 (Star true Dot))
           (mkFlags false true true).

(** [/onRunStart: numTotalTestSuites: ((\d)+)/im] *)
Definition RUN_START_TEST_SUITES_REGEX : RegExp :=
  mkRegExp (Lit "onRunStart: numTotalTestSuites: "
            @@ Group 1 (Plus true (Group 2 Digit)))
           (mkFlags false true true).

(** [/^(onRunStart|onRunComplete|Test results written to)[^\n]+\n/gim] *)
Definition CONTROL_MESSAGES : RegExp :=
  mkRegExp (AssertStart
            @@ Group 1 (Alt (Lit "onRunStart")
                            (Alt (Lit "onRunComplete")
                                 (Lit "Test results written to")))
            @@ Plus true (Class true [ClassChar LF])
            @@ Char LF)
           (mkFlags true true true).

Close Scope regex_scope.

(* ================================================================== *)
(** * Timers of the runtime *)
(* ================================================================== *)

Module Timers.

(** The timeouts that are armed, with their delays, and the next fresh
    handle. *)
Record t : Type := mk {
  nextTimer : nat;
  pending : list (nat * number)
}.

Definition init : t := mk 0 [].

Definition setTimeout (delay : number) : M t nat :=
  fun ts =>
    let h := nextTimer ts in
    (h, mk (S h) (pending ts ++ [(h, delay)]), [SetTimeout h delay]).

Definition clearTimeout (h : nat) : M t unit :=
  fun ts =>
    (tt,
     mk (nextTimer ts)
        (filter (fun e => negb (Nat.eqb (fst e) h)) (pending ts)),
     [ClearTimeout h]).

Definition isPending (h : nat) (ts : t) : bool :=
  existsb (fun e => Nat.eqb (fst e) h) (pending ts).

(** The timeout [h] expires: it is no longer armed. *)
Definition expire (h : nat) (ts : t) : t :=
  mk (nextTimer ts)
     (filter (fun e => negb (Nat.eqb (fst e) h)) (pending ts)).

End Timers.

(* ================================================================== *)
(** * LongRunMonitor *)
(* ================================================================== *)

Module LongRunMonitor.

Definition DEFAULT_LONG_RUN_THRESHOLD : number := ofZ 60000.

(** The monitor: the name its [logging] writes under, its threshold and
    the handle of its timeout. *)
Record t : Type := mk {
  logging : jsstring;
  thresholdMs : number;
  timer : option nat
}.

Definition constructor (logging : jsstring) (option : JsValue) : t :=
  let thresholdMs :=
    match option with
    | JsUndefined | JsNull => DEFAULT_LONG_RUN_THRESHOLD
    | JsNum n => if gt0 n then n else ofZ (-1)
    | _ => ofZ (-1)
    end in
  mk logging thresholdMs None.

(** The methods act on the timers of the runtime and on the monitor. *)
Definition World : Type := (Timers.t * t)%type.

Definition onTimers {A} (m : M Timers.t A) : M World A :=
  zoom fst (fun ts w => (ts, snd w)) m.

Definition setTimer (h : option nat) : M World unit :=
  modify (fun w : World =>
            (fst w, mk (logging (snd w)) (thresholdMs (snd w)) h)).

Definition cancel : M World unit :=
  w <- get ;;
  match timer (snd w) with
  | Some h =>
      onTimers (Timers.clearTimeout h) ;;
      setTimer None
  | None => ret tt
  end.

Definition start : M World unit :=
  w <- get ;;
  if le0 (thresholdMs (snd w)) then ret tt
  else
    match timer (snd w) with
    | Some _ =>
        emit (Logging (logging (snd w)) (str "warn")
                      (str "LongRunMonitor is already runninng")) ;;
        cancel
    | None => ret tt
    end ;;
    h <- onTimers (Timers.setTimeout (thresholdMs (snd w))) ;;
    setTimer (Some h).

(** The monitor's part of the timeout callback, after [this.callback()]:
    [this.timer = undefined]. *)
Definition expired : M World unit := setTimer None.

End LongRunMonitor.

(* ================================================================== *)
(** * AbstractProcessListener *)
(* ================================================================== *)

Module AbstractProcessListener.

Section Defaults.
Context {S : Type}.
(** [this.name], under which the listener logs. *)
Variable name : jsstring.

Definition logging (level message : jsstring) : M S unit :=
  emit (Logging name level message).

Definition onProcessStarting (process : JestProcess) : M S unit :=
  emit (Fire (ProcessStartEvent process)) ;;
  logging (str "debug")
          (type (request process) ++ str " onProcessStarting").

Definition onExecutableStdErr (process : JestProcess)
           (data _raw : jsstring) : M S unit :=
  logging (str "debug")
          (type (request process) ++ str " onExecutableStdErr:").

Definition onExecutableJSON (process : JestProcess) (data : JsValue)
  : M S unit :=
  logging (str "debug")
          (type (request process) ++ str " onExecutableJSON:").

Definition onExecutableOutput (process : JestProcess)
           (data _raw : jsstring) : M S unit :=
  logging (str "debug")
          (type (request process) ++ str " onExecutableOutput:").

Definition onTerminalError (process : JestProcess)
           (data _raw : jsstring) : M S unit :=
  logging (str "error")
          (type (request process) ++ str " onTerminalError:").

Definition onProcessClose (_process : JestProcess)
           (_code : option Z) (_signal : option jsstring) : M S unit :=
  ret tt.

Definition isProcessError (code : option Z) : bool :=
  match code with
  | Some c => (1 <? c)%Z
  | None => false
  end.

Definition onProcessExit (process : JestProcess)
           (code : option Z) (signal : option jsstring) : M S unit :=
  when (isProcessError code)
       (let error :=
          type (request process)
          ++ str " onProcessExit: process exit with code="
          ++ showOpt showZ code ++ str ", signal="
          ++ showOpt (fun s => s) signal in
        logging (str "warn") (error ++ str " :")).

End Defaults.

(** The handlers of a listener class, after overriding. *)
Record Handlers (S : Type) : Type := mkHandlers {
  h_name : jsstring;
  h_onProcessStarting : JestProcess -> M S unit;
  h_onExecutableStdErr : JestProcess -> jsstring -> jsstring -> M S unit;
  h_onExecutableJSON : JestProcess -> JsValue -> M S unit;
  h_onExecutableOutput : JestProcess -> jsstring -> jsstring -> M S unit;
  h_onTerminalError : JestProcess -> jsstring -> jsstring -> M S unit;
  h_onProcessClose :
    JestProcess -> option Z -> option jsstring -> M S unit;
  h_onProcessExit :
    JestProcess -> option Z -> option jsstring -> M S unit
}.

Definition onEvent `{Host} {S : Type} (this : Handlers S)
           (jestProcess : JestProcess) (event : JestProcessEvent)
  : M S unit :=
  match event with
  | processStarting => h_onProcessStarting this jestProcess
  | executableStdErr data =>
      h_onExecutableStdErr this jestProcess (cleanAnsi data) data
  | executableJSON data => h_onExecutableJSON this jestProcess data
  | executableOutput s =>
      h_onExecutableOutput this jestProcess (cleanAnsi s) s
  | terminalError s =>
      h_onTerminalError this jestProcess (cleanAnsi s) s
  | processClose code signal =>
      h_onProcessClose this jestProcess code signal
  | processExit code signal =>
      h_onProcessExit this jestProcess code signal
  | unexpectedEvent tag =>
      logging (h_name this) (str "warn")
              (str "received unexpected event " ++ [DQUOTE] ++ tag
               ++ [DQUOTE] ++ str " for process:")
  end.

End AbstractProcessListener.

(* ================================================================== *)
(** * ListTestFileListener *)
(* ================================================================== *)

Module ListTestFileListener.

Definition name : jsstring := str "ListTestFileListener".

Record t : Type := mk {
  buffer : jsstring;
  stderrOutput : jsstring;
  exitCode : option Z
}.

Definition constructor : t := mk [] [] None.

Definition logging := @AbstractProcessListener.logging t name.

Definition onResult (files : option (list jsstring))
           (error : option jsstring) (code : option Z) : M t unit :=
  emit (OnResult (mkListResult files error code)).

Definition onExecutableOutput (_process : JestProcess)
           (data _raw : jsstring) : M t unit :=
  modify (fun this =>
            mk (buffer this ++ data) (stderrOutput this) (exitCode this)).

Definition onExecutableStdErr (process : JestProcess)
           (message raw : jsstring) : M t unit :=
  AbstractProcessListener.onExecutableStdErr name process message raw ;;
  modify (fun this =>
            mk (buffer this) (stderrOutput this ++ raw) (exitCode this)).

Definition onProcessExit (process : JestProcess)
           (code : option Z) (signal : option jsstring) : M t unit :=
  AbstractProcessListener.onProcessExit name process code signal ;;
  modify (fun this => mk (buffer this) (stderrOutput this) code).

Section Close.
Context `{Host}.

(** [f => vscode.Uri.file(f).fsPath] mapped over the entries, stopping
    at the first one that throws. *)
Fixpoint mapFsPath (files : list JsValue) : JsError + list jsstring :=
  match files with
  | [] => inr []
  | f :: files' =>
      match Uri_file_fsPath f with
      | inl e => inl e
      | inr p =>
          match mapFsPath files' with
          | inl e => inl e
          | inr ps => inr (p :: ps)
          end
      end
  end.

(** [files.filter((f) => f).map(...)] on the value that [JSON.parse]
    returned; a value without [filter] throws. *)
Definition filterMap (files : JsValue) : JsError + list jsstring :=
  match files with
  | JsArr items => mapFsPath (filter truthy items)
  | JsUndefined | JsNull =>
      inl (Error (str "TypeError")
                 (str "Cannot read properties of null (reading 'filter')"))
  | _ =>
      inl (Error (str "TypeError") (str "files.filter is not a function"))
  end.

(** The callback of [json.reduce]. *)
Definition collect (totalFiles : list jsstring) (item : jsstring)
  : JsError + list jsstring :=
  match JSON_parse item with
  | inl e => inl e
  | inr files =>
      match filterMap files with
      | inl e => inl e
      | inr paths => inr (totalFiles ++ paths)
      end
  end.

(** [json.reduce(..., [])]; a throw ends the reduction. *)
Fixpoint reduce (json : list jsstring) (totalFiles : list jsstring)
  : JsError + list jsstring :=
  match json with
  | [] => inr totalFiles
  | item :: json' =>
      match collect totalFiles item with
      | inl e => inl e
      | inr totalFiles' => reduce json' totalFiles'
      end
  end.

Definition onProcessClose (process : JestProcess)
           (_code : option Z) (_signal : option jsstring) : M t unit :=
  AbstractProcessListener.onProcessClose process _code _signal ;;
  this <- get ;;
  if negb match exitCode this with
          | Some c => (c =? 0)%Z
          | None => false
          end
  then onResult None (Some (stderrOutput this)) (exitCode this)
  else
    match stringMatchAll (buffer this) JsonArrayRegexp with
    | None | Some [] =>
        logging (str "debug") (str "no test file is found") ;;
        onResult (Some []) None None
    | Some json =>
        match reduce json [] with
        | inr uriFiles =>
            logging (str "debug")
                    (str "got " ++ showZ (Z.of_nat (length uriFiles))
                     ++ str " test files") ;;
            onResult (Some uriFiles) None None
        | inl e =>
            logging (str "warn") (str "failed to parse result:") ;;
            onResult None (Some (toErrorString e)) (exitCode this)
        end
    end.

Definition handlers : AbstractProcessListener.Handlers t :=
  AbstractProcessListener.mkHandlers
    name
    (AbstractProcessListener.onProcessStarting name)
    onExecutableStdErr
    (AbstractProcessListener.onExecutableJSON name)
    onExecutableOutput
    (AbstractProcessListener.onTerminalError name)
    onProcessClose
    onProcessExit.

Definition onEvent := AbstractProcessListener.onEvent handlers.

(** The listener over a sequence of events of its process. *)
Fixpoint run (events : list (JestProcess * JestProcessEvent)) (this : t)
  : t * list Action :=
  match events with
  | [] => (this, [])
  | (p, e) :: events' =>
      let '(_, this1, out1) := onEvent p e this in
      let '(this2, out2) := run events' this1 in
      (this2, out1 ++ out2)
  end.

End Close.

End ListTestFileListener.

(* ================================================================== *)
(** * RunTestListener *)
(* ================================================================== *)

Module RunTestListener.

Definition name : jsstring := str "RunTestListener".

Record RunInfo : Type := mkRunInfo {
  process : JestProcess;
  numTotalTestSuites : option number
}.

(** The fields of the listener, and the timeouts of the runtime that its
    monitor arms and clears. *)
Record t : Type := mk {
  timers : Timers.t;
  longRunMonitor : LongRunMonitor.t;
  runInfo : option RunInfo;
  exitCode : option Z
}.

Definition logging := @AbstractProcessListener.logging t name.

Definition constructor (session : ListenerSession) : t :=
  mk Timers.init
     (LongRunMonitor.constructor name (monitorLongRun (settings session)))
     None None.

Definition onMonitor {A} (m : M LongRunMonitor.World A) : M t A :=
  zoom (fun this => (timers this, longRunMonitor this))
       (fun w this => mk (fst w) (snd w) (runInfo this) (exitCode this))
       m.

Definition setRunInfo (info : option RunInfo) : M t unit :=
  modify (fun this =>
            mk (timers this) (longRunMonitor this) info (exitCode this)).

Definition setExitCode (code : option Z) : M t unit :=
  modify (fun this =>
            mk (timers this) (longRunMonitor this) (runInfo this) code).

Definition onLongRun : M t unit :=
  this <- get ;;
  match runInfo this with
  | Some info =>
      emit (Fire (LongRunEvent
                    (process info) (numTotalTestSuites info)
                    (LongRunMonitor.thresholdMs (longRunMonitor this))))
  | None => ret tt
  end.

Definition runEnded : M t unit :=
  onMonitor LongRunMonitor.cancel ;;
  setRunInfo None.

Definition runStarted (info : RunInfo) : M t unit :=
  setRunInfo (Some info) ;;
  onMonitor LongRunMonitor.start.

Definition shouldIgnoreOutput (text : jsstring) : bool :=
  (length text <=? 0) || includes (str "Watch Usage") text.

Definition cleanupOutput (text : jsstring) : jsstring :=
  stringReplace text CONTROL_MESSAGES [].

Definition getNumTotalTestSuites (text : jsstring) : option number :=
  match stringMatch text RUN_START_TEST_SUITES_REGEX with
  | Some matched =>
      let n := match group 1 matched with
               | Some digits => Number digits
               | None => NaN
               end in
      if isInteger n then Some n else None
  | None => None
  end.

(** What reaches the listener: an event of its process, the expiry of a
    timeout, the answer to the snapshot prompt. *)
Inductive Stimulus : Type :=
| ProcessEvent (process : JestProcess) (event : JestProcessEvent)
| TimerExpired (h : nat)
| PromptAnswered (process : JestProcess) (response : bool).

Section Methods.
Variable session : ListenerSession.

Definition handleSnapshotTestFailuer (process : JestProcess)
           (data : jsstring) : M t unit :=
  if updateSnapshot (request process) then ret tt
  else
    when (enableSnapshotUpdateMessages (settings session)
          && test SnapshotFailRegex data)
         (let msg :=
            if JsString.eqb (type (request process))
                            (str "watch-all-tests")
               || JsString.eqb (type (request process))
                               (str "watch-tests")
            then str "all files"
            else str "files in this run" in
          emit (ShowInformationMessage
                  (str "[" ++ workspaceName session
                   ++ str "] Would you like to update snapshots for "
                   ++ msg ++ str "?")
                  (str "Replace them")
                  process)).

(** The continuation of the prompt of [handleSnapshotTestFailuer];
    [response] tells whether the user chose the item. *)
Definition snapshotPromptAnswered (process : JestProcess)
           (response : bool) : M t unit :=
  when response
       (emit (ScheduleProcess (UpdateSnapshot (request process))) ;;
        emit (Fire (DataEvent process (str "Updating snapshots...")
                              None (Some true) None))).

Definition handleWatchNotSupportedError (process : JestProcess)
           (data : jsstring) : M t unit :=
  when (test IS_OUTSIDE_REPOSITORY_REGEXP data
        || test WATCH_IS_NOT_SUPPORTED_REGEXP data)
       (if negb (JsString.eqb (type (request process))
                              (str "watch-tests"))
        then
          logging (str "warn")
                  (str "detected watch not supported message in a not-watch process "
                   ++ [DQUOTE] ++ type (request process) ++ [DQUOTE]
                   ++ str ", will ignore this error")
        else
          logging (str "debug")
                  (str "--watch is not supported, will start the --watchAll run instead") ;;
          emit (ScheduleProcess WatchAllTests) ;;
          emit (ProcessStop process)).

Definition handleWatchProcessCrash (process : JestProcess)
  : M t (option jsstring) :=
  if (JsString.eqb (type (request process)) (str "watch-tests")
      || JsString.eqb (type (request process)) (str "watch-all-tests"))
     && negb match stopReason process with
             | Some r => JsString.eqb r (str "on-demand")
             | None => false
             end
  then
    let msg := str "Jest process " ++ [DQUOTE]
               ++ type (request process) ++ [DQUOTE]
               ++ str " ended unexpectedly" in
    logging (str "warn") msg ;;
    ret (Some msg)
  else ret None.

Definition onExecutableJSON (process : JestProcess) (data : JsValue)
  : M t unit :=
  emit (UpdateWithData data process).

Definition handleRunStart (process : JestProcess) (output : jsstring)
  : M t unit :=
  when (includes (str "onRunStart") output)
       (runStarted (mkRunInfo process (getNumTotalTestSuites output)) ;;
        emit (Fire (StartEvent process))).

(** Group 1 of [RUN_EXEC_ERROR] takes part in every match. *)
Definition handleRunComplete (process : JestProcess) (output : jsstring)
  : M t unit :=
  when (includes (str "onRunComplete") output)
       (runEnded ;;
        match stringMatch output RUN_EXEC_ERROR with
        | Some matched =>
            emit (Fire (DataEvent process
                                  match group 1 matched with
                                  | Some text => text
                                  | None => str "undefined"
                                  end
                                  None (Some true) (Some true)))
        | None => ret tt
        end ;;
        emit (Fire (EndEvent process))).

Definition onExecutableStdErr (process : JestProcess)
           (message raw : jsstring) : M t unit :=
  if shouldIgnoreOutput message then ret tt
  else
    let cleaned := cleanupOutput raw in
    handleRunStart process message ;;
    emit (Fire (DataEvent process message (Some cleaned) None None)) ;;
    handleRunComplete process message ;;
    handleSnapshotTestFailuer process message ;;
    handleWatchNotSupportedError process message.

Definition onExecutableOutput (process : JestProcess)
           (output raw : jsstring) : M t unit :=
  when (negb (shouldIgnoreOutput output))
       (emit (Fire (DataEvent process output (Some raw) None None))).

Definition onTerminalError (process : JestProcess)
           (data raw : jsstring) : M t unit :=
  emit (Fire (DataEvent process data (Some raw) (Some true) (Some true))).

Definition onProcessExit (process : JestProcess)
           (code : option Z) (signal : option jsstring) : M t unit :=
  runEnded ;;
  AbstractProcessListener.onProcessExit name process code signal ;;
  setExitCode code.

Definition onProcessClose (process : JestProcess)
           (_code : option Z) (_signal : option jsstring) : M t unit :=
  AbstractProcessListener.onProcessClose process _code _signal ;;
  error <- handleWatchProcessCrash process ;;
  this <- get ;;
  emit (Fire (ExitEvent process error (exitCode this))).

Definition handlers : AbstractProcessListener.Handlers t :=
  AbstractProcessListener.mkHandlers
    name
    (AbstractProcessListener.onProcessStarting name)
    onExecutableStdErr
    onExecutableJSON
    onExecutableOutput
    onTerminalError
    onProcessClose
    onProcessExit.

(** The callback that [LongRunMonitor.start] hands to [setTimeout],
    run when the timeout [h] expires: [this.callback()], which is
    [onLongRun], then [this.timer = undefined].  A timeout that is not
    armed does not expire. *)
Definition timeout (h : nat) : M t unit :=
  this <- get ;;
  when (Timers.isPending h (timers this))
       (modify (fun this =>
                  mk (Timers.expire h (timers this))
                     (longRunMonitor this) (runInfo this)
                     (exitCode this)) ;;
        onLongRun ;;
        onMonitor LongRunMonitor.expired).

Context `{Host}.

Definition onEvent := AbstractProcessListener.onEvent handlers.

Definition react (s : Stimulus) : M t unit :=
  match s with
  | ProcessEvent p e => onEvent p e
  | TimerExpired h => timeout h
  | PromptAnswered p r => snapshotPromptAnswered p r
  end.

Fixpoint run (stimuli : list Stimulus) (this : t) : t * list Action :=
  match stimuli with
  | [] => (this, [])
  | s :: stimuli' =>
      let '(_, this1, out1) := react s this in
      let '(this2, out2) := run stimuli' this1 in
      (this2, out1 ++ out2)
  end.

End Methods.

End RunTestListener.

(* ================================================================== *)
(** * Vocabulary of the properties *)
(* ================================================================== *)

Definition isStart (e : JestRunEvent) : bool :=
  match e with StartEvent _ => true | _ => false end.

Definition isEnd (e : JestRunEvent) : bool :=
  match e with EndEvent _ => true | _ => false end.

Definition isExit (e : JestRunEvent) : bool :=
  match e with ExitEvent _ _ _ => true | _ => false end.

Definition isLongRun (e : JestRunEvent) : bool :=
  match e with LongRunEvent _ _ _ => true | _ => false end.

(** A [data] event with [isError: true]. *)
Definition isErrorData (e : JestRunEvent) : bool :=
  match e with DataEvent _ _ _ _ (Some true) => true | _ => false end.

(** A [data] event that forwards output: [isError] is not set. *)
Definition isOutputData (e : JestRunEvent) : bool :=
  match e with DataEvent _ _ _ _ None => true | _ => false end.

Definition isScheduleWatchAll (a : Action) : bool :=
  match a with ScheduleProcess WatchAllTests => true | _ => false end.

Definition isProcessStop (a : Action) : bool :=
  match a with ProcessStop _ => true | _ => false end.

(** The calls of the listing callback among some actions. *)
Definition results (out : list Action) : list ListResult :=
  flat_map (fun a => match a with OnResult r => [r] | _ => [] end) out.

Definition count {A} (f : A -> bool) (l : list A) : nat :=
  length (filter f l).

(** The monitor is disabled: whatever its timer, [start()] changes nothing
    and does nothing. *)
Definition disabled (m : LongRunMonitor.t) : Prop :=
  forall (ts : Timers.t) (h : option nat),
    let w := (ts, LongRunMonitor.mk (LongRunMonitor.logging m)
                                    (LongRunMonitor.thresholdMs m) h) in
    LongRunMonitor.start w = (tt, w, []).

(** Actions that are neither events nor recovery actions nor callback
    calls. *)
Definition isQuiet (a : Action) : bool :=
  match a with
  | Logging _ _ _ | SetTimeout _ _ | ClearTimeout _
  | ShowInformationMessage _ _ _ => true
  | _ => false
  end.

(** The [data] event of [handleRunComplete], if any. *)
Definition execErrorEvents (p : JestProcess) (output : jsstring)
  : list JestRunEvent :=
  match stringMatch output RUN_EXEC_ERROR with
  | Some matched =>
      [DataEvent p
                 match group 1 matched with
                 | Some text => text
                 | None => str "undefined"
                 end
                 None (Some true) (Some true)]
  | None => []
  end.


(** The text matches the outside-repository or the watch-not-supported
    pattern. *)
Definition watchNotSupported (data : jsstring) : bool :=
  test IS_OUTSIDE_REPOSITORY_REGEXP data
  || test WATCH_IS_NOT_SUPPORTED_REGEXP data.

(** The marker detection of the listener on its own: run start, run
    complete, snapshot failure, watch not supported. *)
Definition markerDetection (session : ListenerSession) (p : JestProcess)
           (message : jsstring) : M RunTestListener.t unit :=
  RunTestListener.handleRunStart p message ;;
  RunTestListener.handleRunComplete p message ;;
  RunTestListener.handleSnapshotTestFailuer session p message ;;
  RunTestListener.handleWatchNotSupportedError p message.

(** Sample data for the examples. *)
Module Sample.

Definition watchTests : JestProcess :=
  mkProcess 1 (mkRequest (str "watch-tests") false) None.

Definition watchTestsStopped : JestProcess :=
  mkProcess 1 (mkRequest (str "watch-tests") false) (Some (str "on-demand")).

Definition allTests : JestProcess :=
  mkProcess 2 (mkRequest (str "all-tests") false) None.

Definition listTestFiles : JestProcess :=
  mkProcess 3 (mkRequest (str "list-test-files") false) None.

Definition session : ListenerSession :=
  mkSession (mkSettings JsUndefined true) (str "workspace").

Definition idle : RunTestListener.t := RunTestListener.constructor session.

(** A run has started: [idle] after the run-start marker. *)
Definition running : RunTestListener.t :=
  stateOf (RunTestListener.handleRunStart
             watchTests
             (str "onRunStart: numTotalTestSuites: 3" ++ [CR; LF]) idle).

End Sample.

(** The events that [onExecutableStdErr] fires on a text that is not
    ignored. *)
Definition stdErrEvents (p : JestProcess) (message raw : jsstring)
  : list JestRunEvent :=
  (if includes (str "onRunStart") message then [StartEvent p] else [])
  ++ [DataEvent p message (Some (RunTestListener.cleanupOutput raw))
                None None]
  ++ (if includes (str "onRunComplete") message
      then execErrorEvents p message ++ [EndEvent p]
      else []).

(** A watch process that ended without having been stopped on demand. *)
Definition diedUnexpectedly (p : JestProcess) : Prop :=
  (type (request p) = str "watch-tests"
   \/ type (request p) = str "watch-all-tests")
  /\ stopReason p <> Some (str "on-demand").

Definition isCloseStimulus (s : RunTestListener.Stimulus) : bool :=
  match s with
  | RunTestListener.ProcessEvent _ (processClose _ _) => true
  | _ => false
  end.

Definition isExitStimulus (s : RunTestListener.Stimulus) : bool :=
  match s with
  | RunTestListener.ProcessEvent _ (processExit _ _) => true
  | _ => false
  end.

(** A host for the examples: stand-ins for the functions of the platform
    on the inputs of the examples. *)
Module SampleHost.

Definition ESC : ascii := "027"%char.

(** Strips the escape sequences [ESC [ ... m]. *)
Definition cleanAnsi (s : jsstring) : jsstring :=
  stringReplace
    s
    (mkRegExp (Seq (Char ESC)
                   (Seq (Char "[")
                        (Seq (Star true
                                   (Class false [ClassDigit; ClassChar ";"]))
                             (Char "m"))))
              (mkFlags true false false))
    [].

Definition toErrorString (e : JsError) : jsstring :=
  match e with
  | Error name message => name ++ str ": " ++ message
  end.

Definition syntaxError : JsError :=
  Error (str "SyntaxError") (str "Unexpected token in JSON").

(** The text up to the closing quote of a string without escapes, and
    what follows the quote. *)
Fixpoint stringBody (s : jsstring) : option (jsstring * jsstring) :=
  match s with
  | [] => None
  | c :: s' =>
      if Ascii.eqb c DQUOTE then Some ([], s')
      else if Ascii.eqb c "\" then None
           else match stringBody s' with
                | Some (body, after) => Some (c :: body, after)
                | None => None
                end
  end.

(** The elements of an array of strings, after the opening bracket;
    [first] tells whether no element has been read yet. *)
Fixpoint elements (fuel : nat) (first : bool) (s : jsstring)
  : option (list JsValue) :=
  match fuel with
  | O => None
  | S fuel' =>
      match s with
      | "]"%char :: [] => if first then Some [] else None
      | c :: s' =>
          if Ascii.eqb c DQUOTE then
            match stringBody s' with
            | Some (body, "]"%char :: []) => Some [JsStr body]
            | Some (body, ","%char :: after) =>
                match elements fuel' false after with
                | Some vs => Some (JsStr body :: vs)
                | None => None
                end
            | _ => None
            end
          else None
      | [] => None
      end
  end.

(** [JSON.parse] on an array of strings written without white space and
    without escapes; every other text is rejected. *)
Definition JSON_parse (s : jsstring) : JsError + JsValue :=
  match s with
  | "["%char :: s' =>
      match elements (length s) true s' with
      | Some vs => inr (JsArr vs)
      | None => inl syntaxError
      end
  | _ => inl syntaxError
  end.

(** [vscode.Uri.file(f).fsPath] on a POSIX path. *)
Definition Uri_file_fsPath (f : JsValue) : JsError + jsstring :=
  match f with
  | JsStr path => inr path
  | _ => inl (Error (str "TypeError") (str "path is not a string"))
  end.

Definition host : Host :=
  mkHost cleanAnsi toErrorString JSON_parse Uri_file_fsPath.

End SampleHost.

#[global] Existing Instance SampleHost.host.

(** Events of a process, as the listing listener receives them. *)
Definition isExitEvent (pe : JestProcess * JestProcessEvent) : bool :=
  match snd pe with processExit _ _ => true | _ => false end.

(** The raw stderr text of some events, in order. *)
Definition stderrOf (events : list (JestProcess * JestProcessEvent))
  : jsstring :=
  flat_map (fun pe => match snd pe with
                      | executableStdErr data => data
                      | _ => []
                      end) events.

(* ================================================================== *)
(** * Lines and markers, independently of the matcher *)
(* ================================================================== *)

(** The lines of a text: the runs between line terminators. *)
Fixpoint linesOf (s : jsstring) : list jsstring :=
  match s with
  | [] => [[]]
  | c :: s' =>
      if isLineTerminator c then [] :: linesOf s'
      else match linesOf s' with
           | l :: ls => (c :: l) :: ls
           | [] => [[c]]
           end
  end.

(** The text up to the first code unit satisfying [stop], and the text
    from that code unit on. *)
Fixpoint upTo (stop : ascii -> bool) (s : jsstring) : jsstring :=
  match s with
  | [] => []
  | c :: s' => if stop c then [] else c :: upTo stop s'
  end.

Fixpoint from (stop : ascii -> bool) (s : jsstring) : jsstring :=
  match s with
  | [] => []
  | c :: s' => if stop c then s else from stop s'
  end.

Fixpoint lastIs (c : ascii) (l : jsstring) : bool :=
  match l with
  | [] => false
  | [x] => Ascii.eqb x c
  | _ :: l' => lastIs c l'
  end.

(** A line that opens with a bracket and closes with one. *)
Definition isBracketLine (l : jsstring) : bool :=
  match l with
  | "["%char :: l' => lastIs "]" l'
  | _ => false
  end.

(** The bracket-delimited lines of a text, in order. *)
Definition bracketLines (s : jsstring) : list jsstring :=
  filter isBracketLine (linesOf s).

(** The position before which [p] is the last code unit is the start of a
    line. *)
Definition lineStart (p : option ascii) : bool :=
  match p with
  | None => true
  | Some c => isLineTerminator c
  end.

(** The pattern characters [l] are at the head of [s], up to case when
    [ci] is set. *)
Fixpoint litPrefix (ci : bool) (l s : jsstring) : bool :=
  match l, s with
  | [], _ => true
  | x :: l', y :: s' =>
      (if ci then Ascii.eqb (canonicalize x) (canonicalize y)
       else Ascii.eqb x y)
      && litPrefix ci l' s'
  | _ :: _, [] => false
  end.

(** The state after [n] code units of the input. *)
Fixpoint advance (n : nat) (st : MState) : MState :=
  match n with
  | O => st
  | S n' =>
      match rest st with
      | c :: s' => advance n' (mkMState (Some c) s' (caps st))
      | [] => st
      end
  end.

(** [JsonArrayRegexp] at one position: it matches the rest of the line
    when the position starts a line that opens and closes with brackets;
    the result is the text after the match. *)
Definition jsonArrayAt (p : option ascii) (s : jsstring) : option jsstring :=
  if lineStart p && isBracketLine (upTo isLineTerminator s)
  then Some (from isLineTerminator s)
  else None.

Definition notTerminator (x : ascii) : bool := negb (isLineTerminator x).

(** The code unit before the position reached after the text [a]. *)
Definition prevAfter (p : option ascii) (a : jsstring) : option ascii :=
  fold_left (fun _ c => Some c) a p.

Definition isLF (c : ascii) : bool := Ascii.eqb c LF.

(** The words that open a control message. *)
Definition controlWords : list jsstring :=
  [str "onRunStart"; str "onRunComplete"; str "Test results written to"].

(** A line, without its newline, that [CONTROL_MESSAGES] takes away: it
    opens with a control word, up to case, and goes on for one code unit
    at least. *)
Definition isControlLine (u : jsstring) : bool :=
  existsb (fun w => litPrefix true w u && (length w <? length u))
          controlWords.

(** [CONTROL_MESSAGES] at one position: it matches the text up to the
    next newline and the newline, when the position starts a line and the
    text up to the newline is a control line; the result is the text after
    the match. *)
Definition controlAt (p : option ascii) (s : jsstring) : option jsstring :=
  if lineStart p && isControlLine (upTo isLF s)
  then match from isLF s with
       | _ :: r => Some r
       | [] => None
       end
  else None.

(** [[^\n]+\n] at the head of a text: what follows it. *)
Definition lineBodyAt (s : jsstring) : option jsstring :=
  match s with
  | c :: s' =>
      if isLF c then None
      else match from isLF s' with
           | _ :: r => Some r
           | [] => None
           end
  | [] => None
  end.

(** No code unit that equals a pattern character of [w] up to case is a
    line terminator. *)
Definition plainWord (w : jsstring) : bool :=
  forallb (fun x => negb (isLineTerminator (canonicalize x))) w.

(** A text holds a control message: [CONTROL_MESSAGES] matches somewhere
    in it. *)
Definition hasControlMessage (s : jsstring) : bool :=
  match exec CONTROL_MESSAGES s with
  | Some _ => true
  | None => false
  end.

(** What a global replacement by the empty text keeps. *)
Definition keptText (ps : list Piece) : jsstring :=
  flat_map (fun p => match p with Matched _ => [] | Kept c => [c] end) ps.

(** A control word followed by [[^\n]+\n] at the head of a text: what
    follows them. *)
Definition wordAt (w s : jsstring) : option jsstring :=
  if litPrefix true w s then lineBodyAt (skipn (length w) s) else None.

(** The text that replacing the matches of [CONTROL_MESSAGES] by the
    empty text leaves, from a position on. *)
Definition cleaned (p : option ascii) (s : jsstring) : jsstring :=
  keptText (pieces CONTROL_MESSAGES p s 0).

(** [CONTROL_MESSAGES] matches at no position of [x], which comes after
    the code unit [p]. *)
Definition noControlMessage (p : option ascii) (x : jsstring) : Prop :=
  forall a b, x = a ++ b -> controlAt (prevAfter p a) b = None.

(** A pattern that consumes one code unit satisfying [p], whatever it does
    to the captures. *)
Definition singleStep (p : ascii -> bool) (body : MState -> list MState)
  : Prop :=
  forall st,
    exists cs,
      body st
      = match rest st with
        | c :: s' => if p c then [mkMState (Some c) s' cs] else []
        | [] => []
        end.

(** The pattern characters [w] are at no position of [pre ++ rest] that
    lies in [pre]. *)
Definition firstAt (ci : bool) (w pre rest : jsstring) : Prop :=
  forall a b, pre = a ++ b -> b <> [] -> litPrefix ci w (b ++ rest) = false.

Definition startsWith1 (p : ascii -> bool) (s : jsstring) : bool :=
  match s with
  | c :: _ => p c
  | [] => false
  end.

Definition notDigit (c : ascii) : bool := negb (isDigit c).

(** The words of the markers. *)
Definition runStartWord : jsstring := str "onRunStart: numTotalTestSuites: ".
Definition execErrorWord : jsstring := str "onRunComplete: execError: ".

(** A stimulus that starts a run: a stderr chunk that is not suppressed
    and holds [onRunStart]. *)
Definition startsRun `{Host} (s : RunTestListener.Stimulus) : bool :=
  match s with
  | RunTestListener.ProcessEvent _ (executableStdErr data) =>
      negb (RunTestListener.shouldIgnoreOutput (cleanAnsi data))
      && includes (str "onRunStart") (cleanAnsi data)
  | _ => false
  end.

(** The only timeout that is armed is the one of the monitor. *)
Definition monitorOwnsTimers (st : RunTestListener.t) : Prop :=
  forall h d,
    In (h, d) (Timers.pending (RunTestListener.timers st)) ->
    LongRunMonitor.timer (RunTestListener.longRunMonitor st) = Some h.

(* ================================================================== *)
(** * Vocabulary of the properties of the timers and of event sequences *)
(* ================================================================== *)

(** The monitor and the runtime agree: the monitor holds a timer exactly
    when one timeout is armed, and that timeout is its timer. *)
Definition armedOnce (w : LongRunMonitor.World) : Prop :=
  match LongRunMonitor.timer (snd w) with
  | Some h => exists d, Timers.pending (fst w) = [(h, d)]
  | None => Timers.pending (fst w) = []
  end.

Definition wellArmed (st : RunTestListener.t) : Prop :=
  armedOnce (RunTestListener.timers st, RunTestListener.longRunMonitor st).

(** A [monitorLongRun] setting that disables the monitor: neither unset
    nor a number greater than zero. *)
Definition disabledSetting (v : JsValue) : bool :=
  match v with
  | JsUndefined | JsNull => false
  | JsNum n => negb (gt0 n)
  | _ => true
  end.

(** The threshold that the listener of a session monitors with. *)
Definition configuredThreshold (session : ListenerSession) : number :=
  LongRunMonitor.thresholdMs
    (LongRunMonitor.constructor RunTestListener.name
                                (monitorLongRun (settings session))).

(** A stimulus that ends a run: a stderr chunk that is not suppressed and
    holds [onRunComplete]. *)
Definition endsRun `{Host} (s : RunTestListener.Stimulus) : bool :=
  match s with
  | RunTestListener.ProcessEvent _ (executableStdErr data) =>
      negb (RunTestListener.shouldIgnoreOutput (cleanAnsi data))
      && includes (str "onRunComplete") (cleanAnsi data)
  | _ => false
  end.

(** A [long-run] event with the threshold [th], or another event. *)
Definition longRunWith (th : number) (e : JestRunEvent) : Prop :=
  match e with
  | LongRunEvent _ _ th' => th' = th
  | _ => True
  end.

(** The timers of the runtime and the monitor of a listener. *)
Definition worldOf (st : RunTestListener.t) : LongRunMonitor.World :=
  (RunTestListener.timers st, RunTestListener.longRunMonitor st).

(** What a stimulus makes of the timers and of the monitor, in terms of
    [start()] and [cancel()] and of the expiry of a timeout. *)
Definition worldAfter `{Host} (s : RunTestListener.Stimulus)
           (w : LongRunMonitor.World) : LongRunMonitor.World :=
  match s with
  | RunTestListener.ProcessEvent _ (executableStdErr data) =>
      if RunTestListener.shouldIgnoreOutput (cleanAnsi data) then w
      else
        let w1 := if includes (str "onRunStart") (cleanAnsi data)
                  then stateOf (LongRunMonitor.start w) else w in
        if includes (str "onRunComplete") (cleanAnsi data)
        then stateOf (LongRunMonitor.cancel w1) else w1
  | RunTestListener.ProcessEvent _ (processExit _ _) =>
      stateOf (LongRunMonitor.cancel w)
  | RunTestListener.TimerExpired h =>
      if Timers.isPending h (fst w)
      then (Timers.expire h (fst w),
            LongRunMonitor.mk (LongRunMonitor.logging (snd w))
                              (LongRunMonitor.thresholdMs (snd w)) None)
      else w
  | _ => w
  end.

(* ================================================================== *)
(** * Vocabulary of the properties of the listing listener *)
(* ================================================================== *)

(** The stdout text of some events as the listener receives it, in
    order: every chunk without its ANSI sequences. *)
Definition stdoutOf `{Host} (events : list (JestProcess * JestProcessEvent))
  : jsstring :=
  flat_map (fun pe => match snd pe with
                      | executableOutput data => cleanAnsi data
                      | _ => []
                      end) events.

(** The exit code of the last [processExit] among some events, [code]
    when there is none. *)
Fixpoint lastExit (events : list (JestProcess * JestProcessEvent))
         (code : option Z) : option Z :=
  match events with
  | [] => code
  | (_, processExit c _) :: events' => lastExit events' c
  | _ :: events' => lastExit events' code
  end.

Definition isCloseEvent (pe : JestProcess * JestProcessEvent) : bool :=
  match snd pe with processClose _ _ => true | _ => false end.

(** The [process-start] events of the [processStarting] events. *)
Definition processStarts (events : list (JestProcess * JestProcessEvent))
  : list JestRunEvent :=
  flat_map (fun pe => match snd pe with
                      | processStarting => [ProcessStartEvent (fst pe)]
                      | _ => []
                      end) events.

(** Actions that reach outside the listener other than by logging, by an
    event or by the callback. *)
Definition isIntervention (a : Action) : bool :=
  match a with
  | ScheduleProcess _ | ProcessStop _ | UpdateWithData _ _
  | ShowInformationMessage _ _ _ | SetTimeout _ _ | ClearTimeout _ => true
  | _ => false
  end.

(* ================================================================== *)
(** * Vocabulary of the properties of what the listener sets off *)
(* ================================================================== *)

(** Events, log entries and the arming and clearing of timeouts. *)
Definition isBookkeeping (a : Action) : bool :=
  match a with
  | Fire _ | Logging _ _ _ | SetTimeout _ _ | ClearTimeout _ => true
  | _ => false
  end.

Definition isPrompt (a : Action) : bool :=
  match a with ShowInformationMessage _ _ _ => true | _ => false end.

Definition isScheduleUpdate (a : Action) : bool :=
  match a with ScheduleProcess (UpdateSnapshot _) => true | _ => false end.

Definition isUpdateWithData (a : Action) : bool :=
  match a with UpdateWithData _ _ => true | _ => false end.

(** A stderr chunk at which the listener offers to update the snapshots:
    it is not suppressed, the process is not an update-snapshot run, the
    messages are enabled and the text matches [SnapshotFailRegex]. *)
Definition promptsFor `{Host} (session : ListenerSession)
           (s : RunTestListener.Stimulus) : bool :=
  match s with
  | RunTestListener.ProcessEvent p (executableStdErr data) =>
      negb (RunTestListener.shouldIgnoreOutput (cleanAnsi data))
      && negb (updateSnapshot (request p))
      && enableSnapshotUpdateMessages (settings session)
      && test SnapshotFailRegex (cleanAnsi data)
  | _ => false
  end.

(** The update-snapshot runs that the accepted prompts ask for. *)
Definition consents (stimuli : list RunTestListener.Stimulus)
  : list Action :=
  flat_map (fun s => match s with
                     | RunTestListener.PromptAnswered p true =>
                         [ScheduleProcess (UpdateSnapshot (request p))]
                     | _ => []
                     end) stimuli.

(** The results that the JSON events of some stimuli carry. *)
Definition jsonResults (stimuli : list RunTestListener.Stimulus)
  : list Action :=
  flat_map (fun s => match s with
                     | RunTestListener.ProcessEvent p (executableJSON data) =>
                         [UpdateWithData data p]
                     | _ => []
                     end) stimuli.

(** A stderr chunk at which the listener restarts a [watch-tests] run as
    a watch-all run. *)
Definition restartsWatch `{Host} (s : RunTestListener.Stimulus) : bool :=
  match s with
  | RunTestListener.ProcessEvent p (executableStdErr data) =>
      negb (RunTestListener.shouldIgnoreOutput (cleanAnsi data))
      && watchNotSupported (cleanAnsi data)
      && JsString.eqb (type (request p)) (str "watch-tests")
  | _ => false
  end.

(** A stop of a process that is a [watch-tests] run, or another action. *)
Definition stopsOnlyWatchTests (a : Action) : Prop :=
  match a with
  | ProcessStop p => type (request p) = str "watch-tests"
  | _ => True
  end.

(* ================================================================== *)
(** * Vocabulary of the properties of the patterns *)
(* ================================================================== *)

(** Some way to match. *)
Definition nonempty {A} (l : list A) : bool :=
  match l with [] => false | _ => true end.

(** [f] holds of the text from some position on. *)
Fixpoint anyTail (f : jsstring -> bool) (s : jsstring) : bool :=
  f s || match s with
         | [] => false
         | _ :: s' => anyTail f s'
         end.

(** [f] holds at some position, of the code unit before it and of the
    text from it on. *)
Fixpoint anyAt (f : option ascii -> jsstring -> bool) (p : option ascii)
         (s : jsstring) : bool :=
  f p s || match s with
           | [] => false
           | c :: s' => anyAt f (Some c) s'
           end.

(** The text holds the words [w], up to case. *)
Definition includesCI (w s : jsstring) : bool :=
  anyTail (litPrefix true w) s.

(** The text holds the words of [ws], up to case, one after the other,
    with anything between them. *)
Fixpoint includesInOrder (ws : list jsstring) (s : jsstring) : bool :=
  match ws with
  | [] => true
  | w :: ws' =>
      anyTail (fun b => litPrefix true w b
                        && includesInOrder ws' (skipn (length w) b)) s
  end.

(** The letter [s], in either case. *)
Definition isLetterS (c : ascii) : bool :=
  Ascii.eqb (canonicalize "s") (canonicalize c).

Definition watchWord : jsstring :=
  str "--watch is not supported without git/hg, please use --watchAll".

(** A position that starts a line which reads, after any number of
    letters [s], the words of [watchWord] up to case. *)
Definition watchLineAt (p : option ascii) (b : jsstring) : bool :=
  lineStart p
  && litPrefix true watchWord (from (fun c => negb (isLetterS c)) b).

(* ================================================================== *)
(** * Vocabulary of the properties of the data events *)
(* ================================================================== *)

(** The [data] event that forwards the output of a stimulus, if any: a
    chunk of stderr or of stdout that is not suppressed, and the notice
    that follows an accepted prompt. *)
Definition outputOf `{Host} (s : RunTestListener.Stimulus)
  : list JestRunEvent :=
  match s with
  | RunTestListener.ProcessEvent p (executableStdErr data) =>
      if RunTestListener.shouldIgnoreOutput (cleanAnsi data) then []
      else [DataEvent p (cleanAnsi data)
                      (Some (RunTestListener.cleanupOutput data)) None None]
  | RunTestListener.ProcessEvent p (executableOutput data) =>
      if RunTestListener.shouldIgnoreOutput (cleanAnsi data) then []
      else [DataEvent p (cleanAnsi data) (Some data) None None]
  | RunTestListener.PromptAnswered p true =>
      [DataEvent p (str "Updating snapshots...") None (Some true) None]
  | _ => []
  end.

(** The [data] event that reports the error of a stimulus, if any: a
    terminal error, and the execution error of a chunk of stderr that
    is not suppressed and holds [onRunComplete]. *)
Definition errorOf `{Host} (s : RunTestListener.Stimulus)
  : list JestRunEvent :=
  match s with
  | RunTestListener.ProcessEvent p (terminalError data) =>
      [DataEvent p (cleanAnsi data) (Some data) (Some true) (Some true)]
  | RunTestListener.ProcessEvent p (executableStdErr data) =>
      if negb (RunTestListener.shouldIgnoreOutput (cleanAnsi data))
         && includes (str "onRunComplete") (cleanAnsi data)
      then execErrorEvents p (cleanAnsi data)
      else []
  | _ => []
  end.

(** The monitor holds a timer only while a run is under way. *)
Definition armedInRun (st : RunTestListener.t) : Prop :=
  LongRunMonitor.timer (RunTestListener.longRunMonitor st) <> None ->
  RunTestListener.runInfo st <> None.

(* ================================================================== *)
(** * Properties: strings *)
(* ================================================================== *)

Unset Implicit Arguments.

Module JsStringFacts.

Lemma eqb_eq (a b : jsstring) : JsString.eqb a b = true <-> a = b.
Proof.
  revert b; induction a as [|x a IH]; intros [|y b]; simpl;
    try (split; [discriminate | discriminate]); try tauto.
  rewrite andb_true_iff, Ascii.eqb_eq, IH.
  split; [intros [-> ->]; reflexivity | intros E; inversion E; auto].
Qed.

Lemma eqb_refl (a : jsstring) : JsString.eqb a a = true.
Proof. apply eqb_eq; reflexivity. Qed.

Lemma eqb_neq (a b : jsstring) : JsString.eqb a b = false <-> a <> b.
Proof.
  rewrite <- eqb_eq. destruct (JsString.eqb a b); split; congruence.
Qed.

Lemma startsWith_app (p s : jsstring) :
  startsWith p s = true <-> exists b, s = p ++ b.
Proof.
  revert s; induction p as [|x p IH]; intros s; simpl.
  - split; [exists s; reflexivity | reflexivity].
  - destruct s as [|y s].
    + split; [discriminate | intros [b E]; discriminate].
    + rewrite andb_true_iff, Ascii.eqb_eq, IH. split.
      * intros [-> [b ->]]. exists b; reflexivity.
      * intros [b E]. inversion E; subst. split; [reflexivity | eauto].
Qed.

(** [includes] is the substring test. *)
Lemma includes_app (p s : jsstring) :
  includes p s = true <-> exists a b, s = a ++ p ++ b.
Proof.
  induction s as [|y s IH].
  - simpl. rewrite orb_false_r, startsWith_app. split.
    + intros [b E]. exists [], b. exact E.
    + intros [a [b E]]. destruct a; simpl in E.
      * exists b; exact E.
      * discriminate.
  - cbn [includes]. rewrite orb_true_iff, startsWith_app, IH. split.
    + intros [[b E] | [a [b E]]].
      * exists [], b; exact E.
      * exists (y :: a), b. rewrite E; reflexivity.
    + intros [a [b E]]. destruct a as [|z a]; simpl in E.
      * left; exists b; exact E.
      * right. inversion E; subst. exists a, b; reflexivity.
Qed.

End JsStringFacts.
Import JsStringFacts.

(* ================================================================== *)
(** * The patterns on sample texts *)
(* ================================================================== *)

Module PatternExamples.

Example JsonArrayRegexp_whole_lines :
  stringMatchAll
    (str "[a]" ++ [LF] ++ str "foo [b]" ++ [CR; LF] ++ str "[]" ++ [LF]
     ++ str "[c] x" ++ [LF] ++ str "[d]]")
    JsonArrayRegexp
  = Some [str "[a]"; str "[]"; str "[d]]"].
Proof. vm_compute. reflexivity. Qed.

Example JsonArrayRegexp_none :
  stringMatchAll (str "No tests found") JsonArrayRegexp = None.
Proof. vm_compute. reflexivity. Qed.

(** A control word right before the newline, or on a last line without a
    newline, stays. *)
Example cleanupOutput_lines :
  RunTestListener.cleanupOutput
    (str "onRunStart: numTotalTestSuites: 3" ++ [CR; LF]
     ++ str "PASS src/a.test.js" ++ [LF]
     ++ str "onRunComplete" ++ [LF]
     ++ str "TEST RESULTS WRITTEN TO /tmp/out.json" ++ [LF]
     ++ str "onRunComplete")
  = str "PASS src/a.test.js" ++ [LF]
    ++ str "onRunComplete" ++ [LF]
    ++ str "onRunComplete".
Proof. vm_compute. reflexivity. Qed.

Example getNumTotalTestSuites_count :
  RunTestListener.getNumTotalTestSuites
    (str "jest: ONRUNSTART: NUMTOTALTESTSUITES: 12 suites")
  = Some (ofZ 12).
Proof. vm_compute. reflexivity. Qed.

Example getNumTotalTestSuites_none :
  RunTestListener.getNumTotalTestSuites (str "onRunStart: no count") = None.
Proof. vm_compute. reflexivity. Qed.

(** [2^53 + 1] is not a double: the count is rounded. *)
Example getNumTotalTestSuites_rounded :
  RunTestListener.getNumTotalTestSuites
    (str "onRunStart: numTotalTestSuites: 9007199254740993")
  = Some (ofZ 9007199254740992).
Proof. vm_compute. reflexivity. Qed.

(** A count that overflows to [Infinity] is not an integer. *)
Example getNumTotalTestSuites_overflow :
  RunTestListener.getNumTotalTestSuites
    (str "onRunStart: numTotalTestSuites: " ++ List.repeat "9"%char 310)
  = None.
Proof. vm_compute. reflexivity. Qed.

Example RUN_EXEC_ERROR_message :
  execErrorEvents Sample.allTests
                  (str "onRunComplete: execError: no test suites found"
                   ++ [CR; LF] ++ str "more")
  = [DataEvent Sample.allTests (str "no test suites found")
               None (Some true) (Some true)].
Proof. vm_compute. reflexivity. Qed.

Example SnapshotFailRegex_samples :
  map (test SnapshotFailRegex)
      [str "1 snapshot failed"; str "2 Snapshots Failed";
       str "snapshot test failed"; str "snapshot written"]
  = [true; true; true; false].
Proof. vm_compute. reflexivity. Qed.

(** [s*] in [WATCH_IS_NOT_SUPPORTED_REGEXP] stands for the letter. *)
Example watchNotSupported_samples :
  map watchNotSupported
      [str "--watch is not supported without git/hg, please use --watchAll";
       str "Error:" ++ [LF]
       ++ str "ss--watch is not supported without git/hg, please use --watchAll";
       str "  --watch is not supported without git/hg, please use --watchAll";
       str "Test suite failed to run" ++ [LF]
       ++ str "fatal: /tmp/x: '/tmp/x' is outside repository";
       str "fatal: is outside repository"]
  = [true; true; false; true; false].
Proof. vm_compute. reflexivity. Qed.

Example shouldIgnoreOutput_samples :
  map RunTestListener.shouldIgnoreOutput
      [[]; str "Watch Usage: Press w to show more."; str "watch usage";
       str "PASS"]
  = [true; true; false; false].
Proof. vm_compute. reflexivity. Qed.

End PatternExamples.

(* ================================================================== *)
(** * Properties: the method monad *)
(* ================================================================== *)

Lemma actionsOf_bind {S A B} (m : M S A) (k : A -> M S B) (s : S) :
  actionsOf (bind m k s)
  = actionsOf (m s) ++ actionsOf (k (valueOf (m s)) (stateOf (m s))).
Proof.
  unfold bind, actionsOf, valueOf, stateOf.
  destruct (m s) as [[a s1] o1]; simpl.
  destruct (k a s1) as [[b s2] o2]; reflexivity.
Qed.

Lemma stateOf_bind {S A B} (m : M S A) (k : A -> M S B) (s : S) :
  stateOf (bind m k s) = stateOf (k (valueOf (m s)) (stateOf (m s))).
Proof.
  unfold bind, actionsOf, valueOf, stateOf.
  destruct (m s) as [[a s1] o1]; simpl.
  destruct (k a s1) as [[b s2] o2]; reflexivity.
Qed.

Lemma stateOf_emit {S} (a : Action) (s : S) : stateOf (emit a s) = s.
Proof. reflexivity. Qed.

Lemma actionsOf_emit {S} (a : Action) (s : S) : actionsOf (emit a s) = [a].
Proof. reflexivity. Qed.

Lemma firedEvents_app (a b : list Action) :
  firedEvents (a ++ b) = firedEvents a ++ firedEvents b.
Proof. unfold firedEvents. apply flat_map_app. Qed.

Lemma count_app {A} (f : A -> bool) (a b : list A) :
  count f (a ++ b) = count f a + count f b.
Proof. unfold count. rewrite filter_app, length_app. reflexivity. Qed.

(* ================================================================== *)
(** * Properties: LongRunMonitor *)
(* ================================================================== *)

Module LongRunMonitorFacts.
Import LongRunMonitor.

Lemma start_disabled (w : World) :
  le0 (thresholdMs (snd w)) = true -> start w = (tt, w, []).
Proof.
  intros H. unfold start, bind, get. simpl. rewrite H. reflexivity.
Qed.

Lemma cancel_unarmed (w : World) :
  timer (snd w) = None -> cancel w = (tt, w, []).
Proof.
  intros H. unfold cancel, bind, get. simpl. rewrite H. reflexivity.
Qed.

Lemma cancel_timer (w : World) : timer (snd (stateOf (cancel w))) = None.
Proof.
  destruct w as [ts [lg th [h|]]]; reflexivity.
Qed.

End LongRunMonitorFacts.

(** C4.  The threshold of a monitor built from a configuration value: an
    unset value (undefined or null) gives 60000 ms; a number that is
    greater than zero is taken as it is; every other value (a number that
    is not greater than zero, such as zero, a negative number or NaN, or a
    value that is not a number) gives a disabled monitor, whose [start()]
    changes nothing and arms no timer. *)
Theorem longRunMonitor_threshold (logging : jsstring) (option : JsValue) :
  let m := LongRunMonitor.constructor logging option in
  LongRunMonitor.timer m = None /\
  (option = JsUndefined \/ option = JsNull ->
   LongRunMonitor.thresholdMs m = ofZ 60000) /\
  (forall n, option = JsNum n -> gt0 n = true ->
             LongRunMonitor.thresholdMs m = n) /\
  (option <> JsUndefined -> option <> JsNull ->
   (forall n, option = JsNum n -> gt0 n = false) ->
   le0 (LongRunMonitor.thresholdMs m) = true /\ disabled m).
Proof.
  cbv zeta. split; [reflexivity|]. split; [|split].
  - intros [-> | ->]; reflexivity.
  - intros n -> Hn. simpl. rewrite Hn. reflexivity.
  - intros H1 H2 H3.
    assert (E : LongRunMonitor.thresholdMs
                  (LongRunMonitor.constructor logging option) = ofZ (-1)).
    { destruct option; try congruence; try reflexivity.
      simpl. rewrite (H3 n eq_refl). reflexivity. }
    split.
    + rewrite E. reflexivity.
    + intros ts h. apply LongRunMonitorFacts.start_disabled.
      cbn [snd LongRunMonitor.thresholdMs]. rewrite E. reflexivity.
Qed.

Lemma longRunMonitor_threshold_witness :
  LongRunMonitor.thresholdMs
    (LongRunMonitor.constructor RunTestListener.name JsUndefined)
  = ofZ 60000
  /\ LongRunMonitor.thresholdMs
       (LongRunMonitor.constructor RunTestListener.name (JsNum (ofZ 120000)))
     = ofZ 120000
  /\ disabled (LongRunMonitor.constructor RunTestListener.name
                                          (JsStr (str "off"))).
Proof.
  split; [|split].
  - destruct (longRunMonitor_threshold RunTestListener.name JsUndefined)
      as [_ [H _]].
    apply H. left; reflexivity.
  - destruct (longRunMonitor_threshold RunTestListener.name
                                       (JsNum (ofZ 120000)))
      as [_ [_ [H _]]].
    apply H; reflexivity.
  - destruct (longRunMonitor_threshold RunTestListener.name
                                       (JsStr (str "off")))
      as [_ [_ [_ H]]].
    apply H.
    + discriminate.
    + discriminate.
    + intros n Hn; discriminate Hn.
Defined.

(** C5.  [cancel()] is total and idempotent: it always leaves the monitor
    without a timer and its timeout, if it had one, no longer armed; on a
    monitor without a timer it changes nothing and does nothing; and a
    second [cancel()] right after the first changes nothing and does
    nothing. *)
Theorem longRunMonitor_cancel_idempotent (w : LongRunMonitor.World) :
  let w1 := stateOf (LongRunMonitor.cancel w) in
  LongRunMonitor.timer (snd w1) = None /\
  (forall h, LongRunMonitor.timer (snd w) = Some h ->
             Timers.isPending h (fst w1) = false) /\
  (LongRunMonitor.timer (snd w) = None ->
   LongRunMonitor.cancel w = (tt, w, [])) /\
  LongRunMonitor.cancel w1 = (tt, w1, []).
Proof.
  cbv zeta. split; [|split; [|split]].
  - apply LongRunMonitorFacts.cancel_timer.
  - intros h Hh. destruct w as [ts [lg th tm]]. simpl in Hh. subst tm.
    cbn. unfold Timers.isPending. simpl.
    induction (Timers.pending ts) as [|[k d] l IH]; simpl; [reflexivity|].
    destruct (Nat.eqb k h) eqn:E; simpl; [exact IH|].
    rewrite E. exact IH.
  - apply LongRunMonitorFacts.cancel_unarmed.
  - apply LongRunMonitorFacts.cancel_unarmed.
    apply LongRunMonitorFacts.cancel_timer.
Qed.

(* ================================================================== *)
(** * Properties: the handlers of RunTestListener *)
(* ================================================================== *)

Lemma quiet_firedEvents (out : list Action) :
  forallb isQuiet out = true -> firedEvents out = [].
Proof.
  induction out as [|a out IH]; simpl; [reflexivity|].
  rewrite andb_true_iff. intros [Ha Hout].
  destruct a; try discriminate Ha; simpl; auto.
Qed.

Lemma quiet_count (f : Action -> bool) (out : list Action) :
  (forall a, isQuiet a = true -> f a = false) ->
  forallb isQuiet out = true -> count f out = 0.
Proof.
  intros Hf. unfold count.
  induction out as [|a out IH]; simpl; [reflexivity|].
  rewrite andb_true_iff. intros [Ha Hout].
  rewrite (Hf a Ha). auto.
Qed.

Module LongRunMonitorActions.
Import LongRunMonitor.

Lemma start_quiet (w : World) :
  forallb isQuiet (actionsOf (start w)) = true.
Proof.
  destruct w as [ts [lg th [h|]]]; unfold start, bind, get; simpl;
    destruct (le0 th); reflexivity.
Qed.

(** An enabled monitor is armed by [start()]. *)
Lemma start_arms (w : World) :
  le0 (thresholdMs (snd w)) = false ->
  exists h,
    timer (snd (stateOf (start w))) = Some h
    /\ Timers.isPending h (fst (stateOf (start w))) = true.
Proof.
  intros H. destruct w as [ts [lg th tm]]. simpl in H.
  unfold start, bind, get; simpl. rewrite H.
  destruct tm as [h0|]; simpl.
  - eexists; split; [reflexivity|].
    unfold Timers.isPending; simpl. rewrite existsb_app; simpl.
    rewrite Nat.eqb_refl. apply orb_true_r.
  - eexists; split; [reflexivity|].
    unfold Timers.isPending; simpl. rewrite existsb_app; simpl.
    rewrite Nat.eqb_refl. apply orb_true_r.
Qed.

End LongRunMonitorActions.

Module RunTestListenerFacts.
Import RunTestListener.

Lemma runEnded_runInfo (st : t) : runInfo (stateOf (runEnded st)) = None.
Proof. destruct st as [ts [lg th [h|]] ri ec]; reflexivity. Qed.

Lemma runEnded_timer (st : t) :
  LongRunMonitor.timer (longRunMonitor (stateOf (runEnded st))) = None.
Proof. destruct st as [ts [lg th [h|]] ri ec]; reflexivity. Qed.

Lemma runEnded_exitCode (st : t) :
  exitCode (stateOf (runEnded st)) = exitCode st.
Proof. destruct st as [ts [lg th [h|]] ri ec]; reflexivity. Qed.

Lemma runEnded_quiet (st : t) :
  forallb isQuiet (actionsOf (runEnded st)) = true.
Proof. destruct st as [ts [lg th [h|]] ri ec]; reflexivity. Qed.

Lemma runStarted_eq (info : RunInfo) (st : t) :
  let w := LongRunMonitor.start (timers st, longRunMonitor st) in
  runStarted info st
  = (tt,
     mk (fst (stateOf w)) (snd (stateOf w)) (Some info) (exitCode st),
     actionsOf w).
Proof.
  cbv zeta. unfold runStarted, setRunInfo, onMonitor, zoom, bind, modify.
  cbn [timers longRunMonitor runInfo exitCode].
  destruct (LongRunMonitor.start (timers st, longRunMonitor st))
    as [[[] w] o]. reflexivity.
Qed.

Lemma handleRunStart_skip (p : JestProcess) (output : jsstring) (st : t) :
  includes (str "onRunStart") output = false ->
  handleRunStart p output st = (tt, st, []).
Proof. intros H. unfold handleRunStart. rewrite H. reflexivity. Qed.

Lemma handleRunStart_eq (p : JestProcess) (output : jsstring) (st : t) :
  includes (str "onRunStart") output = true ->
  let w := LongRunMonitor.start (timers st, longRunMonitor st) in
  handleRunStart p output st
  = (tt,
     mk (fst (stateOf w)) (snd (stateOf w))
        (Some (mkRunInfo p (getNumTotalTestSuites output))) (exitCode st),
     actionsOf w ++ [Fire (StartEvent p)]).
Proof.
  intros H. cbv zeta. unfold handleRunStart. rewrite H.
  unfold when, bind. rewrite runStarted_eq. reflexivity.
Qed.

Lemma handleRunComplete_skip (p : JestProcess) (output : jsstring) (st : t) :
  includes (str "onRunComplete") output = false ->
  handleRunComplete p output st = (tt, st, []).
Proof. intros H. unfold handleRunComplete. rewrite H. reflexivity. Qed.

Lemma handleRunComplete_eq (p : JestProcess) (output : jsstring) (st : t) :
  includes (str "onRunComplete") output = true ->
  handleRunComplete p output st
  = (tt, stateOf (runEnded st),
     actionsOf (runEnded st)
     ++ map Fire (execErrorEvents p output) ++ [Fire (EndEvent p)]).
Proof.
  intros H. unfold handleRunComplete. rewrite H.
  unfold when, bind, execErrorEvents.
  destruct (runEnded st) as [[[] s1] o1]. unfold stateOf, actionsOf. simpl.
  destruct (stringMatch output RUN_EXEC_ERROR); reflexivity.
Qed.

End RunTestListenerFacts.

Module RunTestListenerStdErr.
Import RunTestListener RunTestListenerFacts.

Lemma handleSnapshotTestFailuer_state
      (sess : ListenerSession) (p : JestProcess) (data : jsstring) (st : t) :
  stateOf (handleSnapshotTestFailuer sess p data st) = st.
Proof.
  unfold handleSnapshotTestFailuer, when.
  destruct (updateSnapshot (request p)); [reflexivity|].
  destruct (enableSnapshotUpdateMessages (settings sess)
            && test SnapshotFailRegex data); reflexivity.
Qed.

Lemma handleSnapshotTestFailuer_quiet
      (sess : ListenerSession) (p : JestProcess) (data : jsstring) (st : t) :
  forallb isQuiet (actionsOf (handleSnapshotTestFailuer sess p data st))
  = true.
Proof.
  unfold handleSnapshotTestFailuer, when.
  destruct (updateSnapshot (request p)); [reflexivity|].
  destruct (enableSnapshotUpdateMessages (settings sess)
            && test SnapshotFailRegex data); reflexivity.
Qed.

Lemma handleWatchNotSupportedError_state
      (p : JestProcess) (data : jsstring) (st : t) :
  stateOf (handleWatchNotSupportedError p data st) = st.
Proof.
  unfold handleWatchNotSupportedError, when.
  destruct (test IS_OUTSIDE_REPOSITORY_REGEXP data
            || test WATCH_IS_NOT_SUPPORTED_REGEXP data); [|reflexivity].
  destruct (negb (JsString.eqb (type (request p)) (str "watch-tests")));
    reflexivity.
Qed.

Lemma handleWatchNotSupportedError_fired
      (p : JestProcess) (data : jsstring) (st : t) :
  firedEvents (actionsOf (handleWatchNotSupportedError p data st)) = [].
Proof.
  unfold handleWatchNotSupportedError, when.
  destruct (test IS_OUTSIDE_REPOSITORY_REGEXP data
            || test WATCH_IS_NOT_SUPPORTED_REGEXP data); [|reflexivity].
  destruct (negb (JsString.eqb (type (request p)) (str "watch-tests")));
    reflexivity.
Qed.

Lemma handleRunStart_quiet (p : JestProcess) (output : jsstring) (st : t) :
  forall f : Action -> bool,
    (forall a, isQuiet a = true -> f a = false) ->
    f (Fire (StartEvent p)) = false ->
    count f (actionsOf (handleRunStart p output st)) = 0.
Proof.
  intros f Hq Hs.
  destruct (includes (str "onRunStart") output) eqn:E.
  - rewrite (handleRunStart_eq p output st E). unfold actionsOf at 1.
    cbn [snd]. rewrite count_app.
    rewrite (quiet_count f _ Hq (LongRunMonitorActions.start_quiet _)).
    unfold count. simpl. rewrite Hs. reflexivity.
  - rewrite (handleRunStart_skip p output st E). reflexivity.
Qed.

Lemma handleRunComplete_quiet (p : JestProcess) (output : jsstring) (st : t) :
  forall f : Action -> bool,
    (forall a, isQuiet a = true -> f a = false) ->
    (forall e, f (Fire e) = false) ->
    count f (actionsOf (handleRunComplete p output st)) = 0.
Proof.
  intros f Hq Hs.
  destruct (includes (str "onRunComplete") output) eqn:E.
  - rewrite (handleRunComplete_eq p output st E). unfold actionsOf at 1.
    cbn [snd]. rewrite !count_app.
    rewrite (quiet_count f _ Hq (runEnded_quiet _)).
    unfold count. simpl.
    replace (filter f (map Fire (execErrorEvents p output))) with (@nil Action).
    + simpl. rewrite Hs. reflexivity.
    + induction (execErrorEvents p output); simpl;
        [reflexivity | rewrite Hs; assumption].
  - rewrite (handleRunComplete_skip p output st E). reflexivity.
Qed.

(** The five steps of [onExecutableStdErr] on output that is not
    ignored. *)
Lemma onExecutableStdErr_steps
      (sess : ListenerSession) (p : JestProcess) (message raw : jsstring)
      (st : t) :
  shouldIgnoreOutput message = false ->
  let st1 := stateOf (handleRunStart p message st) in
  let st2 := stateOf (handleRunComplete p message st1) in
  stateOf (onExecutableStdErr sess p message raw st) = st2
  /\ actionsOf (onExecutableStdErr sess p message raw st)
     = actionsOf (handleRunStart p message st)
       ++ [Fire (DataEvent p message (Some (cleanupOutput raw)) None None)]
       ++ actionsOf (handleRunComplete p message st1)
       ++ actionsOf (handleSnapshotTestFailuer sess p message st2)
       ++ actionsOf (handleWatchNotSupportedError p message st2).
Proof.
  intros H. cbv zeta. unfold onExecutableStdErr. rewrite H.
  rewrite !stateOf_bind, !actionsOf_bind.
  rewrite !stateOf_emit, !actionsOf_emit.
  rewrite handleWatchNotSupportedError_state.
  rewrite !handleSnapshotTestFailuer_state.
  split; reflexivity.
Qed.

Lemma shouldIgnoreOutput_true (message : jsstring) :
  shouldIgnoreOutput message = true
  <-> message = [] \/ exists a b, message = a ++ str "Watch Usage" ++ b.
Proof.
  unfold shouldIgnoreOutput.
  rewrite orb_true_iff, includes_app, Nat.leb_le.
  split; intros [H | H]; auto.
  - left. destruct message; [reflexivity | simpl in H; lia].
  - left. subst; simpl; lia.
Qed.

End RunTestListenerStdErr.

(* ================================================================== *)
(** * Properties: suppressed output *)
(* ================================================================== *)

(** C1, as the code has it.  A stderr chunk whose text is empty or
    contains [Watch Usage] is dropped whole: no event is fired, nothing
    else is done, and the state of the listener is unchanged, so that no
    marker detection is run on it. *)
Theorem suppressed_stderr_is_dropped
        (sess : ListenerSession) (p : JestProcess) (message raw : jsstring)
        (st : RunTestListener.t) :
  message = [] \/ (exists a b, message = a ++ str "Watch Usage" ++ b) ->
  RunTestListener.onExecutableStdErr sess p message raw st = (tt, st, []).
Proof.
  intros H. apply RunTestListenerStdErr.shouldIgnoreOutput_true in H.
  unfold RunTestListener.onExecutableStdErr. rewrite H. reflexivity.
Qed.

Lemma suppressed_stderr_is_dropped_witness :
  RunTestListener.onExecutableStdErr
    Sample.session Sample.watchTests
    (str "onRunComplete" ++ [CR; LF] ++ str "Watch Usage: Press w to show more.")
    (str "onRunComplete" ++ [CR; LF] ++ str "Watch Usage: Press w to show more.")
    Sample.running
  = (tt, Sample.running, []).
Proof.
  apply (suppressed_stderr_is_dropped
           Sample.session Sample.watchTests
           (str "onRunComplete" ++ [CR; LF]
            ++ str "Watch Usage: Press w to show more.")).
  right. exists (str "onRunComplete" ++ [CR; LF]).
  exists (str ": Press w to show more."). reflexivity.
Defined.

(** C1, as the specification states it, fails: on a chunk that carries a run-start
    marker and the watch usage text, marker detection would start a run,
    and the listener starts none. *)
Lemma suppressed_stderr_counterexample :
  let message :=
    str "onRunStart: numTotalTestSuites: 3" ++ [CR; LF]
    ++ str "Watch Usage: Press w to show more." in
  RunTestListener.shouldIgnoreOutput message = true
  /\ firedEvents (actionsOf (markerDetection Sample.session Sample.watchTests
                                             message Sample.idle))
     = [StartEvent Sample.watchTests]
  /\ RunTestListener.runInfo
       (stateOf (markerDetection Sample.session Sample.watchTests
                                 message Sample.idle))
     = Some (RunTestListener.mkRunInfo Sample.watchTests (Some (ofZ 3)))
  /\ firedEvents
       (actionsOf (RunTestListener.onExecutableStdErr
                     Sample.session Sample.watchTests message message
                     Sample.idle))
     = []
  /\ RunTestListener.runInfo
       (stateOf (RunTestListener.onExecutableStdErr
                   Sample.session Sample.watchTests message message
                   Sample.idle))
     = None.
Proof. vm_compute. repeat split; reflexivity. Qed.

(* ================================================================== *)
(** * Properties: watch mode that is not supported *)
(* ================================================================== *)

(** C7.  On a stderr chunk that is not suppressed and matches the
    outside-repository or the watch-not-supported pattern: a
    [watch-tests] process has [scheduleProcess({type: 'watch-all-tests'})]
    called once and [stop()] called once, in this order and as the last
    two actions; for a process of any other type neither is called, and
    the last action is the warning. *)
Theorem watch_not_supported_recovery
        (sess : ListenerSession) (p : JestProcess) (message raw : jsstring)
        (st : RunTestListener.t) :
  RunTestListener.shouldIgnoreOutput message = false ->
  watchNotSupported message = true ->
  let out :=
    actionsOf (RunTestListener.onExecutableStdErr sess p message raw st) in
  (type (request p) = str "watch-tests" ->
   count isScheduleWatchAll out = 1
   /\ count isProcessStop out = 1
   /\ exists pre, out = pre ++ [ScheduleProcess WatchAllTests; ProcessStop p])
  /\
  (type (request p) <> str "watch-tests" ->
   count isScheduleWatchAll out = 0
   /\ count isProcessStop out = 0
   /\ exists pre msg,
       out = pre ++ [Logging RunTestListener.name (str "warn") msg]).
Proof.
  intros Hi Hw. cbv zeta.
  destruct (RunTestListenerStdErr.onExecutableStdErr_steps
              sess p message raw st Hi) as [_ ->].
  set (st1 := stateOf (RunTestListener.handleRunStart p message st)).
  set (st2 := stateOf (RunTestListener.handleRunComplete p message st1)).
  assert (Q1 : forall a, isQuiet a = true -> isScheduleWatchAll a = false)
    by (intros []; simpl; congruence).
  assert (Q2 : forall a, isQuiet a = true -> isProcessStop a = false)
    by (intros []; simpl; congruence).
  set (before :=
         actionsOf (RunTestListener.handleRunStart p message st)
         ++ [Fire (DataEvent p message
                             (Some (RunTestListener.cleanupOutput raw))
                             None None)]
         ++ actionsOf (RunTestListener.handleRunComplete p message st1)
         ++ actionsOf (RunTestListener.handleSnapshotTestFailuer
                         sess p message st2)).
  assert (C1 : forall f : Action -> bool,
             (forall a, isQuiet a = true -> f a = false) ->
             (forall e, f (Fire e) = false) ->
             count f before = 0).
  { intros f Hq Hf. unfold before. rewrite !count_app.
    rewrite (RunTestListenerStdErr.handleRunStart_quiet p message st f Hq
               (Hf _)).
    rewrite (RunTestListenerStdErr.handleRunComplete_quiet
               p message st1 f Hq Hf).
    rewrite (quiet_count
               f _ Hq
               (RunTestListenerStdErr.handleSnapshotTestFailuer_quiet
                  sess p message st2)).
    unfold count; simpl. rewrite Hf. reflexivity. }
  match goal with
  | |- context [actionsOf
                  (RunTestListener.handleWatchNotSupportedError ?a ?b ?c)] =>
      set (last := actionsOf
                     (RunTestListener.handleWatchNotSupportedError a b c))
  end.
  replace (actionsOf (RunTestListener.handleRunStart p message st)
           ++ [Fire (DataEvent p message
                               (Some (RunTestListener.cleanupOutput raw))
                               None None)]
           ++ actionsOf (RunTestListener.handleRunComplete p message st1)
           ++ actionsOf (RunTestListener.handleSnapshotTestFailuer
                           sess p message st2)
           ++ last)
    with (before ++ last)
    by (unfold before; rewrite <- !app_assoc; reflexivity).
  subst last.
  unfold RunTestListener.handleWatchNotSupportedError.
  fold (watchNotSupported message). rewrite Hw. unfold when.
  split; intros Ht.
  - rewrite Ht, eqb_refl. cbn [negb].
    unfold bind, emit, RunTestListener.logging,
      AbstractProcessListener.logging, actionsOf. cbn [snd app].
    rewrite !count_app.
    rewrite (C1 isScheduleWatchAll Q1 (fun _ => eq_refl)).
    rewrite (C1 isProcessStop Q2 (fun _ => eq_refl)).
    repeat split.
    exists (before
            ++ [Logging RunTestListener.name (str "debug")
                        (str "--watch is not supported, will start the --watchAll run instead")]).
    rewrite <- app_assoc. reflexivity.
  - apply eqb_neq in Ht. rewrite Ht. cbn [negb].
    unfold RunTestListener.logging, AbstractProcessListener.logging,
      emit, actionsOf. cbn [snd].
    rewrite !count_app.
    rewrite (C1 isScheduleWatchAll Q1 (fun _ => eq_refl)).
    rewrite (C1 isProcessStop Q2 (fun _ => eq_refl)).
    repeat split. eexists before, _. reflexivity.
Qed.

Lemma watch_not_supported_recovery_witness :
  let message :=
    str "--watch is not supported without git/hg, please use --watchAll" in
  (count isScheduleWatchAll
     (actionsOf (RunTestListener.onExecutableStdErr
                   Sample.session Sample.watchTests message message
                   Sample.idle)) = 1
   /\ count isProcessStop
        (actionsOf (RunTestListener.onExecutableStdErr
                      Sample.session Sample.watchTests message message
                      Sample.idle)) = 1)
  /\ (count isScheduleWatchAll
        (actionsOf (RunTestListener.onExecutableStdErr
                      Sample.session Sample.allTests message message
                      Sample.idle)) = 0
      /\ count isProcessStop
           (actionsOf (RunTestListener.onExecutableStdErr
                         Sample.session Sample.allTests message message
                         Sample.idle)) = 0).
Proof.
  cbv zeta. split.
  - destruct (watch_not_supported_recovery
                Sample.session Sample.watchTests
                (str "--watch is not supported without git/hg, please use --watchAll")
                (str "--watch is not supported without git/hg, please use --watchAll")
                Sample.idle)
      as [H _]; [vm_compute; reflexivity | vm_compute; reflexivity |].
    destruct (H eq_refl) as [H1 [H2 _]]. split; assumption.
  - destruct (watch_not_supported_recovery
                Sample.session Sample.allTests
                (str "--watch is not supported without git/hg, please use --watchAll")
                (str "--watch is not supported without git/hg, please use --watchAll")
                Sample.idle)
      as [_ H]; [vm_compute; reflexivity | vm_compute; reflexivity |].
    destruct H as [H1 [H2 _]]; [vm_compute; discriminate|].
    split; assumption.
Defined.

(* ================================================================== *)
(** * Properties: what the stderr handler fires and keeps *)
(* ================================================================== *)

Module RunTestListenerEvents.
Import RunTestListener RunTestListenerFacts RunTestListenerStdErr.

Lemma firedEvents_map_Fire (es : list JestRunEvent) :
  firedEvents (map Fire es) = es.
Proof. induction es; simpl; congruence. Qed.

Lemma handleRunStart_fired (p : JestProcess) (output : jsstring) (st : t) :
  firedEvents (actionsOf (handleRunStart p output st))
  = if includes (str "onRunStart") output then [StartEvent p] else [].
Proof.
  destruct (includes (str "onRunStart") output) eqn:E.
  - rewrite (handleRunStart_eq p output st E). unfold actionsOf at 1.
    cbn [snd]. rewrite firedEvents_app.
    rewrite (quiet_firedEvents _ (LongRunMonitorActions.start_quiet _)).
    reflexivity.
  - rewrite (handleRunStart_skip p output st E). reflexivity.
Qed.

Lemma handleRunComplete_fired (p : JestProcess) (output : jsstring) (st : t) :
  firedEvents (actionsOf (handleRunComplete p output st))
  = if includes (str "onRunComplete") output
    then execErrorEvents p output ++ [EndEvent p] else [].
Proof.
  destruct (includes (str "onRunComplete") output) eqn:E.
  - rewrite (handleRunComplete_eq p output st E). unfold actionsOf at 1.
    cbn [snd]. rewrite !firedEvents_app.
    rewrite (quiet_firedEvents _ (runEnded_quiet _)).
    rewrite firedEvents_map_Fire. reflexivity.
  - rewrite (handleRunComplete_skip p output st E). reflexivity.
Qed.

Lemma onExecutableStdErr_fired
      (sess : ListenerSession) (p : JestProcess) (message raw : jsstring)
      (st : t) :
  firedEvents (actionsOf (onExecutableStdErr sess p message raw st))
  = if shouldIgnoreOutput message then [] else stdErrEvents p message raw.
Proof.
  destruct (shouldIgnoreOutput message) eqn:Hi.
  - unfold onExecutableStdErr. rewrite Hi. reflexivity.
  - destruct (onExecutableStdErr_steps sess p message raw st Hi) as [_ ->].
    rewrite !firedEvents_app.
    rewrite handleRunStart_fired, handleRunComplete_fired.
    rewrite (quiet_firedEvents _ (handleSnapshotTestFailuer_quiet _ _ _ _)).
    rewrite handleWatchNotSupportedError_fired.
    unfold stdErrEvents. rewrite !app_nil_r. reflexivity.
Qed.

Lemma handleRunStart_exitCode (p : JestProcess) (output : jsstring) (st : t) :
  exitCode (stateOf (handleRunStart p output st)) = exitCode st.
Proof.
  destruct (includes (str "onRunStart") output) eqn:E.
  - rewrite (handleRunStart_eq p output st E). reflexivity.
  - rewrite (handleRunStart_skip p output st E). reflexivity.
Qed.

Lemma handleRunComplete_exitCode
      (p : JestProcess) (output : jsstring) (st : t) :
  exitCode (stateOf (handleRunComplete p output st)) = exitCode st.
Proof.
  destruct (includes (str "onRunComplete") output) eqn:E.
  - rewrite (handleRunComplete_eq p output st E).
    unfold stateOf at 1. cbn [fst snd]. apply runEnded_exitCode.
  - rewrite (handleRunComplete_skip p output st E). reflexivity.
Qed.

Lemma onExecutableStdErr_exitCode
      (sess : ListenerSession) (p : JestProcess) (message raw : jsstring)
      (st : t) :
  exitCode (stateOf (onExecutableStdErr sess p message raw st))
  = exitCode st.
Proof.
  destruct (shouldIgnoreOutput message) eqn:Hi.
  - unfold onExecutableStdErr. rewrite Hi. reflexivity.
  - destruct (onExecutableStdErr_steps sess p message raw st Hi) as [-> _].
    rewrite handleRunComplete_exitCode, handleRunStart_exitCode.
    reflexivity.
Qed.

End RunTestListenerEvents.

(* ================================================================== *)
(** * Properties: exit *)
(* ================================================================== *)

Module RunTestListenerExit.
Import RunTestListener RunTestListenerFacts RunTestListenerStdErr
       RunTestListenerEvents.

Lemma execErrorEvents_exit (p : JestProcess) (output : jsstring) :
  filter isExit (execErrorEvents p output) = [].
Proof.
  unfold execErrorEvents.
  destruct (stringMatch output RUN_EXEC_ERROR); reflexivity.
Qed.

Lemma stdErrEvents_exit (p : JestProcess) (message raw : jsstring) :
  filter isExit (stdErrEvents p message raw) = [].
Proof.
  unfold stdErrEvents. rewrite !filter_app.
  destruct (includes (str "onRunStart") message),
           (includes (str "onRunComplete") message);
    simpl; rewrite ?filter_app, ?execErrorEvents_exit; reflexivity.
Qed.

Lemma handleWatchProcessCrash_state (p : JestProcess) (st : t) :
  stateOf (handleWatchProcessCrash p st) = st.
Proof.
  unfold handleWatchProcessCrash.
  match goal with |- context [if ?b then _ else _] => destruct b end;
    reflexivity.
Qed.

Lemma handleWatchProcessCrash_quiet (p : JestProcess) (st : t) :
  forallb isQuiet (actionsOf (handleWatchProcessCrash p st)) = true.
Proof.
  unfold handleWatchProcessCrash.
  match goal with |- context [if ?b then _ else _] => destruct b end;
    reflexivity.
Qed.

(** The error of the exit event: a message that is not empty for a watch
    process that was not stopped on demand, and none otherwise. *)
Lemma handleWatchProcessCrash_spec (p : JestProcess) (st : t) :
  (diedUnexpectedly p ->
   exists msg, valueOf (handleWatchProcessCrash p st) = Some msg
               /\ msg <> [])
  /\ (~ diedUnexpectedly p ->
      valueOf (handleWatchProcessCrash p st) = None).
Proof.
  unfold handleWatchProcessCrash, diedUnexpectedly.
  assert (R : negb match stopReason p with
                   | Some r => JsString.eqb r (str "on-demand")
                   | None => false
                   end = true
              <-> stopReason p <> Some (str "on-demand")).
  { destruct (stopReason p) as [r|]; simpl.
    - rewrite negb_true_iff, eqb_neq. split; congruence.
    - split; [discriminate | reflexivity]. }
  assert (T : JsString.eqb (type (request p)) (str "watch-tests")
              || JsString.eqb (type (request p)) (str "watch-all-tests")
              = true
              <-> type (request p) = str "watch-tests"
                  \/ type (request p) = str "watch-all-tests").
  { rewrite orb_true_iff, !eqb_eq. tauto. }
  match goal with |- context [if ?b then _ else _] => destruct b eqn:E end.
  - apply andb_true_iff in E. destruct E as [E1 E2].
    split.
    + intros _. eexists; split; [reflexivity | discriminate].
    + intros N. exfalso. apply N. split; [apply T | apply R]; assumption.
  - split.
    + intros [D1 D2]. apply T in D1. apply R in D2.
      rewrite D1, D2 in E. discriminate.
    + reflexivity.
Qed.

Lemma onProcessClose_eq
      (p : JestProcess) (code : option Z) (signal : option jsstring)
      (st : t) :
  onProcessClose p code signal st
  = (tt, st,
     actionsOf (handleWatchProcessCrash p st)
     ++ [Fire (ExitEvent p (valueOf (handleWatchProcessCrash p st))
                         (exitCode st))]).
Proof.
  unfold onProcessClose, AbstractProcessListener.onProcessClose.
  unfold bind at 1. cbn [ret].
  unfold bind at 1.
  pose proof (handleWatchProcessCrash_state p st) as Hs.
  destruct (handleWatchProcessCrash p st) as [[e s1] o1].
  unfold stateOf in Hs; cbn [fst snd] in Hs. subst s1.
  unfold actionsOf, valueOf. cbn [fst snd].
  reflexivity.
Qed.

Section Stimuli.
Context `{Host}.
Variable sess : ListenerSession.

Lemma timeout_exitCode (h : nat) (st : t) :
  exitCode (stateOf (timeout h st)) = exitCode st.
Proof.
  destruct st as [ts m ri ec]. unfold timeout, bind, get, when.
  cbn [timers]. destruct (Timers.isPending h ts); [|reflexivity].
  destruct ri; reflexivity.
Qed.

Lemma timeout_fired (h : nat) (st : t) :
  firedEvents (actionsOf (timeout h st))
  = if Timers.isPending h (timers st)
    then match runInfo st with
         | Some info =>
             [LongRunEvent (process info) (numTotalTestSuites info)
                           (LongRunMonitor.thresholdMs (longRunMonitor st))]
         | None => []
         end
    else [].
Proof.
  destruct st as [ts m ri ec]. unfold timeout, bind, get, when.
  cbn [timers runInfo longRunMonitor].
  destruct (Timers.isPending h ts); [|reflexivity].
  destruct ri; reflexivity.
Qed.

Lemma onProcessExit_exitCode
      (p : JestProcess) (code : option Z) (signal : option jsstring)
      (st : t) :
  exitCode (stateOf (onProcessExit p code signal st)) = code.
Proof.
  unfold onProcessExit. rewrite !stateOf_bind. reflexivity.
Qed.

Lemma onProcessExit_fired
      (p : JestProcess) (code : option Z) (signal : option jsstring)
      (st : t) :
  firedEvents (actionsOf (onProcessExit p code signal st)) = [].
Proof.
  unfold onProcessExit. rewrite !actionsOf_bind, !firedEvents_app.
  rewrite (quiet_firedEvents _ (runEnded_quiet _)).
  unfold AbstractProcessListener.onProcessExit, when.
  destruct (AbstractProcessListener.isProcessError code); reflexivity.
Qed.

(** Only [processClose] fires [exit], and it fires it once, with the exit
    code that the listener holds. *)
Lemma react_exit (s : Stimulus) (st : t) :
  filter isExit (firedEvents (actionsOf (react sess s st)))
  = match s with
    | ProcessEvent p (processClose _ _) =>
        [ExitEvent p (valueOf (handleWatchProcessCrash p st)) (exitCode st)]
    | _ => []
    end.
Proof.
  destruct s as [p e | h | p r].
  - destruct e; cbn [react onEvent AbstractProcessListener.onEvent handlers
                           AbstractProcessListener.h_onProcessStarting
                           AbstractProcessListener.h_onExecutableStdErr
                           AbstractProcessListener.h_onExecutableJSON
                           AbstractProcessListener.h_onExecutableOutput
                           AbstractProcessListener.h_onTerminalError
                           AbstractProcessListener.h_onProcessClose
                           AbstractProcessListener.h_onProcessExit
                           AbstractProcessListener.h_name].
    + reflexivity.
    + rewrite onExecutableStdErr_fired.
      destruct (shouldIgnoreOutput (cleanAnsi data));
        [reflexivity | apply stdErrEvents_exit].
    + reflexivity.
    + unfold onExecutableOutput, when.
      destruct (negb (shouldIgnoreOutput (cleanAnsi data))); reflexivity.
    + reflexivity.
    + rewrite onProcessClose_eq. unfold actionsOf at 1. cbn [snd].
      rewrite firedEvents_app.
      rewrite (quiet_firedEvents _ (handleWatchProcessCrash_quiet _ _)).
      reflexivity.
    + rewrite onProcessExit_fired. reflexivity.
    + reflexivity.
  - cbn [react]. rewrite timeout_fired.
    destruct (Timers.isPending h (timers st)); [|reflexivity].
    destruct (runInfo st); reflexivity.
  - cbn [react]. destruct r; reflexivity.
Qed.

(** Only [processExit] changes the exit code that the listener holds. *)
Lemma react_exitCode (s : Stimulus) (st : t) :
  exitCode (stateOf (react sess s st))
  = match s with
    | ProcessEvent _ (processExit code _) => code
    | _ => exitCode st
    end.
Proof.
  destruct s as [p e | h | p r].
  - destruct e; cbn [react onEvent AbstractProcessListener.onEvent handlers
                           AbstractProcessListener.h_onProcessStarting
                           AbstractProcessListener.h_onExecutableStdErr
                           AbstractProcessListener.h_onExecutableJSON
                           AbstractProcessListener.h_onExecutableOutput
                           AbstractProcessListener.h_onTerminalError
                           AbstractProcessListener.h_onProcessClose
                           AbstractProcessListener.h_onProcessExit
                           AbstractProcessListener.h_name].
    + reflexivity.
    + apply onExecutableStdErr_exitCode.
    + reflexivity.
    + unfold onExecutableOutput, when.
      destruct (negb (shouldIgnoreOutput (cleanAnsi data))); reflexivity.
    + reflexivity.
    + rewrite onProcessClose_eq. reflexivity.
    + apply onProcessExit_exitCode.
    + reflexivity.
  - cbn [react]. apply timeout_exitCode.
  - cbn [react]. destruct r; reflexivity.
Qed.

Lemma run_app (a b : list Stimulus) (st : t) :
  run sess (a ++ b) st
  = (fst (run sess b (fst (run sess a st))),
     snd (run sess a st) ++ snd (run sess b (fst (run sess a st)))).
Proof.
  revert st; induction a as [|s a IH]; intros st.
  - simpl. destruct (run sess b st); reflexivity.
  - cbn [run app].
    destruct (react sess s st) as [[u s1] o1].
    rewrite IH.
    destruct (run sess a s1) as [s2 o2]. cbn [fst snd].
    rewrite app_assoc. reflexivity.
Qed.

Lemma run_cons (s : Stimulus) (l : list Stimulus) (st : t) :
  run sess (s :: l) st
  = (fst (run sess l (stateOf (react sess s st))),
     actionsOf (react sess s st)
     ++ snd (run sess l (stateOf (react sess s st)))).
Proof.
  cbn [run]. unfold stateOf, actionsOf.
  destruct (react sess s st) as [[u s1] o1]. cbn [fst snd].
  destruct (run sess l s1); reflexivity.
Qed.

Lemma run_no_close (l : list Stimulus) (st : t) :
  forallb (fun s => negb (isCloseStimulus s)) l = true ->
  filter isExit (firedEvents (snd (run sess l st))) = [].
Proof.
  revert st; induction l as [|s l IH]; intros st Hl; [reflexivity|].
  cbn [forallb] in Hl. apply andb_true_iff in Hl. destruct Hl as [Hs Hl].
  rewrite run_cons. cbn [snd]. rewrite firedEvents_app, filter_app.
  rewrite (IH _ Hl), app_nil_r, react_exit.
  destruct s as [p [] | |]; try reflexivity; discriminate Hs.
Qed.

Lemma run_no_exit (l : list Stimulus) (st : t) :
  forallb (fun s => negb (isExitStimulus s)) l = true ->
  exitCode (fst (run sess l st)) = exitCode st.
Proof.
  revert st; induction l as [|s l IH]; intros st Hl; [reflexivity|].
  cbn [forallb] in Hl. apply andb_true_iff in Hl. destruct Hl as [Hs Hl].
  rewrite run_cons. cbn [fst]. rewrite (IH _ Hl), react_exitCode.
  destruct s as [p [] | |]; try reflexivity; discriminate Hs.
Qed.

End Stimuli.

End RunTestListenerExit.

(** C8.  Over the life of a process, in which [processClose] reaches the
    listener once: exactly one [exit] event is fired, at the close; it
    carries an error text that is not empty when the process is a
    [watch-tests] or [watch-all-tests] process whose [stopReason] is not
    [on-demand], and no error otherwise; and its code is the one that the
    listener holds at the close, which is the code of the last
    [processExit] before it. *)
Theorem exit_event_once
        `{Host} (sess : ListenerSession)
        (before after : list RunTestListener.Stimulus) (p : JestProcess)
        (code : option Z) (signal : option jsstring)
        (st : RunTestListener.t) :
  forallb (fun s => negb (isCloseStimulus s)) before = true ->
  forallb (fun s => negb (isCloseStimulus s)) after = true ->
  let close := RunTestListener.ProcessEvent p (processClose code signal) in
  let out := snd (RunTestListener.run sess (before ++ close :: after) st) in
  let held :=
    RunTestListener.exitCode (fst (RunTestListener.run sess before st)) in
  exists error,
    filter isExit (firedEvents out) = [ExitEvent p error held]
    /\ (diedUnexpectedly p -> exists msg, error = Some msg /\ msg <> [])
    /\ (~ diedUnexpectedly p -> error = None)
    /\ (forall b1 q c sg b2,
           before = b1 ++ RunTestListener.ProcessEvent q (processExit c sg)
                       :: b2 ->
           forallb (fun s => negb (isExitStimulus s)) b2 = true ->
           held = c).
Proof.
  intros Hb Ha. cbv zeta.
  set (st1 := fst (RunTestListener.run sess before st)).
  exists (valueOf (RunTestListener.handleWatchProcessCrash p st1)).
  split; [|split; [|split]].
  - rewrite RunTestListenerExit.run_app. cbn [snd].
    rewrite firedEvents_app, filter_app.
    rewrite (RunTestListenerExit.run_no_close sess before st Hb).
    rewrite RunTestListenerExit.run_cons. cbn [snd app].
    rewrite firedEvents_app, filter_app.
    rewrite (RunTestListenerExit.run_no_close sess after _ Ha), app_nil_r.
    rewrite RunTestListenerExit.react_exit. reflexivity.
  - apply RunTestListenerExit.handleWatchProcessCrash_spec.
  - apply RunTestListenerExit.handleWatchProcessCrash_spec.
  - intros b1 q c sg b2 E Hn. subst st1. rewrite E.
    rewrite RunTestListenerExit.run_app. cbn [fst].
    rewrite RunTestListenerExit.run_cons. cbn [fst].
    rewrite (RunTestListenerExit.run_no_exit sess b2 _ Hn).
    rewrite RunTestListenerExit.react_exitCode. reflexivity.
Qed.

Lemma exit_event_once_witness :
  let before p :=
    [RunTestListener.ProcessEvent p processStarting;
     RunTestListener.ProcessEvent
       p (executableStdErr (str "onRunStart: numTotalTestSuites: 3"
                            ++ [CR; LF]));
     RunTestListener.ProcessEvent p (processExit (Some 1%Z) None)] in
  let close p := RunTestListener.ProcessEvent p (processClose (Some 1%Z) None) in
  (exists msg,
      filter isExit
             (firedEvents
                (snd (RunTestListener.run
                        Sample.session
                        (before Sample.watchTests ++ [close Sample.watchTests])
                        Sample.idle)))
      = [ExitEvent Sample.watchTests (Some msg) (Some 1%Z)]
      /\ msg <> [])
  /\
  filter isExit
         (firedEvents
            (snd (RunTestListener.run
                    Sample.session
                    (before Sample.watchTestsStopped
                     ++ [close Sample.watchTestsStopped])
                    Sample.idle)))
  = [ExitEvent Sample.watchTestsStopped None (Some 1%Z)].
Proof.
  cbv zeta. split.
  - destruct (exit_event_once
                Sample.session
                [RunTestListener.ProcessEvent Sample.watchTests
                                              processStarting;
                 RunTestListener.ProcessEvent
                   Sample.watchTests
                   (executableStdErr
                      (str "onRunStart: numTotalTestSuites: 3" ++ [CR; LF]));
                 RunTestListener.ProcessEvent Sample.watchTests
                                              (processExit (Some 1%Z) None)]
                []
                Sample.watchTests (Some 1%Z) None Sample.idle
                eq_refl eq_refl)
      as [error [E [D _]]].
    destruct D as [msg [-> Hm]]; [split; [left; reflexivity | discriminate]|].
    exists msg. split; [exact E | exact Hm].
  - destruct (exit_event_once
                Sample.session
                [RunTestListener.ProcessEvent Sample.watchTestsStopped
                                              processStarting;
                 RunTestListener.ProcessEvent
                   Sample.watchTestsStopped
                   (executableStdErr
                      (str "onRunStart: numTotalTestSuites: 3" ++ [CR; LF]));
                 RunTestListener.ProcessEvent Sample.watchTestsStopped
                                              (processExit (Some 1%Z) None)]
                []
                Sample.watchTestsStopped (Some 1%Z) None Sample.idle
                eq_refl eq_refl)
      as [error [E [_ [D _]]]].
    rewrite D in E; [exact E|].
    intros [_ N]. apply N. reflexivity.
Defined.

(* ================================================================== *)
(** * Properties: ListTestFileListener *)
(* ================================================================== *)

Module ListTestFileListenerFacts.
Import ListTestFileListener.

Section WithHost.
Context `{Host}.

Lemma onProcessClose_failed
      (p : JestProcess) (code : option Z) (signal : option jsstring)
      (this : t) :
  exitCode this <> Some 0%Z ->
  onProcessClose p code signal this
  = (tt, this,
     [OnResult (mkListResult None (Some (stderrOutput this))
                             (exitCode this))]).
Proof.
  intros Hc. unfold onProcessClose, AbstractProcessListener.onProcessClose.
  unfold bind, get, ret. cbn [fst snd app].
  destruct (exitCode this) as [c|] eqn:E.
  - destruct (Z.eqb_spec c 0) as [->|N]; [congruence|].
    cbn [negb]. reflexivity.
  - cbn [negb]. reflexivity.
Qed.





(** What the handlers other than [onProcessClose] do to the fields. *)
Lemma onEvent_exitCode (p : JestProcess) (e : JestProcessEvent) (this : t) :
  exitCode (stateOf (onEvent p e this))
  = match e with
    | processExit code _ => code
    | _ => exitCode this
    end.
Proof.
  destruct e; try reflexivity.
  - cbn [onEvent AbstractProcessListener.onEvent handlers
         AbstractProcessListener.h_onProcessClose].
    unfold onProcessClose, AbstractProcessListener.onProcessClose.
    rewrite !stateOf_bind. cbn [ret get stateOf valueOf fst snd].
    destruct (negb match exitCode this with
                   | Some c => (c =? 0)%Z
                   | None => false
                   end); [reflexivity|].
    destruct (stringMatchAll (buffer this) JsonArrayRegexp) as [[|m json]|];
      try reflexivity.
    destruct (reduce (m :: json) []); reflexivity.
  - cbn [onEvent AbstractProcessListener.onEvent handlers
         AbstractProcessListener.h_onProcessExit].
    unfold onProcessExit. rewrite !stateOf_bind. reflexivity.
Qed.

Lemma onEvent_stderrOutput (p : JestProcess) (e : JestProcessEvent) (this : t) :
  stderrOutput (stateOf (onEvent p e this))
  = stderrOutput this
    ++ match e with
       | executableStdErr data => data
       | _ => []
       end.
Proof.
  destruct e; rewrite ?app_nil_r; try reflexivity.
  - cbn [onEvent AbstractProcessListener.onEvent handlers
         AbstractProcessListener.h_onProcessClose].
    unfold onProcessClose, AbstractProcessListener.onProcessClose.
    rewrite !stateOf_bind. cbn [ret get stateOf valueOf fst snd].
    destruct (negb match exitCode this with
                   | Some c => (c =? 0)%Z
                   | None => false
                   end); [reflexivity|].
    destruct (stringMatchAll (buffer this) JsonArrayRegexp) as [[|m json]|];
      try reflexivity.
    destruct (reduce (m :: json) []); reflexivity.
  - cbn [onEvent AbstractProcessListener.onEvent handlers
         AbstractProcessListener.h_onProcessExit].
    unfold onProcessExit. rewrite !stateOf_bind.
    unfold AbstractProcessListener.onProcessExit, when.
    match goal with |- context [if ?b then _ else _] => destruct b end;
      reflexivity.
Qed.

Lemma listing_run_cons (pe : JestProcess * JestProcessEvent)
      (l : list (JestProcess * JestProcessEvent)) (this : t) :
  run (pe :: l) this
  = (fst (run l (stateOf (onEvent (fst pe) (snd pe) this))),
     actionsOf (onEvent (fst pe) (snd pe) this)
     ++ snd (run l (stateOf (onEvent (fst pe) (snd pe) this)))).
Proof.
  destruct pe as [p e]. cbn [run fst snd]. unfold stateOf, actionsOf.
  destruct (onEvent p e this) as [[u s1] o1]. cbn [fst snd].
  destruct (run l s1); reflexivity.
Qed.

Lemma listing_run_no_exit (l : list (JestProcess * JestProcessEvent)) (this : t) :
  forallb (fun pe => negb (isExitEvent pe)) l = true ->
  exitCode (fst (run l this)) = exitCode this
  /\ stderrOutput (fst (run l this)) = stderrOutput this ++ stderrOf l.
Proof.
  revert this; induction l as [|pe l IH]; intros this Hl.
  - simpl. rewrite app_nil_r. auto.
  - cbn [forallb] in Hl. apply andb_true_iff in Hl. destruct Hl as [Hs Hl].
    rewrite listing_run_cons. cbn [fst].
    destruct (IH (stateOf (onEvent (fst pe) (snd pe) this)) Hl) as [E1 E2].
    rewrite E1, E2, onEvent_exitCode, onEvent_stderrOutput.
    unfold stderrOf. cbn [flat_map]. rewrite app_assoc.
    destruct pe as [p e]. cbn [snd fst] in *.
    destruct e; try (split; reflexivity). discriminate Hs.
Qed.

End WithHost.

End ListTestFileListenerFacts.

(** C10.  When [processClose] reaches the listing listener and no
    [processExit] came before it, the exit code is still undefined and
    counts as a failure: the callback is called once, without a list, with
    the stderr text gathered so far and with an undefined code, whatever
    the stdout buffer holds. *)
Theorem close_without_exit_is_failure
        `{Host} (events : list (JestProcess * JestProcessEvent))
        (p : JestProcess) (code : option Z) (signal : option jsstring) :
  forallb (fun pe => negb (isExitEvent pe)) events = true ->
  let this :=
    fst (ListTestFileListener.run events ListTestFileListener.constructor) in
  results (actionsOf (ListTestFileListener.onEvent
                        p (processClose code signal) this))
  = [mkListResult None (Some (stderrOf events)) None].
Proof.
  intros He. cbv zeta.
  destruct (ListTestFileListenerFacts.listing_run_no_exit
              events ListTestFileListener.constructor He) as [E1 E2].
  cbn [ListTestFileListener.onEvent AbstractProcessListener.onEvent
       ListTestFileListener.handlers
       AbstractProcessListener.h_onProcessClose].
  rewrite ListTestFileListenerFacts.onProcessClose_failed.
  - cbn [actionsOf snd results flat_map app]. rewrite E1, E2. reflexivity.
  - rewrite E1. discriminate.
Qed.

Lemma close_without_exit_is_failure_witness :
  let events :=
    [(Sample.listTestFiles,
      executableOutput
        (str "[" ++ [DQUOTE] ++ str "/a.test.js" ++ [DQUOTE] ++ str "]"));
     (Sample.listTestFiles, executableStdErr (str "boom"))] in
  results
    (actionsOf
       (ListTestFileListener.onEvent
          Sample.listTestFiles (processClose (Some 0%Z) None)
          (fst (ListTestFileListener.run events
                                         ListTestFileListener.constructor))))
  = [mkListResult None (Some (str "boom")) None].
Proof.
  cbv zeta.
  apply (close_without_exit_is_failure
           [(Sample.listTestFiles,
             executableOutput
               (str "[" ++ [DQUOTE] ++ str "/a.test.js" ++ [DQUOTE]
                ++ str "]"));
            (Sample.listTestFiles, executableStdErr (str "boom"))]
           Sample.listTestFiles (Some 0%Z) None).
  reflexivity.
Defined.

(* ================================================================== *)
(** * Properties: the matcher *)
(* ================================================================== *)

Module RegExpFacts.

Lemma isLineTerminator_iff (c : ascii) :
  isLineTerminator c = true <-> c = LF \/ c = CR.
Proof.
  unfold isLineTerminator. rewrite orb_true_iff, !Ascii.eqb_eq. tauto.
Qed.

Lemma flat_map_single {A B} (f : A -> list B) (a : A) :
  flat_map f [a] = f a.
Proof. simpl. apply app_nil_r. Qed.

Lemma mstate_eta (st : MState) :
  mkMState (prev st) (rest st) (caps st) = st.
Proof. destruct st; reflexivity. Qed.

Lemma step_cons (p : ascii -> bool) (pv : option ascii) (c : ascii)
      (s : jsstring) (cs : list (nat * option jsstring)) :
  step p (mkMState pv (c :: s) cs)
  = if p c then [mkMState (Some c) s cs] else [].
Proof. reflexivity. Qed.

Lemma step_nil (p : ascii -> bool) (pv : option ascii)
      (cs : list (nat * option jsstring)) :
  step p (mkMState pv [] cs) = [].
Proof. reflexivity. Qed.

(** One round of a repetition of a single code unit. *)
Lemma repeat_step (p : ascii -> bool) (g : bool) (fuel : nat) (st : MState) :
  repeat (step p) [] g (S fuel) st
  = let more :=
      match rest st with
      | c :: s' =>
          if p c
          then repeat (step p) [] g fuel (mkMState (Some c) s' (caps st))
          else []
      | [] => []
      end in
    if g then more ++ [st] else st :: more.
Proof.
  destruct st as [pv [|c s'] cs]; cbn [repeat]; unfold clearGroups;
    cbn [map app prev rest caps].
  - rewrite step_nil. reflexivity.
  - rewrite step_cons. destruct (p c); [|reflexivity].
    cbn [filter rest].
    replace (length s' <? length (c :: s')) with true
      by (symmetry; apply Nat.ltb_lt; simpl; lia).
    rewrite flat_map_single. reflexivity.
Qed.

(** A run of pattern characters matches in one way at most. *)
Lemma matcher_LitL (fl : Flags) (l : jsstring) (st : MState) :
  matcher fl (LitL l) st
  = if litPrefix (ignoreCase fl) l (rest st)
    then [advance (length l) st] else [].
Proof.
  revert st; induction l as [|x l IH]; intros st; [reflexivity|].
  cbn [LitL fold_right matcher]. fold (LitL l).
  unfold step. cbn [litPrefix length advance].
  destruct (rest st) as [|y s'] eqn:E; [reflexivity|].
  unfold charEq. destruct (ignoreCase fl).
  - destruct (Ascii.eqb (canonicalize x) (canonicalize y));
      [|reflexivity].
    rewrite flat_map_single, IH. reflexivity.
  - destruct (Ascii.eqb x y); [|reflexivity].
    rewrite flat_map_single, IH. reflexivity.
Qed.

Lemma rest_advance (n : nat) (st : MState) :
  rest (advance n st) = skipn n (rest st).
Proof.
  revert st; induction n as [|n IH]; intros st; [reflexivity|].
  cbn [advance]. destruct (rest st) as [|c s'] eqn:E.
  - rewrite E. reflexivity.
  - rewrite IH. reflexivity.
Qed.

End RegExpFacts.

(* ================================================================== *)
(** * Properties: JsonArrayRegexp *)
(* ================================================================== *)

Module JsonArrayFacts.
Import RegExpFacts.

Lemma upTo_from (stop : ascii -> bool) (s : jsstring) :
  upTo stop s ++ from stop s = s.
Proof.
  induction s as [|c s IH]; [reflexivity|].
  simpl. destruct (stop c); [reflexivity|]. simpl. rewrite IH. reflexivity.
Qed.

Lemma atLineEnd_upTo (fl : Flags) (pv : option ascii) (s : jsstring)
      (cs : list (nat * option jsstring)) :
  multiline fl = true ->
  atLineEnd fl (mkMState pv s cs) = true
  <-> upTo isLineTerminator s = [].
Proof.
  intros Hm. unfold atLineEnd. cbn [rest]. rewrite Hm.
  destruct s as [|c s]; simpl; [tauto|].
  destruct (isLineTerminator c); split; congruence.
Qed.

Lemma from_at_end (s : jsstring) :
  upTo isLineTerminator s = [] -> from isLineTerminator s = s.
Proof.
  destruct s as [|c s]; simpl; [reflexivity|].
  destruct (isLineTerminator c); [reflexivity | discriminate].
Qed.

(** The lazy [.*?] followed by the closing bracket at the end of the
    line. *)
Lemma lazy_close (s : jsstring) :
  forall (pv : option ascii) (cs : list (nat * option jsstring))
         (fuel : nat),
    length s < fuel ->
    hd_error
      (flat_map (matcher (flags JsonArrayRegexp) (Seq (Char "]") AssertEnd))
                (repeat (step notTerminator) [] false fuel
                        (mkMState pv s cs)))
    = if lastIs "]" (upTo isLineTerminator s)
      then Some (mkMState (Some "]"%char) (from isLineTerminator s) cs)
      else None.
Proof.
  induction s as [|c s IH]; intros pv cs fuel Hf;
    (destruct fuel as [|fuel]; [simpl in Hf; lia|]);
    rewrite repeat_step; cbn [rest caps].
  - reflexivity.
  - cbn [flat_map matcher flags JsonArrayRegexp]. rewrite step_cons.
    unfold charEq. cbn [ignoreCase].
    cbn [upTo from].
    destruct (Ascii.eqb_spec "]" c) as [<-|Nc].
    + rewrite flat_map_single.
      destruct (atLineEnd (mkFlags true false true)
                          (mkMState (Some "]"%char) s cs)) eqn:Ea.
      * apply atLineEnd_upTo in Ea; [|reflexivity].
        cbn [app hd_error]. change (isLineTerminator "]") with false.
        cbv iota. rewrite Ea. cbn [lastIs Ascii.eqb].
        rewrite (from_at_end s Ea). reflexivity.
      * cbn [app].
        change (isLineTerminator "]") with false. cbv iota.
        change (notTerminator "]") with true. cbv iota.
        rewrite IH by (simpl in Hf; lia).
        assert (Hn : upTo isLineTerminator s <> []).
        { intros E. apply (atLineEnd_upTo (mkFlags true false true)
                                          (Some "]"%char) s cs eq_refl) in E.
          congruence. }
        destruct (upTo isLineTerminator s) as [|x l]; [congruence|].
        reflexivity.
    + cbn [flat_map app]. unfold notTerminator at 1.
      destruct (isLineTerminator c) eqn:Et; cbn [negb].
      * reflexivity.
      * rewrite IH by (simpl in Hf; lia).
        destruct (upTo isLineTerminator s) as [|x l] eqn:Eu.
        -- cbn [lastIs]. destruct (Ascii.eqb_spec c "]"); [congruence|].
           reflexivity.
        -- reflexivity.
Qed.

Lemma execAt_JsonArrayRegexp (p : option ascii) (s : jsstring) :
  execAt JsonArrayRegexp p s
  = option_map (fun r => mkMState (Some "]"%char) r []) (jsonArrayAt p s).
Proof.
  unfold execAt, jsonArrayAt.
  cbn [source flags JsonArrayRegexp matcher].
  unfold atLineStart. cbn [prev multiline].
  replace (match p with
           | Some c => true && isLineTerminator c
           | None => true
           end) with (lineStart p) by (destruct p; reflexivity).
  destruct (lineStart p); cbn [andb]; [|reflexivity].
  rewrite flat_map_single.
  destruct s as [|c s].
  - reflexivity.
  - rewrite step_cons. unfold charEq. cbn [ignoreCase].
    cbn [upTo isBracketLine].
    destruct (Ascii.eqb_spec "[" c) as [<-|Nc].
    + rewrite flat_map_single. cbn [rest].
      change (isLineTerminator "[") with false. cbv iota.
      cbn [isBracketLine from].
      change (isLineTerminator "[") with false. cbv iota.
      change (fun x : ascii => negb (isLineTerminator x)) with notTerminator.
      rewrite lazy_close by lia.
      destruct (lastIs "]" (upTo isLineTerminator s)); reflexivity.
    + cbn [flat_map hd_error].
      destruct (isLineTerminator c); [reflexivity|].
      cbn [isBracketLine].
      destruct c as [[] [] [] [] [] [] [] []]; try reflexivity.
      congruence.
Qed.

End JsonArrayFacts.

(* ================================================================== *)
(** * Properties: the successive matches of a global pattern *)
(* ================================================================== *)

Module PiecesFacts.
Import RegExpFacts.

Lemma pieces_skip (re : RegExp) (a v : jsstring) :
  forall p, pieces re p (a ++ v) (length a) = pieces re (prevAfter p a) v 0.
Proof.
  induction a as [|c a IH]; intros p; [reflexivity|].
  cbn [app length pieces]. rewrite IH. reflexivity.
Qed.

(** A match that is not empty is passed over. *)
Lemma pieces_match (re : RegExp) (p : option ascii) (m v : jsstring)
      (st : MState) :
  m <> [] ->
  execAt re p (m ++ v) = Some st ->
  rest st = v ->
  pieces re p (m ++ v) 0 = Matched m :: pieces re (prevAfter p m) v 0.
Proof.
  intros Hm He Hr. destruct m as [|c m]; [congruence|].
  assert (Et : matchedText ((c :: m) ++ v) st = c :: m).
  { unfold matchedText. rewrite Hr.
    replace (length ((c :: m) ++ v) - length v) with (length (c :: m))
      by (rewrite length_app; lia).
    rewrite firstn_app, Nat.sub_diag, firstn_all. cbn [firstn].
    apply app_nil_r. }
  change ((c :: m) ++ v) with (c :: (m ++ v)) in *.
  cbn [pieces]. rewrite He, Et. cbn [length].
  rewrite pieces_skip. reflexivity.
Qed.

Lemma pieces_no_match (re : RegExp) (p : option ascii) (c : ascii)
      (s : jsstring) :
  execAt re p (c :: s) = None ->
  pieces re p (c :: s) 0 = Kept c :: pieces re (Some c) s 0.
Proof. intros He. cbn [pieces]. rewrite He. reflexivity. Qed.

Lemma pieces_nil (re : RegExp) (p : option ascii) :
  execAt re p [] = None -> pieces re p [] 0 = [].
Proof. intros He. cbn [pieces]. rewrite He. reflexivity. Qed.

Lemma prevAfter_app (p : option ascii) (a b : jsstring) :
  prevAfter p (a ++ b) = prevAfter (prevAfter p a) b.
Proof. unfold prevAfter. apply fold_left_app. Qed.

Lemma prevAfter_last (p : option ascii) (a : jsstring) (c : ascii) :
  prevAfter p (a ++ [c]) = Some c.
Proof. rewrite prevAfter_app. reflexivity. Qed.

End PiecesFacts.

Module JsonArrayMatches.
Import RegExpFacts PiecesFacts JsonArrayFacts.

Lemma linesOf_first (s : jsstring) :
  linesOf s
  = upTo isLineTerminator s
    :: match from isLineTerminator s with
       | [] => []
       | _ :: s' => linesOf s'
       end.
Proof.
  induction s as [|c s IH]; [reflexivity|].
  cbn [linesOf upTo from]. destruct (isLineTerminator c); [reflexivity|].
  rewrite IH. reflexivity.
Qed.

Lemma from_head (stop : ascii -> bool) (s : jsstring) :
  match from stop s with
  | [] => True
  | c :: _ => stop c = true
  end.
Proof.
  induction s as [|c s IH]; [exact I|].
  cbn [from]. destruct (stop c) eqn:E; [exact E | exact IH].
Qed.

Lemma upTo_none (stop : ascii -> bool) (s : jsstring) :
  forallb (fun c => negb (stop c)) (upTo stop s) = true.
Proof.
  induction s as [|c s IH]; [reflexivity|].
  cbn [upTo]. destruct (stop c) eqn:E; [reflexivity|].
  cbn [forallb]. rewrite E. exact IH.
Qed.

(** After a text without line terminators that is not empty, the position
    is not the start of a line. *)
Lemma lineStart_prevAfter (p : option ascii) (a : jsstring) :
  a <> [] ->
  forallb notTerminator a = true ->
  lineStart (prevAfter p a) = false.
Proof.
  revert p; induction a as [|c a IH]; intros p Hn Ha; [congruence|].
  cbn [forallb] in Ha. apply andb_true_iff in Ha. destruct Ha as [Hc Ha].
  destruct a as [|d a].
  - cbn. unfold notTerminator in Hc. apply negb_true_iff in Hc. exact Hc.
  - change (prevAfter p (c :: d :: a)) with (prevAfter (Some c) (d :: a)).
    apply IH; [discriminate | exact Ha].
Qed.

Lemma isBracketLine_not_nil (l : jsstring) :
  isBracketLine l = true -> l <> [].
Proof. destruct l; [discriminate | discriminate]. Qed.

(** The matches of [JsonArrayRegexp] are the bracket-delimited lines. *)
Lemma matches_from (n : nat) :
  forall (s : jsstring) (p : option ascii),
    length s <= n ->
    matchesOf (pieces JsonArrayRegexp p s 0)
    = filter isBracketLine
             (if lineStart p then linesOf s else tl (linesOf s)).
Proof.
  induction n as [|n IH]; intros s p Hn.
  - destruct s; [|simpl in Hn; lia].
    rewrite pieces_nil.
    + destruct (lineStart p); reflexivity.
    + rewrite execAt_JsonArrayRegexp. unfold jsonArrayAt.
      rewrite andb_false_r. reflexivity.
  - destruct (jsonArrayAt p s) as [r|] eqn:Ej.
    + unfold jsonArrayAt in Ej.
      destruct (lineStart p) eqn:Ep; [|discriminate Ej].
      destruct (isBracketLine (upTo isLineTerminator s)) eqn:Eb;
        [|discriminate Ej].
      cbn [andb] in Ej. injection Ej as Er.
      pose proof (upTo_from isLineTerminator s) as Es. rewrite Er in Es.
      set (u := upTo isLineTerminator s) in *.
      assert (Hu : u <> []) by (apply isBracketLine_not_nil; exact Eb).
      rewrite linesOf_first. fold u. rewrite Er.
      cbn [filter]. rewrite Eb.
      rewrite <- Es.
      rewrite (pieces_match JsonArrayRegexp p u r
                            (mkMState (Some "]"%char) r [])); auto.
      * cbn [matchesOf flat_map app]. fold (matchesOf (pieces JsonArrayRegexp (prevAfter p u) r 0)).
        rewrite IH.
        -- rewrite lineStart_prevAfter; auto.
           ++ f_equal. pose proof (from_head isLineTerminator s) as Hh.
              rewrite Er in Hh. destruct r as [|c r]; [reflexivity|].
              cbn [linesOf]. rewrite Hh. reflexivity.
           ++ apply upTo_none.
        -- assert (length s = length u + length r)
             by (rewrite <- Es at 1; apply length_app).
           destruct u; [congruence|]. simpl in *. lia.
      * rewrite Es, execAt_JsonArrayRegexp. unfold jsonArrayAt.
        fold u. rewrite Ep, Eb, Er. reflexivity.
    + assert (He : execAt JsonArrayRegexp p s = None)
        by (rewrite execAt_JsonArrayRegexp, Ej; reflexivity).
      destruct s as [|c s].
      * rewrite (pieces_nil _ _ He).
        destruct (lineStart p); reflexivity.
      * rewrite (pieces_no_match _ _ _ _ He).
        cbn [matchesOf flat_map app].
        fold (matchesOf (pieces JsonArrayRegexp (Some c) s 0)).
        rewrite IH by (simpl in Hn; lia).
        cbn [lineStart].
        unfold jsonArrayAt in Ej. cbn [upTo] in Ej.
        rewrite (linesOf_first (c :: s)), (linesOf_first s).
        cbn [upTo from].
        destruct (isLineTerminator c) eqn:Et.
        -- rewrite <- (linesOf_first s).
           destruct (lineStart p); reflexivity.
        -- cbn [tl]. destruct (lineStart p); cbn [andb tl filter] in *.
           ++ destruct (isBracketLine (c :: upTo isLineTerminator s));
                [discriminate Ej | reflexivity].
           ++ reflexivity.
Qed.

Lemma stringMatchAll_JsonArrayRegexp (s : jsstring) :
  stringMatchAll s JsonArrayRegexp
  = match bracketLines s with
    | [] => None
    | json => Some json
    end.
Proof.
  unfold stringMatchAll, bracketLines.
  rewrite (matches_from (length s) s None (le_n _)). reflexivity.
Qed.

End JsonArrayMatches.



(* ================================================================== *)
(** * Properties: CONTROL_MESSAGES at one position *)
(* ================================================================== *)

Module ControlMessageFacts.
Import RegExpFacts PiecesFacts JsonArrayFacts JsonArrayMatches.

Lemma class_not_LF (x : ascii) :
  xorb true (classHas (flags CONTROL_MESSAGES) [ClassChar LF] x)
  = negb (isLF x).
Proof. destruct x as [[] [] [] [] [] [] [] []]; reflexivity. Qed.

Lemma char_LF (x : ascii) : charEq (flags CONTROL_MESSAGES) LF x = isLF x.
Proof. destruct x as [[] [] [] [] [] [] [] []]; reflexivity. Qed.

Lemma isLF_eq (x : ascii) : isLF x = true <-> x = LF.
Proof. unfold isLF. apply Ascii.eqb_eq. Qed.

Lemma step_ext (p q : ascii -> bool) (st : MState) :
  (forall x, p x = q x) -> step p st = step q st.
Proof.
  intros Hpq. unfold step. destruct (rest st); [reflexivity|].
  rewrite Hpq. reflexivity.
Qed.

Lemma repeat_ext (body body' : MState -> list MState) (gs : list nat)
      (g : bool) :
  (forall st, body st = body' st) ->
  forall fuel st, repeat body gs g fuel st = repeat body' gs g fuel st.
Proof.
  intros Hb. induction fuel as [|fuel IH]; intros st; [reflexivity|].
  cbn [repeat]. rewrite Hb.
  rewrite (flat_map_ext _ _ IH). reflexivity.
Qed.

(** The greedy [[^\n]*] followed by the newline. *)
Lemma greedy_to_newline (s : jsstring) :
  forall (pv : option ascii) (cs : list (nat * option jsstring))
         (fuel : nat),
    length s < fuel ->
    flat_map (step isLF)
             (repeat (step (fun x => negb (isLF x))) [] true fuel
                     (mkMState pv s cs))
    = match from isLF s with
      | _ :: r => [mkMState (Some LF) r cs]
      | [] => []
      end.
Proof.
  induction s as [|c s IH]; intros pv cs fuel Hf;
    (destruct fuel as [|fuel]; [simpl in Hf; lia|]);
    rewrite repeat_step; cbn [rest caps].
  - reflexivity.
  - cbn [from]. destruct (isLF c) eqn:Ec; cbn [negb].
    + apply isLF_eq in Ec. subst c. reflexivity.
    + rewrite flat_map_app, IH by (simpl in Hf; lia).
      rewrite flat_map_single, step_cons, Ec. apply app_nil_r.
Qed.

Lemma matcher_line_body (st : MState) :
  matcher (flags CONTROL_MESSAGES)
          (Seq (Plus true (Class true [ClassChar LF])) (Char LF)) st
  = match lineBodyAt (rest st) with
    | Some r => [mkMState (Some LF) r (caps st)]
    | None => []
    end.
Proof.
  cbn [matcher groups]. unfold clearGroups. cbn [map app].
  rewrite mstate_eta.
  rewrite (flat_map_ext _ (step isLF))
    by (intros a; apply step_ext, char_LF).
  rewrite (step_ext _ (fun x => negb (isLF x)) st class_not_LF).
  destruct st as [pv [|c s] cs]; cbn [rest caps lineBodyAt].
  - reflexivity.
  - rewrite step_cons. destruct (isLF c); cbn [negb]; [reflexivity|].
    rewrite flat_map_single. cbn [rest].
    rewrite (repeat_ext
               _ (step (fun x => negb (isLF x))) [] true
               (fun st => step_ext _ _ st class_not_LF)).
    rewrite greedy_to_newline by lia.
    destruct (from isLF s); reflexivity.
Qed.

Lemma plain_not_terminator (x c : ascii) :
  negb (isLineTerminator (canonicalize x)) = true ->
  Ascii.eqb (canonicalize x) (canonicalize c) = true ->
  isLineTerminator c = false.
Proof.
  intros Hx He. destruct (isLineTerminator c) eqn:Ec; [|reflexivity].
  apply isLineTerminator_iff in Ec. apply Ascii.eqb_eq in He.
  destruct Ec as [-> | ->]; rewrite He in Hx; discriminate Hx.
Qed.

Lemma isLF_terminator (c : ascii) :
  isLF c = true -> isLineTerminator c = true.
Proof. intros H. apply isLF_eq in H. subst. reflexivity. Qed.

(** A control word and the rest of its line, in terms of the line. *)
Lemma wordAt_line (w : jsstring) :
  plainWord w = true ->
  forall s,
    wordAt w s
    = if litPrefix true w (upTo isLF s)
         && (length w <? length (upTo isLF s))
      then match from isLF s with
           | _ :: r => Some r
           | [] => None
           end
      else None.
Proof.
  unfold wordAt. induction w as [|x w IH]; intros Hw s.
  - cbn [litPrefix skipn length andb].
    destruct s as [|c s]; [reflexivity|].
    cbn [lineBodyAt upTo from]. destruct (isLF c); reflexivity.
  - cbn [plainWord forallb] in Hw. apply andb_true_iff in Hw.
    destruct Hw as [Hx Hw].
    destruct s as [|c s]; [reflexivity|].
    cbn [litPrefix upTo from].
    destruct (Ascii.eqb (canonicalize x) (canonicalize c)) eqn:Ec.
    + assert (El : isLF c = false).
      { destruct (isLF c) eqn:El; [|reflexivity].
        apply isLF_terminator in El.
        rewrite (plain_not_terminator x c Hx Ec) in El. discriminate El. }
      rewrite El. cbn [litPrefix length skipn andb]. rewrite Ec.
      cbn [andb]. rewrite (IH Hw s). reflexivity.
    + cbn [andb]. destruct (isLF c); [reflexivity|].
      cbn [litPrefix]. rewrite Ec. reflexivity.
Qed.

(** One alternative of the group, then the rest of the pattern. *)
Lemma word_then_body (w : jsstring) (st : MState) :
  map rest
      (flat_map (matcher (flags CONTROL_MESSAGES)
                         (Seq (Plus true (Class true [ClassChar LF]))
                              (Char LF)))
                (map (setCapture 1 st)
                     (matcher (flags CONTROL_MESSAGES) (LitL w) st)))
  = match wordAt w (rest st) with
    | Some r => [r]
    | None => []
    end.
Proof.
  rewrite matcher_LitL. unfold wordAt. cbn [ignoreCase flags CONTROL_MESSAGES].
  destruct (litPrefix true w (rest st)); [|reflexivity].
  cbn [map]. rewrite flat_map_single, matcher_line_body.
  unfold setCapture at 1. cbn [rest]. rewrite rest_advance.
  destruct (lineBodyAt (skipn (length w) (rest st))); reflexivity.
Qed.

Lemma hd_error_map {A B} (f : A -> B) (l : list A) :
  hd_error (map f l) = option_map f (hd_error l).
Proof. destruct l; reflexivity. Qed.

Lemma controlWords_plain : forallb plainWord controlWords = true.
Proof. reflexivity. Qed.

Lemma matcher_Seq (fl : Flags) (r1 r2 : Regex) (st : MState) :
  matcher fl (Seq r1 r2) st = flat_map (matcher fl r2) (matcher fl r1 st).
Proof. reflexivity. Qed.

Lemma matcher_Alt (fl : Flags) (r1 r2 : Regex) (st : MState) :
  matcher fl (Alt r1 r2) st = matcher fl r1 st ++ matcher fl r2 st.
Proof. reflexivity. Qed.

Lemma matcher_Group (fl : Flags) (i : nat) (r : Regex) (st : MState) :
  matcher fl (Group i r) st = map (setCapture i st) (matcher fl r st).
Proof. reflexivity. Qed.

Lemma matcher_AssertStart (fl : Flags) (st : MState) :
  multiline fl = true ->
  matcher fl AssertStart st = if lineStart (prev st) then [st] else [].
Proof.
  intros Hm. cbn [matcher]. unfold atLineStart. rewrite Hm.
  destruct (prev st); reflexivity.
Qed.

Lemma source_CONTROL_MESSAGES :
  source CONTROL_MESSAGES
  = Seq AssertStart
        (Seq (Group 1 (Alt (LitL (str "onRunStart"))
                           (Alt (LitL (str "onRunComplete"))
                                (LitL (str "Test results written to")))))
             (Seq (Plus true (Class true [ClassChar LF])) (Char LF))).
Proof. reflexivity. Qed.

Lemma execAt_CONTROL_MESSAGES (p : option ascii) (s : jsstring) :
  option_map rest (execAt CONTROL_MESSAGES p s) = controlAt p s.
Proof.
  unfold execAt. rewrite <- hd_error_map.
  rewrite source_CONTROL_MESSAGES.
  rewrite matcher_Seq, matcher_AssertStart by reflexivity.
  cbn [prev]. unfold controlAt.
  destruct (lineStart p); cbn [andb]; [|reflexivity].
  rewrite flat_map_single.
  rewrite matcher_Seq, matcher_Group, !matcher_Alt.
  rewrite !map_app, !flat_map_app, !map_app.
  rewrite !word_then_body. cbn [rest].
  rewrite !wordAt_line by reflexivity.
  unfold isControlLine. cbn [existsb controlWords].
  destruct (from isLF s) as [|x r];
    destruct (litPrefix true (str "onRunStart") (upTo isLF s)
              && (length (str "onRunStart") <? length (upTo isLF s)));
    destruct (litPrefix true (str "onRunComplete") (upTo isLF s)
              && (length (str "onRunComplete") <? length (upTo isLF s)));
    destruct (litPrefix true (str "Test results written to") (upTo isLF s)
              && (length (str "Test results written to")
                  <? length (upTo isLF s)));
    reflexivity.
Qed.

End ControlMessageFacts.

(* ================================================================== *)
(** * Properties: cleanupOutput leaves no control message *)
(* ================================================================== *)

Module CleanupFacts.
Import RegExpFacts PiecesFacts JsonArrayFacts JsonArrayMatches
       ControlMessageFacts.

Lemma controlAt_Some (p : option ascii) (s r : jsstring) :
  controlAt p s = Some r
  <-> lineStart p = true
      /\ isControlLine (upTo isLF s) = true
      /\ exists x, from isLF s = x :: r.
Proof.
  unfold controlAt.
  destruct (lineStart p), (isControlLine (upTo isLF s)); cbn [andb];
    try (split; [discriminate | intros [? [? ?]]; discriminate]).
  destruct (from isLF s) as [|x r'].
  - split; [discriminate | intros [_ [_ [x E]]]; discriminate].
  - split.
    + intros E. injection E as ->. eauto.
    + intros [_ [_ [y E]]]. injection E as _ ->. reflexivity.
Qed.

Lemma controlAt_lineStart (p q : option ascii) (s : jsstring) :
  lineStart p = lineStart q -> controlAt p s = controlAt q s.
Proof. intros E. unfold controlAt. rewrite E. reflexivity. Qed.

Lemma execAt_None (p : option ascii) (s : jsstring) :
  controlAt p s = None -> execAt CONTROL_MESSAGES p s = None.
Proof.
  intros E. rewrite <- execAt_CONTROL_MESSAGES in E.
  destruct (execAt CONTROL_MESSAGES p s); [discriminate | reflexivity].
Qed.

Lemma keptText_Matched (m : jsstring) (ps : list Piece) :
  keptText (Matched m :: ps) = keptText ps.
Proof. reflexivity. Qed.

Lemma cleaned_nil (p : option ascii) : cleaned p [] = [].
Proof.
  unfold cleaned. rewrite pieces_nil; [reflexivity|].
  apply execAt_None. unfold controlAt. rewrite andb_false_r. reflexivity.
Qed.

Lemma cleaned_keep (p : option ascii) (c : ascii) (s : jsstring) :
  controlAt p (c :: s) = None ->
  cleaned p (c :: s) = c :: cleaned (Some c) s.
Proof.
  intros E. unfold cleaned.
  rewrite (pieces_no_match _ _ _ _ (execAt_None _ _ E)). reflexivity.
Qed.

Lemma cleaned_match (p : option ascii) (s r : jsstring) :
  controlAt p s = Some r -> cleaned p s = cleaned (Some LF) r.
Proof.
  intros E. pose proof E as E'.
  apply controlAt_Some in E'. destruct E' as [_ [_ [x Ex]]].
  pose proof (from_head isLF s) as Hx. rewrite Ex in Hx.
  apply isLF_eq in Hx. subst x.
  pose proof (upTo_from isLF s) as Es. rewrite Ex in Es.
  rewrite <- execAt_CONTROL_MESSAGES in E.
  destruct (execAt CONTROL_MESSAGES p s) as [st|] eqn:Est; [|discriminate E].
  cbn [option_map] in E. injection E as Er.
  unfold cleaned.
  replace s with ((upTo isLF s ++ [LF]) ++ r) in Est |- *
    by (rewrite <- app_assoc; exact Es).
  rewrite (pieces_match CONTROL_MESSAGES p (upTo isLF s ++ [LF]) r st);
    [| destruct (upTo isLF s); discriminate | exact Est | exact Er].
  rewrite keptText_Matched, prevAfter_last. reflexivity.
Qed.

Lemma prevAfter_cons (p : option ascii) (c : ascii) (a : jsstring) :
  prevAfter p (c :: a) = prevAfter (Some c) a.
Proof. reflexivity. Qed.

Lemma upTo_app_free (stop : ascii -> bool) (a y : jsstring) :
  forallb (fun c => negb (stop c)) a = true ->
  upTo stop (a ++ y) = a ++ upTo stop y.
Proof.
  induction a as [|c a IH]; intros Ha; [reflexivity|].
  cbn [forallb] in Ha. apply andb_true_iff in Ha. destruct Ha as [Hc Ha].
  cbn [app upTo]. apply negb_true_iff in Hc. rewrite Hc, (IH Ha).
  reflexivity.
Qed.

Lemma litPrefix_app (ci : bool) (w a y : jsstring) :
  litPrefix ci w a = true -> litPrefix ci w (a ++ y) = true.
Proof.
  revert a; induction w as [|x w IH]; intros a; [reflexivity|].
  destruct a as [|c a]; [discriminate|].
  cbn [litPrefix app]. rewrite !andb_true_iff. intros [H1 H2].
  split; [exact H1 | apply IH; exact H2].
Qed.

(** A control word does not reach across a line terminator. *)
Lemma litPrefix_cut (w : jsstring) :
  plainWord w = true ->
  forall a0 x y,
    isLineTerminator x = true ->
    litPrefix true w ((a0 ++ [x]) ++ y) = true ->
    litPrefix true w (a0 ++ [x]) = true /\ length w < length (a0 ++ [x]).
Proof.
  induction w as [|z w IH]; intros Hw a0 x y Hx Hp.
  - split; [reflexivity|]. rewrite length_app. simpl. lia.
  - cbn [plainWord forallb] in Hw. apply andb_true_iff in Hw.
    destruct Hw as [Hz Hw].
    destruct a0 as [|c a0].
    + cbn [app litPrefix] in Hp. apply andb_true_iff in Hp.
      destruct Hp as [Hc _].
      rewrite (plain_not_terminator z x Hz Hc) in Hx. discriminate Hx.
    + cbn [app litPrefix] in Hp |- *. apply andb_true_iff in Hp.
      destruct Hp as [Hc Hp]. rewrite Hc.
      destruct (IH Hw a0 x y Hx Hp) as [H1 H2].
      cbn [andb length]. split; [exact H1 | lia].
Qed.

Lemma isControlLine_cut (a0 : jsstring) (x : ascii) (y : jsstring) :
  isLineTerminator x = true ->
  isControlLine ((a0 ++ [x]) ++ y) = true ->
  isControlLine (a0 ++ [x]) = true.
Proof.
  intros Hx. unfold isControlLine. rewrite !existsb_exists.
  intros [w [Hin Hw]]. exists w. split; [exact Hin|].
  apply andb_true_iff in Hw. destruct Hw as [Hp _].
  assert (Hplain : plainWord w = true).
  { pose proof controlWords_plain as Hall.
    rewrite forallb_forall in Hall. apply Hall. exact Hin. }
  destruct (litPrefix_cut w Hplain a0 x y Hx Hp) as [H1 H2].
  rewrite H1. apply Nat.ltb_lt. exact H2.
Qed.

Lemma isControlLine_app (a y : jsstring) :
  isControlLine a = true -> isControlLine (a ++ y) = true.
Proof.
  unfold isControlLine. rewrite !existsb_exists.
  intros [w [Hin Hw]]. exists w. split; [exact Hin|].
  apply andb_true_iff in Hw. destruct Hw as [Hp Hl].
  rewrite (litPrefix_app true w a y Hp). apply Nat.ltb_lt.
  apply Nat.ltb_lt in Hl. rewrite length_app. lia.
Qed.

Lemma lineStart_after (c : ascii) (a : jsstring) :
  lineStart (prevAfter (Some c) a) = true ->
  exists a0 x, c :: a = a0 ++ [x] /\ isLineTerminator x = true.
Proof.
  intros H.
  destruct (exists_last (l := c :: a)) as [a0 [x E]]; [discriminate|].
  exists a0, x. split; [exact E|].
  rewrite <- prevAfter_cons with (p := None) in H.
  rewrite E, prevAfter_last in H. exact H.
Qed.

(** The first line of the text that is left: the first line of the
    text, or a part of it that ends where a match began. *)
Lemma cleaned_first_line (t : jsstring) :
  forall q,
    (upTo isLF (cleaned q t) = upTo isLF t
     /\ (from isLF (cleaned q t) <> [] -> from isLF t <> []))
    \/ (exists a b y,
           upTo isLF t = a ++ b
           /\ from isLF t <> []
           /\ lineStart (prevAfter q a) = true
           /\ isControlLine b = true
           /\ cleaned q t = a ++ y).
Proof.
  induction t as [|d t IH]; intros q.
  - left. rewrite cleaned_nil. split; [reflexivity | auto].
  - destruct (controlAt q (d :: t)) as [r|] eqn:E.
    + right. pose proof E as E'.
      apply controlAt_Some in E'. destruct E' as [Hq [Hc [x Ex]]].
      exists [], (upTo isLF (d :: t)), (cleaned (Some LF) r).
      repeat split; auto.
      * rewrite Ex. discriminate.
      * apply cleaned_match. exact E.
    + rewrite (cleaned_keep q d t E). cbn [upTo from].
      destruct (isLF d) eqn:Ed.
      * left. split; [reflexivity | discriminate].
      * destruct (IH (Some d)) as [[E1 E2] | [a [b [y [H1 [H2 [H3 [H4 H5]]]]]]]].
        -- left. rewrite E1. split; [reflexivity | exact E2].
        -- right. exists (d :: a), b, y.
           repeat split; auto.
           ++ rewrite H1. reflexivity.
           ++ rewrite H5. reflexivity.
Qed.

(** Taking matches away after the first code unit of a text makes no
    match at its head. *)
Lemma no_match_at_head (p : option ascii) (c : ascii) (s : jsstring) :
  controlAt p (c :: s) = None ->
  controlAt p (c :: cleaned (Some c) s) = None.
Proof.
  intros Hn.
  destruct (controlAt p (c :: cleaned (Some c) s)) as [r|] eqn:E;
    [exfalso | reflexivity].
  apply controlAt_Some in E. destruct E as [Hp [Hc [x Ex]]].
  cbn [upTo from] in Hc, Ex.
  destruct (isLF c) eqn:Ec; [discriminate Hc|].
  assert (Hgoal : isControlLine (upTo isLF (c :: s)) = true
                  /\ from isLF (c :: s) <> []).
  { cbn [upTo from]. rewrite Ec.
    destruct (cleaned_first_line s (Some c))
      as [[E1 E2] | [a [b [y [H1 [H2 [H3 [H4 H5]]]]]]]].
    - rewrite <- E1. split; [exact Hc|]. apply E2. rewrite Ex. discriminate.
    - split; [|exact H2]. rewrite H1.
      rewrite H5 in Hc.
      assert (Ha : forallb (fun c => negb (isLF c)) a = true).
      { pose proof (upTo_none isLF s) as Hall. rewrite H1 in Hall.
        rewrite forallb_app in Hall. apply andb_true_iff in Hall.
        exact (proj1 Hall). }
      rewrite (upTo_app_free isLF a y Ha) in Hc.
      destruct (lineStart_after c a H3) as [a0 [z [Ea Hz]]].
      change (c :: a ++ upTo isLF y) with ((c :: a) ++ upTo isLF y) in Hc.
      change (c :: a ++ b) with ((c :: a) ++ b).
      rewrite Ea in Hc |- *.
      apply isControlLine_app.
      apply (isControlLine_cut a0 z (upTo isLF y) Hz Hc). }
  destruct Hgoal as [G1 G2].
  destruct (from isLF (c :: s)) as [|z r'] eqn:Ef; [congruence|].
  assert (controlAt p (c :: s) = Some r').
  { apply controlAt_Some. repeat split; eauto. }
  congruence.
Qed.

Lemma cleaned_no_control_message (n : nat) :
  forall s p, length s <= n -> noControlMessage p (cleaned p s).
Proof.
  induction n as [|n IH]; intros s p Hn.
  - destruct s; [|simpl in Hn; lia].
    rewrite cleaned_nil. intros a b E.
    symmetry in E. apply app_eq_nil in E. destruct E as [-> ->].
    unfold controlAt. rewrite andb_false_r. reflexivity.
  - destruct (controlAt p s) as [r|] eqn:E.
    + rewrite (cleaned_match p s r E).
      pose proof E as E'. apply controlAt_Some in E'.
      destruct E' as [Hp [_ [x Ex]]].
      assert (Hr : length r <= n).
      { pose proof (upTo_from isLF s) as Es. rewrite Ex in Es.
        assert (length s = length (upTo isLF s) + S (length r))
          by (rewrite <- Es at 1; rewrite length_app; reflexivity).
        lia. }
      intros a b Eab.
      pose proof (IH r (Some LF) Hr a b Eab) as Hab.
      destruct a as [|c a]; [|exact Hab].
      rewrite <- Hab. apply controlAt_lineStart. exact Hp.
    + destruct s as [|c s].
      * rewrite cleaned_nil. intros a b Eab.
        symmetry in Eab. apply app_eq_nil in Eab. destruct Eab as [-> ->].
        exact E.
      * rewrite (cleaned_keep p c s E). intros a b Eab.
        destruct a as [|c' a].
        -- cbn [app] in Eab. subst b. cbn [prevAfter fold_left].
           apply no_match_at_head. exact E.
        -- cbn [app] in Eab. injection Eab as <- Eab.
           rewrite prevAfter_cons.
           apply (IH s (Some c)); [simpl in Hn; lia | exact Eab].
Qed.

Lemma searchFrom_none (re : RegExp) (x : jsstring) :
  forall p i,
    (forall a b, x = a ++ b -> execAt re (prevAfter p a) b = None) ->
    searchFrom re p x i = None.
Proof.
  induction x as [|c x IH]; intros p i H.
  - pose proof (H [] [] eq_refl) as H0.
    change (prevAfter p []) with p in H0.
    cbn [searchFrom]. rewrite H0. reflexivity.
  - pose proof (H [] (c :: x) eq_refl) as H0.
    change (prevAfter p []) with p in H0.
    cbn [searchFrom]. rewrite H0.
    apply IH. intros a b E. apply (H (c :: a) b). rewrite E. reflexivity.
Qed.

(** The text that [cleanupOutput] returns holds no control message. *)
Lemma cleanupOutput_clean (raw : jsstring) :
  hasControlMessage (RunTestListener.cleanupOutput raw) = false.
Proof.
  unfold hasControlMessage, exec.
  rewrite searchFrom_none; [reflexivity|].
  intros a b E. apply execAt_None.
  apply (cleaned_no_control_message (length raw) raw None (le_n _)).
  exact E.
Qed.

End CleanupFacts.

(* ================================================================== *)
(** * Properties: the data event of a stderr chunk *)
(* ================================================================== *)

Module RunTestListenerData.
Import RunTestListener RunTestListenerFacts RunTestListenerStdErr
       RunTestListenerEvents.

Lemma execErrorEvents_output (p : JestProcess) (output : jsstring) :
  filter isOutputData (execErrorEvents p output) = [].
Proof.
  unfold execErrorEvents.
  destruct (stringMatch output RUN_EXEC_ERROR); reflexivity.
Qed.

Lemma stdErrEvents_output (p : JestProcess) (message raw : jsstring) :
  filter isOutputData (stdErrEvents p message raw)
  = [DataEvent p message (Some (cleanupOutput raw)) None None].
Proof.
  unfold stdErrEvents. rewrite !filter_app.
  destruct (includes (str "onRunStart") message),
           (includes (str "onRunComplete") message);
    cbn [filter isOutputData app];
    rewrite ?filter_app, ?execErrorEvents_output; reflexivity.
Qed.

End RunTestListenerData.

(** C2, as the code has it.  A stderr chunk that is not suppressed is
    forwarded in one [data] event.  Its [raw] is the raw chunk without the
    matches of [CONTROL_MESSAGES], and holds no control message: no line
    that opens, up to case, with [onRunStart], [onRunComplete] or
    [Test results written to], goes on for one code unit at least and ends
    in a newline.  Its [text] is the message as it was received. *)
Theorem stderr_data_event
        (sess : ListenerSession) (p : JestProcess) (message raw : jsstring)
        (st : RunTestListener.t) :
  RunTestListener.shouldIgnoreOutput message = false ->
  filter isOutputData
         (firedEvents
            (actionsOf (RunTestListener.onExecutableStdErr
                          sess p message raw st)))
  = [DataEvent p message (Some (RunTestListener.cleanupOutput raw))
               None None]
  /\ hasControlMessage (RunTestListener.cleanupOutput raw) = false.
Proof.
  intros Hi. split.
  - rewrite RunTestListenerEvents.onExecutableStdErr_fired, Hi.
    apply RunTestListenerData.stdErrEvents_output.
  - apply CleanupFacts.cleanupOutput_clean.
Qed.

Lemma stderr_data_event_witness :
  let chunk :=
    str "onRunStart: numTotalTestSuites: 3" ++ [CR; LF]
    ++ str "PASS src/a.test.js" ++ [LF]
    ++ str "Test results written to: /tmp/jest_runner.json" ++ [LF] in
  filter isOutputData
         (firedEvents
            (actionsOf (RunTestListener.onExecutableStdErr
                          Sample.session Sample.watchTests chunk chunk
                          Sample.idle)))
  = [DataEvent Sample.watchTests chunk
               (Some (RunTestListener.cleanupOutput chunk)) None None]
  /\ hasControlMessage (RunTestListener.cleanupOutput chunk) = false.
Proof.
  cbv zeta.
  apply (stderr_data_event
           Sample.session Sample.watchTests
           (str "onRunStart: numTotalTestSuites: 3" ++ [CR; LF]
            ++ str "PASS src/a.test.js" ++ [LF]
            ++ str "Test results written to: /tmp/jest_runner.json" ++ [LF])).
  vm_compute. reflexivity.
Defined.

(** C2, as the specification states it, fails: the [text] of the [data] event still
    holds the control messages of the chunk. *)
Lemma stderr_data_event_counterexample :
  let chunk :=
    str "onRunStart: numTotalTestSuites: 3" ++ [CR; LF]
    ++ str "PASS src/a.test.js" ++ [LF] in
  RunTestListener.shouldIgnoreOutput chunk = false
  /\ firedEvents
       (actionsOf (RunTestListener.onExecutableStdErr
                     Sample.session Sample.watchTests chunk chunk
                     Sample.idle))
     = [StartEvent Sample.watchTests;
        DataEvent Sample.watchTests chunk
                  (Some (str "PASS src/a.test.js" ++ [LF])) None None]
  /\ hasControlMessage chunk = true.
Proof. vm_compute. repeat split; reflexivity. Qed.

(* ================================================================== *)
(** * Properties: a word followed by a captured run *)
(* ================================================================== *)

Module MarkerFacts.
Import RegExpFacts PiecesFacts JsonArrayFacts JsonArrayMatches
       ControlMessageFacts CleanupFacts.

Lemma hd_error_app_some {A} (l l' : list A) (x : A) :
  hd_error l = Some x -> hd_error (l ++ l') = Some x.
Proof. destruct l; [discriminate | intros E; exact E]. Qed.

(** A greedy repetition of a single code unit goes to the end of the
    run first. *)
Lemma repeat_head (p : ascii -> bool) (body : MState -> list MState)
      (gs : list nat) :
  singleStep p body ->
  forall fuel st,
    length (rest st) < fuel ->
    exists cs,
      hd_error (repeat body gs true fuel st)
      = Some (mkMState
                (prevAfter (prev st) (upTo (fun c => negb (p c)) (rest st)))
                (from (fun c => negb (p c)) (rest st))
                cs).
Proof.
  intros Hb. induction fuel as [|fuel IH]; intros st Hf; [lia|].
  cbn [repeat]. destruct (Hb (clearGroups gs st)) as [cs' E]. rewrite E.
  cbn [clearGroups rest].
  destruct st as [pv [|c s'] cs]; cbn [rest prev caps] in *.
  - exists cs. reflexivity.
  - cbn [upTo from]. destruct (p c); cbn [negb].
    + cbn [filter rest].
      replace (length s' <? length (c :: s')) with true
        by (symmetry; apply Nat.ltb_lt; simpl; lia).
      rewrite flat_map_single.
      destruct (IH (mkMState (Some c) s' cs')) as [cs'' E'];
        [cbn [rest]; simpl in Hf; lia|].
      exists cs''. apply hd_error_app_some. exact E'.
    + exists cs. reflexivity.
Qed.

Lemma star_head (fl : Flags) (p : ascii -> bool) (r : Regex) (st : MState) :
  singleStep p (matcher fl r) ->
  exists cs,
    hd_error (matcher fl (Star true r) st)
    = Some (mkMState
              (prevAfter (prev st) (upTo (fun c => negb (p c)) (rest st)))
              (from (fun c => negb (p c)) (rest st))
              cs).
Proof.
  intros Hb. cbn [matcher]. apply (repeat_head p _ _ Hb). lia.
Qed.

Lemma plus_head (fl : Flags) (p : ascii -> bool) (r : Regex) (st : MState) :
  singleStep p (matcher fl r) ->
  exists cs,
    hd_error (matcher fl (Plus true r) st)
    = if startsWith1 p (rest st)
      then Some (mkMState
                   (prevAfter (prev st)
                              (upTo (fun c => negb (p c)) (rest st)))
                   (from (fun c => negb (p c)) (rest st))
                   cs)
      else None.
Proof.
  intros Hb. cbn [matcher].
  destruct (Hb (clearGroups (groups r) st)) as [cs' E]. rewrite E.
  cbn [clearGroups rest].
  destruct st as [pv [|c s'] cs]; cbn [rest prev caps startsWith1].
  - exists cs. reflexivity.
  - cbn [upTo from]. destruct (p c); cbn [negb].
    + rewrite flat_map_single.
      destruct (repeat_head p _ (groups r) Hb
                            (S (length (rest (mkMState (Some c) s' cs'))))
                            (mkMState (Some c) s' cs'))
        as [cs'' E']; [lia|].
      exists cs''. exact E'.
    + exists cs. reflexivity.
Qed.

Lemma singleStep_Dot (fl : Flags) : singleStep notTerminator (matcher fl Dot).
Proof.
  intros st. exists (caps st). cbn [matcher]. unfold step.
  destruct (rest st); reflexivity.
Qed.

Lemma singleStep_Group_Digit (fl : Flags) (i : nat) :
  singleStep isDigit (matcher fl (Group i Digit)).
Proof.
  intros st. cbn [matcher]. unfold step.
  destruct (rest st) as [|c s']; [exists []; reflexivity|].
  destruct (isDigit c); [|exists []; reflexivity].
  eexists. reflexivity.
Qed.

Lemma firstn_upTo (stop : ascii -> bool) (t : jsstring) :
  firstn (length t - length (from stop t)) t = upTo stop t.
Proof.
  pose proof (upTo_from stop t) as E.
  assert (L : length t = length (upTo stop t) + length (from stop t))
    by (rewrite <- E at 1; apply length_app).
  replace (length t - length (from stop t)) with (length (upTo stop t))
    by lia.
  rewrite <- E at 2.
  rewrite firstn_app, Nat.sub_diag, firstn_all. cbn [firstn].
  apply app_nil_r.
Qed.

(** A word, then a group around a pattern whose first match is known. *)
Lemma word_then_group (fl : Flags) (w : jsstring) (r : Regex)
      (stop : ascii -> bool) (st : MState) (found : bool) :
  (exists cs,
      hd_error (matcher fl r (advance (length w) st))
      = if found
        then Some (mkMState
                     (prevAfter (prev (advance (length w) st))
                                (upTo stop (rest (advance (length w) st))))
                     (from stop (rest (advance (length w) st))) cs)
        else None) ->
  match hd_error (matcher fl (Seq (LitL w) (Group 1 r)) st) with
  | Some st2 =>
      litPrefix (ignoreCase fl) w (rest st) = true
      /\ found = true
      /\ rest st2 = from stop (skipn (length w) (rest st))
      /\ capture 1 (caps st2)
         = Some (upTo stop (skipn (length w) (rest st)))
  | None => litPrefix (ignoreCase fl) w (rest st) = false \/ found = false
  end.
Proof.
  intros Hr. rewrite matcher_Seq, matcher_LitL.
  destruct (litPrefix (ignoreCase fl) w (rest st)) eqn:Ew;
    [|left; reflexivity].
  rewrite flat_map_single, matcher_Group, hd_error_map.
  destruct Hr as [cs E]. rewrite E.
  destruct found; [|right; reflexivity].
  cbn [option_map]. unfold setCapture. cbn [rest caps capture Nat.eqb].
  rewrite rest_advance, firstn_upTo. auto.
Qed.

Lemma searchFrom_found (re : RegExp) (p : option ascii) (s : jsstring)
      (i : nat) (st : MState) :
  execAt re p s = Some st ->
  searchFrom re p s i
  = Some (mkMatchResult i (matchedText s st) (caps st)).
Proof. intros E. destruct s; cbn [searchFrom]; rewrite E; reflexivity. Qed.

Lemma searchFrom_skip (re : RegExp) (pre rest : jsstring) :
  forall p i,
    (forall a b, pre = a ++ b -> b <> [] ->
                 execAt re (prevAfter p a) (b ++ rest) = None) ->
    searchFrom re p (pre ++ rest) i
    = searchFrom re (prevAfter p pre) rest (i + length pre).
Proof.
  induction pre as [|c pre IH]; intros p i H.
  - cbn [app length prevAfter fold_left]. rewrite Nat.add_0_r. reflexivity.
  - pose proof (H [] (c :: pre) eq_refl) as H0.
    change (prevAfter p []) with p in H0.
    cbn [app searchFrom]. cbn [app] in H0. rewrite H0 by discriminate.
    rewrite IH.
    + rewrite prevAfter_cons. cbn [length]. f_equal. lia.
    + intros a b E Hb. apply (H (c :: a) b); [rewrite E; reflexivity | exact Hb].
Qed.

Lemma litPrefix_refl (ci : bool) (w y : jsstring) :
  litPrefix ci w (w ++ y) = true.
Proof.
  induction w as [|x w IH]; [reflexivity|].
  cbn [app litPrefix]. rewrite IH, !Ascii.eqb_refl.
  destruct ci; reflexivity.
Qed.

Lemma skipn_length_app {A} (w y : list A) : skipn (length w) (w ++ y) = y.
Proof. induction w; [reflexivity | assumption]. Qed.

Lemma upTo_ext (f g : ascii -> bool) (s : jsstring) :
  (forall c, f c = g c) -> upTo f s = upTo g s.
Proof.
  intros H. induction s as [|c s IH]; [reflexivity|].
  cbn [upTo]. rewrite H, IH. reflexivity.
Qed.

Lemma forallb_negb_negb (f : ascii -> bool) (l : jsstring) :
  forallb (fun c => negb (negb (f c))) l = forallb f l.
Proof.
  induction l as [|c l IH]; [reflexivity|].
  cbn [forallb]. rewrite negb_involutive, IH. reflexivity.
Qed.

(** [RUN_START_TEST_SUITES_REGEX] at one position. *)
Lemma execAt_RUN_START (p : option ascii) (s : jsstring) :
  match execAt RUN_START_TEST_SUITES_REGEX p s with
  | Some st =>
      litPrefix true runStartWord s = true
      /\ startsWith1 isDigit (skipn (length runStartWord) s) = true
      /\ capture 1 (caps st)
         = Some (upTo notDigit (skipn (length runStartWord) s))
  | None =>
      litPrefix true runStartWord s = false
      \/ startsWith1 isDigit (skipn (length runStartWord) s) = false
  end.
Proof.
  unfold execAt.
  pose proof (word_then_group
                (flags RUN_START_TEST_SUITES_REGEX) runStartWord
                (Plus true (Group 2 Digit)) notDigit
                (mkMState p s [])
                (startsWith1 isDigit (skipn (length runStartWord) s)))
    as H.
  change (source RUN_START_TEST_SUITES_REGEX)
    with (Seq (LitL runStartWord) (Group 1 (Plus true (Group 2 Digit)))).
  assert (Hhead :
            exists cs,
              hd_error
                (matcher (flags RUN_START_TEST_SUITES_REGEX)
                         (Plus true (Group 2 Digit))
                         (advance (length runStartWord) (mkMState p s [])))
              = if startsWith1 isDigit (skipn (length runStartWord) s)
                then Some
                       (mkMState
                          (prevAfter
                             (prev (advance (length runStartWord)
                                            (mkMState p s [])))
                             (upTo notDigit
                                   (rest (advance (length runStartWord)
                                                  (mkMState p s [])))))
                          (from notDigit
                                (rest (advance (length runStartWord)
                                               (mkMState p s []))))
                          cs)
                else None).
  { replace (skipn (length runStartWord) s)
      with (rest (advance (length runStartWord) (mkMState p s [])))
      by apply rest_advance.
    apply (plus_head (flags RUN_START_TEST_SUITES_REGEX) isDigit
                     (Group 2 Digit)).
    apply singleStep_Group_Digit. }
  specialize (H Hhead). cbn [rest] in H.
  destruct (hd_error
              (matcher (flags RUN_START_TEST_SUITES_REGEX)
                       (Seq (LitL runStartWord)
                            (Group 1 (Plus true (Group 2 Digit))))
                       (mkMState p s []))) as [st|].
  - destruct H as [H1 [H2 [H3 H4]]]. auto.
  - exact H.
Qed.

(** [RUN_EXEC_ERROR] at one position. *)
Lemma execAt_RUN_EXEC_ERROR (p : option ascii) (s : jsstring) :
  match execAt RUN_EXEC_ERROR p s with
  | Some st =>
      litPrefix true execErrorWord s = true
      /\ capture 1 (caps st)
         = Some (upTo isLineTerminator (skipn (length execErrorWord) s))
  | None => litPrefix true execErrorWord s = false
  end.
Proof.
  unfold execAt.
  pose proof (word_then_group
                (flags RUN_EXEC_ERROR) execErrorWord
                (Star true Dot) (fun c => negb (notTerminator c))
                (mkMState p s []) true)
    as H.
  change (source RUN_EXEC_ERROR)
    with (Seq (LitL execErrorWord) (Group 1 (Star true Dot))).
  assert (Hhead :
            exists cs,
              hd_error
                (matcher (flags RUN_EXEC_ERROR) (Star true Dot)
                         (advance (length execErrorWord) (mkMState p s [])))
              = Some
                  (mkMState
                     (prevAfter
                        (prev (advance (length execErrorWord)
                                       (mkMState p s [])))
                        (upTo (fun c => negb (notTerminator c))
                              (rest (advance (length execErrorWord)
                                             (mkMState p s [])))))
                     (from (fun c => negb (notTerminator c))
                           (rest (advance (length execErrorWord)
                                          (mkMState p s []))))
                     cs)).
  { apply (star_head (flags RUN_EXEC_ERROR) notTerminator Dot).
    apply singleStep_Dot. }
  specialize (H Hhead). cbn [rest] in H.
  destruct (hd_error
              (matcher (flags RUN_EXEC_ERROR)
                       (Seq (LitL execErrorWord) (Group 1 (Star true Dot)))
                       (mkMState p s []))) as [st|].
  - destruct H as [H1 [_ [_ H4]]].
    split; [exact H1|]. rewrite H4. f_equal. apply upTo_ext.
    intros c. unfold notTerminator. apply negb_involutive.
  - destruct H as [H | H]; [exact H | discriminate H].
Qed.

(** The first marker of a text is the one that is found. *)
Lemma stringMatch_RUN_START (pre ds post : jsstring) :
  firstAt true runStartWord pre (runStartWord ++ ds ++ post) ->
  ds <> [] ->
  forallb isDigit ds = true ->
  startsWith1 isDigit post = false ->
  exists m,
    stringMatch (pre ++ runStartWord ++ ds ++ post)
                RUN_START_TEST_SUITES_REGEX = Some m
    /\ group 1 m = Some ds.
Proof.
  intros Hfirst Hne Hds Hpost.
  unfold stringMatch, exec. rewrite searchFrom_skip.
  - pose proof (execAt_RUN_START (prevAfter None pre)
                                 (runStartWord ++ ds ++ post)) as H.
    rewrite skipn_length_app in H.
    assert (Hd : startsWith1 isDigit (ds ++ post) = true).
    { destruct ds as [|d ds]; [congruence|].
      cbn [forallb] in Hds. apply andb_true_iff in Hds. exact (proj1 Hds). }
    destruct (execAt RUN_START_TEST_SUITES_REGEX (prevAfter None pre)
                     (runStartWord ++ ds ++ post)) as [st|] eqn:E.
    + rewrite (searchFrom_found _ _ _ _ st E). eexists. split; [reflexivity|].
      unfold group. cbn [captures].
      destruct H as [_ [_ H]]. rewrite H. f_equal.
      unfold notDigit. rewrite upTo_app_free.
      * replace (upTo (fun c => negb (isDigit c)) post) with (@nil ascii).
        -- apply app_nil_r.
        -- destruct post as [|c post]; [reflexivity|].
           cbn [startsWith1] in Hpost. cbn [upTo]. rewrite Hpost.
           reflexivity.
      * rewrite <- Hds. apply forallb_negb_negb.
    + destruct H as [H | H].
      * rewrite litPrefix_refl in H. discriminate H.
      * rewrite Hd in H. discriminate H.
  - intros a b E Hb.
    pose proof (execAt_RUN_START (prevAfter None a)
                                 (b ++ runStartWord ++ ds ++ post)) as H.
    destruct (execAt RUN_START_TEST_SUITES_REGEX (prevAfter None a)
                     (b ++ runStartWord ++ ds ++ post)); [|reflexivity].
    destruct H as [H _]. rewrite (Hfirst a b E Hb) in H. discriminate H.
Qed.

Lemma stringMatch_RUN_EXEC_ERROR (pre msg post : jsstring) :
  firstAt true execErrorWord pre (execErrorWord ++ msg ++ post) ->
  forallb notTerminator msg = true ->
  startsWith1 notTerminator post = false ->
  exists m,
    stringMatch (pre ++ execErrorWord ++ msg ++ post) RUN_EXEC_ERROR = Some m
    /\ group 1 m = Some msg.
Proof.
  intros Hfirst Hmsg Hpost.
  unfold stringMatch, exec. rewrite searchFrom_skip.
  - pose proof (execAt_RUN_EXEC_ERROR (prevAfter None pre)
                                      (execErrorWord ++ msg ++ post)) as H.
    rewrite skipn_length_app in H.
    destruct (execAt RUN_EXEC_ERROR (prevAfter None pre)
                     (execErrorWord ++ msg ++ post)) as [st|] eqn:E.
    + rewrite (searchFrom_found _ _ _ _ st E). eexists. split; [reflexivity|].
      unfold group. cbn [captures].
      destruct H as [_ H]. rewrite H. f_equal.
      rewrite upTo_app_free by exact Hmsg.
      replace (upTo isLineTerminator post) with (@nil ascii).
      * apply app_nil_r.
      * destruct post as [|c post]; [reflexivity|].
        cbn [startsWith1] in Hpost. unfold notTerminator in Hpost.
        apply negb_false_iff in Hpost. cbn [upTo]. rewrite Hpost.
        reflexivity.
    + rewrite litPrefix_refl in H. discriminate H.
  - intros a b E Hb.
    pose proof (execAt_RUN_EXEC_ERROR (prevAfter None a)
                                      (b ++ execErrorWord ++ msg ++ post))
      as H.
    destruct (execAt RUN_EXEC_ERROR (prevAfter None a)
                     (b ++ execErrorWord ++ msg ++ post)); [|reflexivity].
    destruct H as [H _]. rewrite (Hfirst a b E Hb) in H. discriminate H.
Qed.

(** Group 1 of [RUN_EXEC_ERROR] takes part in every match. *)
Lemma searchFrom_RUN_EXEC_ERROR_group (output : jsstring) :
  forall p i m,
    searchFrom RUN_EXEC_ERROR p output i = Some m ->
    exists text, group 1 m = Some text.
Proof.
  induction output as [|c output IH]; intros p i m; cbn [searchFrom].
  - pose proof (execAt_RUN_EXEC_ERROR p []) as H.
    destruct (execAt RUN_EXEC_ERROR p []) as [st|];
      [|intros E; discriminate E].
    intros E. injection E as <-. unfold group. cbn [captures].
    destruct H as [_ H]. eexists. exact H.
  - pose proof (execAt_RUN_EXEC_ERROR p (c :: output)) as H.
    destruct (execAt RUN_EXEC_ERROR p (c :: output)) as [st|].
    + intros E. injection E as <-. unfold group. cbn [captures].
      destruct H as [_ H]. eexists. exact H.
    + apply IH.
Qed.

End MarkerFacts.

(* ================================================================== *)
(** * Properties: run start *)
(* ================================================================== *)

Module RunStartFacts.
Import RunTestListener RunTestListenerFacts RunTestListenerStdErr
       RunTestListenerEvents MarkerFacts.

Lemma execErrorEvents_start (p : JestProcess) (output : jsstring) :
  filter isStart (execErrorEvents p output) = [].
Proof.
  unfold execErrorEvents.
  destruct (stringMatch output RUN_EXEC_ERROR); reflexivity.
Qed.

Lemma stdErrEvents_start (p : JestProcess) (message raw : jsstring) :
  filter isStart (stdErrEvents p message raw)
  = if includes (str "onRunStart") message then [StartEvent p] else [].
Proof.
  unfold stdErrEvents. rewrite !filter_app.
  destruct (includes (str "onRunStart") message),
           (includes (str "onRunComplete") message);
    cbn [filter isStart app];
    rewrite ?filter_app, ?execErrorEvents_start; reflexivity.
Qed.

Lemma isInteger_ofZ (z : Z) : isInteger (ofZ z) = true.
Proof.
  unfold isInteger, ofZ, inject_Z. cbn [Qnum Qden].
  rewrite Z.mod_1_r. reflexivity.
Qed.

(** The count of the first run-start marker of a text. *)
Lemma getNumTotalTestSuites_marker (pre ds post : jsstring) :
  firstAt true runStartWord pre (runStartWord ++ ds ++ post) ->
  ds <> [] ->
  forallb isDigit ds = true ->
  startsWith1 isDigit post = false ->
  (decimalValue ds < 2 ^ 53)%Z ->
  getNumTotalTestSuites (pre ++ runStartWord ++ ds ++ post)
  = Some (ofZ (decimalValue ds)).
Proof.
  intros Hfirst Hne Hds Hpost Hv.
  destruct (stringMatch_RUN_START pre ds post Hfirst Hne Hds Hpost)
    as [m [Em Eg]].
  unfold getNumTotalTestSuites. rewrite Em, Eg.
  unfold Number. rewrite Hds. unfold roundInteger.
  apply Z.ltb_lt in Hv. rewrite Hv.
  rewrite isInteger_ofZ. reflexivity.
Qed.

End RunStartFacts.

(** C3, as the code has it.  On a stderr chunk, the listener fires
    [start], once, exactly when the chunk is not suppressed and holds
    [onRunStart], whatever its state and whether or not a count follows.
    When it does, and the chunk does not hold [onRunComplete] as well,
    the listener ends with a Run Info for the process that carries the
    count parsed from the chunk, and with its monitor armed when the
    monitor is enabled.  The count parsed from a chunk whose first
    [onRunStart: numTotalTestSuites: ] is followed by the digits of a
    number below [2^53] is that number. *)
Theorem run_start_on_onRunStart
        (sess : ListenerSession) (p : JestProcess) (message raw : jsstring)
        (st : RunTestListener.t) :
  let r := RunTestListener.onExecutableStdErr sess p message raw st in
  let started :=
    negb (RunTestListener.shouldIgnoreOutput message)
    && includes (str "onRunStart") message in
  filter isStart (firedEvents (actionsOf r))
  = (if started then [StartEvent p] else [])
  /\
  (started = true ->
   includes (str "onRunComplete") message = false ->
   RunTestListener.runInfo (stateOf r)
   = Some (RunTestListener.mkRunInfo
             p (RunTestListener.getNumTotalTestSuites message))
   /\
   (le0 (LongRunMonitor.thresholdMs (RunTestListener.longRunMonitor st))
    = false ->
    exists h,
      LongRunMonitor.timer (RunTestListener.longRunMonitor (stateOf r))
      = Some h
      /\ Timers.isPending h (RunTestListener.timers (stateOf r)) = true))
  /\
  (forall pre ds post,
      message = pre ++ runStartWord ++ ds ++ post ->
      firstAt true runStartWord pre (runStartWord ++ ds ++ post) ->
      ds <> [] ->
      forallb isDigit ds = true ->
      startsWith1 isDigit post = false ->
      (decimalValue ds < 2 ^ 53)%Z ->
      RunTestListener.getNumTotalTestSuites message
      = Some (ofZ (decimalValue ds))).
Proof.
  cbv zeta. split; [|split].
  - rewrite RunTestListenerEvents.onExecutableStdErr_fired.
    destruct (RunTestListener.shouldIgnoreOutput message); [reflexivity|].
    cbn [negb andb]. apply RunStartFacts.stdErrEvents_start.
  - intros Hs Hc. apply andb_true_iff in Hs. destruct Hs as [Hi Hs].
    apply negb_true_iff in Hi.
    destruct (RunTestListenerStdErr.onExecutableStdErr_steps
                sess p message raw st Hi) as [-> _].
    rewrite (RunTestListenerFacts.handleRunComplete_skip _ _ _ Hc).
    rewrite (RunTestListenerFacts.handleRunStart_eq p message st Hs).
    unfold stateOf at 1 3 5. cbn [fst snd].
    cbn [RunTestListener.runInfo RunTestListener.longRunMonitor
         RunTestListener.timers].
    split; [reflexivity|].
    intros Hth.
    apply (LongRunMonitorActions.start_arms
             (RunTestListener.timers st, RunTestListener.longRunMonitor st)).
    exact Hth.
  - intros pre ds post -> Hfirst Hne Hds Hpost Hv.
    apply RunStartFacts.getNumTotalTestSuites_marker; assumption.
Qed.

Lemma run_start_on_onRunStart_witness :
  let message := runStartWord ++ str "12" ++ [CR; LF] in
  let r :=
    RunTestListener.onExecutableStdErr
      Sample.session Sample.watchTests message message Sample.idle in
  filter isStart (firedEvents (actionsOf r)) = [StartEvent Sample.watchTests]
  /\ RunTestListener.runInfo (stateOf r)
     = Some (RunTestListener.mkRunInfo Sample.watchTests (Some (ofZ 12)))
  /\ exists h,
      LongRunMonitor.timer (RunTestListener.longRunMonitor (stateOf r))
      = Some h
      /\ Timers.isPending h (RunTestListener.timers (stateOf r)) = true.
Proof.
  cbv zeta.
  destruct (run_start_on_onRunStart
              Sample.session Sample.watchTests
              (runStartWord ++ str "12" ++ [CR; LF])
              (runStartWord ++ str "12" ++ [CR; LF])
              Sample.idle) as [H1 [H2 H3]].
  destruct (H2 eq_refl eq_refl) as [H2a H2b].
  split; [exact H1 | split].
  - rewrite H2a.
    rewrite (H3 [] (str "12") [CR; LF] eq_refl).
    + reflexivity.
    + intros a b E Hb. symmetry in E. apply app_eq_nil in E.
      destruct E as [_ E]. congruence.
    + discriminate.
    + reflexivity.
    + reflexivity.
    + reflexivity.
  - apply H2b. reflexivity.
Defined.

(** C3, as the specification states it, fails: a chunk that holds [onRunStart]
    without a count starts a run, with a Run Info that has no count. *)
Lemma run_start_counterexample :
  let message := str "onRunStart" ++ [CR; LF] in
  let r :=
    RunTestListener.onExecutableStdErr
      Sample.session Sample.watchTests message message Sample.idle in
  test RUN_START_TEST_SUITES_REGEX message = false
  /\ filter isStart (firedEvents (actionsOf r))
     = [StartEvent Sample.watchTests]
  /\ RunTestListener.runInfo (stateOf r)
     = Some (RunTestListener.mkRunInfo Sample.watchTests None).
Proof. vm_compute. repeat split; reflexivity. Qed.

(* ================================================================== *)
(** * Properties: run complete *)
(* ================================================================== *)

Module RunCompleteFacts.
Import RunTestListener RunTestListenerFacts RunTestListenerStdErr
       RunTestListenerEvents RunTestListenerExit.

Lemma execErrorEvents_error (p : JestProcess) (output : jsstring) :
  filter isErrorData (execErrorEvents p output) = execErrorEvents p output.
Proof.
  unfold execErrorEvents.
  destruct (stringMatch output RUN_EXEC_ERROR); reflexivity.
Qed.

Lemma execErrorEvents_end (p : JestProcess) (output : jsstring) :
  filter isEnd (execErrorEvents p output) = [].
Proof.
  unfold execErrorEvents.
  destruct (stringMatch output RUN_EXEC_ERROR); reflexivity.
Qed.

Lemma execErrorEvents_longRun (p : JestProcess) (output : jsstring) :
  filter isLongRun (execErrorEvents p output) = [].
Proof.
  unfold execErrorEvents.
  destruct (stringMatch output RUN_EXEC_ERROR); reflexivity.
Qed.

Lemma stdErrEvents_longRun (p : JestProcess) (message raw : jsstring) :
  filter isLongRun (stdErrEvents p message raw) = [].
Proof.
  unfold stdErrEvents. rewrite !filter_app.
  destruct (includes (str "onRunStart") message),
           (includes (str "onRunComplete") message);
    cbn [filter isLongRun app];
    rewrite ?filter_app, ?execErrorEvents_longRun; reflexivity.
Qed.

(** The ownership of the timers. *)
Lemma owns_cancel (ts : Timers.t) (m : LongRunMonitor.t) :
  (forall h d, In (h, d) (Timers.pending ts) ->
               LongRunMonitor.timer m = Some h) ->
  Timers.pending (fst (stateOf (LongRunMonitor.cancel (ts, m)))) = []
  /\ LongRunMonitor.timer (snd (stateOf (LongRunMonitor.cancel (ts, m))))
     = None.
Proof.
  intros Ho. destruct m as [lg th [h|]]; cbn.
  - split; [|reflexivity].
    induction (Timers.pending ts) as [|[k d] l IH]; [reflexivity|].
    cbn [filter fst].
    assert (E : Some h = Some k) by exact (Ho k d (or_introl eq_refl)).
    injection E as <-. rewrite Nat.eqb_refl. cbn [negb].
    apply IH. intros h' d' Hin. apply (Ho h' d'). right; exact Hin.
  - split; [|reflexivity].
    destruct (Timers.pending ts) as [|[k d] l]; [reflexivity|].
    specialize (Ho k d (or_introl eq_refl)). discriminate Ho.
Qed.

Lemma owns_runEnded (st : t) :
  monitorOwnsTimers st ->
  Timers.pending (timers (stateOf (runEnded st))) = [].
Proof.
  intros Ho. destruct st as [ts m ri ec].
  pose proof (owns_cancel ts m Ho) as [H _].
  unfold runEnded, onMonitor, zoom, bind, setRunInfo, modify, stateOf in *.
  cbn [timers longRunMonitor runInfo exitCode fst snd] in *.
  destruct (LongRunMonitor.cancel (ts, m)) as [[[] w] o].
  cbn [fst snd timers] in *. exact H.
Qed.

Lemma owns_start (ts : Timers.t) (m : LongRunMonitor.t) :
  (forall h d, In (h, d) (Timers.pending ts) ->
               LongRunMonitor.timer m = Some h) ->
  forall h d,
    In (h, d) (Timers.pending (fst (stateOf (LongRunMonitor.start (ts, m)))))
    -> LongRunMonitor.timer (snd (stateOf (LongRunMonitor.start (ts, m))))
       = Some h.
Proof.
  intros Ho. pose proof (owns_cancel ts m Ho) as [Hc _].
  destruct m as [lg th tm]. unfold LongRunMonitor.start, bind, get.
  cbn [snd fst LongRunMonitor.thresholdMs LongRunMonitor.timer].
  destruct (le0 th); [exact Ho|].
  destruct tm as [h0|].
  - cbn in Hc |- *. rewrite Hc. cbn.
    intros h d [E | []]. injection E as <- _. reflexivity.
  - assert (Hp : Timers.pending ts = []).
    { destruct (Timers.pending ts) as [|[k d] l]; [reflexivity|].
      specialize (Ho k d (or_introl eq_refl)). discriminate Ho. }
    cbn. rewrite Hp. cbn.
    intros h d [E | []]. injection E as <- _. reflexivity.
Qed.

Lemma owns_handleRunStart (p : JestProcess) (output : jsstring) (st : t) :
  monitorOwnsTimers st ->
  monitorOwnsTimers (stateOf (handleRunStart p output st)).
Proof.
  intros Ho. destruct (includes (str "onRunStart") output) eqn:E.
  - rewrite (handleRunStart_eq p output st E).
    unfold monitorOwnsTimers, stateOf at 1 2. cbn [fst snd timers longRunMonitor].
    apply owns_start. exact Ho.
  - rewrite (handleRunStart_skip p output st E). exact Ho.
Qed.

Lemma timeout_runInfo (h : nat) (st : t) :
  runInfo (stateOf (timeout h st)) = runInfo st.
Proof.
  destruct st as [ts m ri ec]. unfold timeout, bind, get, when.
  cbn [timers]. destruct (Timers.isPending h ts); [|reflexivity].
  destruct ri; reflexivity.
Qed.

Lemma onProcessExit_runInfo
      (p : JestProcess) (code : option Z) (signal : option jsstring)
      (st : t) :
  runInfo (stateOf (onProcessExit p code signal st)) = None.
Proof.
  unfold onProcessExit. rewrite !stateOf_bind.
  unfold setExitCode, modify, stateOf at 1. cbn [fst snd runInfo].
  unfold AbstractProcessListener.onProcessExit, when.
  match goal with |- context [if ?b then _ else _] => destruct b end;
    cbn [stateOf fst snd]; apply runEnded_runInfo.
Qed.

Section Idle.
Context `{Host}.
Variable sess : ListenerSession.

(** Without a run, and until one starts, there is no Run Info and no
    [long-run] event. *)
Lemma react_keeps_idle (s : Stimulus) (st : t) :
  runInfo st = None ->
  startsRun s = false ->
  runInfo (stateOf (react sess s st)) = None
  /\ filter isLongRun (firedEvents (actionsOf (react sess s st))) = [].
Proof.
  intros Hr Hs. destruct s as [p e | h | p r].
  - destruct e; cbn [react onEvent AbstractProcessListener.onEvent handlers
                           AbstractProcessListener.h_onProcessStarting
                           AbstractProcessListener.h_onExecutableStdErr
                           AbstractProcessListener.h_onExecutableJSON
                           AbstractProcessListener.h_onExecutableOutput
                           AbstractProcessListener.h_onTerminalError
                           AbstractProcessListener.h_onProcessClose
                           AbstractProcessListener.h_onProcessExit
                           AbstractProcessListener.h_name].
    + split; [exact Hr | reflexivity].
    + cbn [startsRun] in Hs.
      rewrite onExecutableStdErr_fired.
      destruct (shouldIgnoreOutput (cleanAnsi data)) eqn:Hi.
      * unfold onExecutableStdErr. rewrite Hi. split; [exact Hr | reflexivity].
      * cbn [negb andb] in Hs.
        destruct (onExecutableStdErr_steps sess p (cleanAnsi data) data st Hi)
          as [-> _].
        rewrite (handleRunStart_skip _ _ _ Hs).
        split; [|apply stdErrEvents_longRun].
        destruct (includes (str "onRunComplete") (cleanAnsi data)) eqn:Ec.
        -- rewrite (handleRunComplete_eq _ _ _ Ec).
           cbn [stateOf fst snd]. apply runEnded_runInfo.
        -- rewrite (handleRunComplete_skip _ _ _ Ec). exact Hr.
    + split; [exact Hr | reflexivity].
    + unfold onExecutableOutput, when.
      destruct (negb (shouldIgnoreOutput (cleanAnsi data)));
        (split; [exact Hr | reflexivity]).
    + split; [exact Hr | reflexivity].
    + rewrite onProcessClose_eq. split; [exact Hr|].
      unfold actionsOf at 1. cbn [snd]. rewrite firedEvents_app.
      rewrite (quiet_firedEvents _ (handleWatchProcessCrash_quiet _ _)).
      reflexivity.
    + rewrite onProcessExit_fired. split; [|reflexivity].
      apply onProcessExit_runInfo.
    + split; [exact Hr | reflexivity].
  - cbn [react]. rewrite timeout_runInfo, timeout_fired, Hr.
    split; [reflexivity|].
    destruct (Timers.isPending h (timers st)); reflexivity.
  - cbn [react]. destruct r; (split; [exact Hr | reflexivity]).
Qed.

Lemma run_keeps_idle (l : list Stimulus) (st : t) :
  runInfo st = None ->
  forallb (fun s => negb (startsRun s)) l = true ->
  filter isLongRun (firedEvents (snd (run sess l st))) = [].
Proof.
  revert st; induction l as [|s l IH]; intros st Hr Hl; [reflexivity|].
  cbn [forallb] in Hl. apply andb_true_iff in Hl. destruct Hl as [Hs Hl].
  apply negb_true_iff in Hs.
  destruct (react_keeps_idle s st Hr Hs) as [H1 H2].
  rewrite RunTestListenerExit.run_cons. cbn [snd].
  rewrite firedEvents_app, filter_app, H2, (IH _ H1 Hl). reflexivity.
Qed.

End Idle.

End RunCompleteFacts.

(** C6, as the code has it.  On a stderr chunk that is not suppressed and
    holds [onRunComplete], whatever the state: the listener ends without
    Run Info and with its monitor disarmed (no timer, and no timeout left
    armed when the monitor owned the armed timeouts); it fires a [data]
    event with [isError: true] exactly when the chunk matches
    [RUN_EXEC_ERROR], with the text of group 1, which is the rest of the
    line after the first [onRunComplete: execError: ]; it fires [end]
    once, after that event and as its last event; and from then on no
    [long-run] event is fired until a stimulus starts a run. *)
Theorem run_complete_ends_run
        `{Host} (sess : ListenerSession) (p : JestProcess)
        (message raw : jsstring) (st : RunTestListener.t) :
  RunTestListener.shouldIgnoreOutput message = false ->
  includes (str "onRunComplete") message = true ->
  let r := RunTestListener.onExecutableStdErr sess p message raw st in
  let fired := firedEvents (actionsOf r) in
  RunTestListener.runInfo (stateOf r) = None
  /\ LongRunMonitor.timer (RunTestListener.longRunMonitor (stateOf r)) = None
  /\ (monitorOwnsTimers st ->
      Timers.pending (RunTestListener.timers (stateOf r)) = [])
  /\ (forall m, stringMatch message RUN_EXEC_ERROR = Some m ->
                exists text,
                  group 1 m = Some text
                  /\ filter isErrorData fired
                     = [DataEvent p text None (Some true) (Some true)])
  /\ (stringMatch message RUN_EXEC_ERROR = None ->
      filter isErrorData fired = [])
  /\ (forall pre msg post,
         message = pre ++ execErrorWord ++ msg ++ post ->
         firstAt true execErrorWord pre (execErrorWord ++ msg ++ post) ->
         forallb notTerminator msg = true ->
         startsWith1 notTerminator post = false ->
         filter isErrorData fired
         = [DataEvent p msg None (Some true) (Some true)])
  /\ filter isEnd fired = [EndEvent p]
  /\ (exists before,
         fired = before ++ filter isErrorData fired ++ [EndEvent p])
  /\ (forall stimuli,
         forallb (fun s => negb (startsRun s)) stimuli = true ->
         filter isLongRun
                (firedEvents (snd (RunTestListener.run sess stimuli
                                                       (stateOf r))))
         = []).
Proof.
  intros Hi Hc. cbv zeta.
  destruct (RunTestListenerStdErr.onExecutableStdErr_steps
              sess p message raw st Hi) as [Est _].
  rewrite (RunTestListenerFacts.handleRunComplete_eq _ _ _ Hc) in Est.
  cbn [stateOf fst snd] in Est. fold (@stateOf RunTestListener.t unit) in Est.
  assert (Ef : firedEvents
                 (actionsOf (RunTestListener.onExecutableStdErr
                               sess p message raw st))
               = ((if includes (str "onRunStart") message
                   then [StartEvent p] else [])
                  ++ [DataEvent p message
                                (Some (RunTestListener.cleanupOutput raw))
                                None None])
                 ++ execErrorEvents p message ++ [EndEvent p]).
  { rewrite RunTestListenerEvents.onExecutableStdErr_fired, Hi.
    unfold stdErrEvents. rewrite Hc, <- app_assoc. reflexivity. }
  assert (Ee : filter isErrorData
                      (firedEvents
                         (actionsOf (RunTestListener.onExecutableStdErr
                                       sess p message raw st)))
               = execErrorEvents p message).
  { rewrite Ef, !filter_app, RunCompleteFacts.execErrorEvents_error.
    destruct (includes (str "onRunStart") message); cbn; apply app_nil_r. }
  assert (Hri : RunTestListener.runInfo
                  (stateOf (RunTestListener.onExecutableStdErr
                              sess p message raw st)) = None).
  { unfold stateOf. unfold stateOf in Est. rewrite Est.
    apply RunTestListenerFacts.runEnded_runInfo. }
  split; [exact Hri|].
  split.
  { unfold stateOf. unfold stateOf in Est. rewrite Est.
    apply RunTestListenerFacts.runEnded_timer. }
  split.
  { intros Ho. unfold stateOf. unfold stateOf in Est. rewrite Est.
    apply RunCompleteFacts.owns_runEnded.
    apply RunCompleteFacts.owns_handleRunStart. exact Ho. }
  split.
  { intros m Em. rewrite Ee. unfold execErrorEvents. rewrite Em.
    destruct (MarkerFacts.searchFrom_RUN_EXEC_ERROR_group message None 0 m Em)
      as [text Et].
    exists text. rewrite Et. auto. }
  split.
  { intros Em. rewrite Ee. unfold execErrorEvents. rewrite Em. reflexivity. }
  split.
  { intros pre msg post -> Hfirst Hmsg Hpost. rewrite Ee.
    destruct (MarkerFacts.stringMatch_RUN_EXEC_ERROR
                pre msg post Hfirst Hmsg Hpost) as [m [Em Eg]].
    unfold execErrorEvents. rewrite Em, Eg. reflexivity. }
  split.
  { rewrite Ef, !filter_app, RunCompleteFacts.execErrorEvents_end.
    destruct (includes (str "onRunStart") message); reflexivity. }
  split.
  { rewrite Ee. eexists. exact Ef. }
  intros stimuli Hs.
  apply RunCompleteFacts.run_keeps_idle; assumption.
Qed.

Lemma run_complete_ends_run_witness :
  let message := execErrorWord ++ str "boom" ++ [CR; LF] in
  let r :=
    RunTestListener.onExecutableStdErr
      Sample.session Sample.watchTests message message Sample.running in
  RunTestListener.runInfo (stateOf r) = None
  /\ Timers.pending (RunTestListener.timers (stateOf r)) = []
  /\ filter isErrorData (firedEvents (actionsOf r))
     = [DataEvent Sample.watchTests (str "boom") None (Some true) (Some true)]
  /\ filter isEnd (firedEvents (actionsOf r)) = [EndEvent Sample.watchTests]
  /\ filter isLongRun
            (firedEvents
               (snd (RunTestListener.run
                       Sample.session [RunTestListener.TimerExpired 0]
                       (stateOf r))))
     = [].
Proof.
  cbv zeta.
  destruct (run_complete_ends_run
              Sample.session Sample.watchTests
              (execErrorWord ++ str "boom" ++ [CR; LF])
              (execErrorWord ++ str "boom" ++ [CR; LF])
              Sample.running eq_refl eq_refl)
    as [H1 [_ [H3 [_ [_ [H6 [H7 [_ H9]]]]]]]].
  split; [exact H1 | split; [|split; [|split]]].
  - apply H3. intros h d Hin. vm_compute in Hin.
    destruct Hin as [E | []]. injection E as <- _. reflexivity.
  - apply (H6 [] (str "boom") [CR; LF] eq_refl).
    + intros a b E Hb. symmetry in E. apply app_eq_nil in E.
      destruct E as [_ E]. congruence.
    + reflexivity.
    + reflexivity.
  - exact H7.
  - apply H9. reflexivity.
Defined.

(** C6, as the specification states it, fails: a chunk that holds [onRunComplete]
    and the watch usage text, received while a run is on, is suppressed;
    no [end] is fired, the Run Info and the armed monitor stay, and the
    timeout that expires next fires [long-run]. *)
Lemma run_complete_counterexample :
  let message :=
    str "onRunComplete" ++ [CR; LF]
    ++ str "Watch Usage: Press w to show more." in
  let r :=
    RunTestListener.onExecutableStdErr
      Sample.session Sample.watchTests message message Sample.running in
  includes (str "onRunComplete") message = true
  /\ RunTestListener.runInfo Sample.running
     = Some (RunTestListener.mkRunInfo Sample.watchTests (Some (ofZ 3)))
  /\ LongRunMonitor.timer (RunTestListener.longRunMonitor Sample.running)
     = Some 0
  /\ firedEvents (actionsOf r) = []
  /\ stateOf r = Sample.running
  /\ firedEvents
       (snd (RunTestListener.run
               Sample.session [RunTestListener.TimerExpired 0] (stateOf r)))
     = [LongRunEvent Sample.watchTests (Some (ofZ 3)) (ofZ 60000)].
Proof. vm_compute. repeat split; reflexivity. Qed.

(* ================================================================== *)
(** * Further properties: the monitor and its timeout *)
(* ================================================================== *)

Module ArmedFacts.
Import LongRunMonitor.

Lemma armedOnce_owns (w : World) :
  armedOnce w ->
  forall h d, In (h, d) (Timers.pending (fst w)) -> timer (snd w) = Some h.
Proof.
  unfold armedOnce. destruct (timer (snd w)) as [h0|].
  - intros [d0 E] h d Hin. rewrite E in Hin.
    destruct Hin as [Eq | []]. injection Eq as <- _. reflexivity.
  - intros E h d Hin. rewrite E in Hin. destruct Hin.
Qed.

Lemma armedOnce_cancel (w : World) :
  armedOnce w ->
  Timers.pending (fst (stateOf (cancel w))) = []
  /\ timer (snd (stateOf (cancel w))) = None.
Proof.
  intros Ha. destruct w as [ts m].
  apply (RunCompleteFacts.owns_cancel ts m).
  exact (armedOnce_owns (ts, m) Ha).
Qed.

Lemma cancel_pending_le (w : World) :
  length (Timers.pending (fst (stateOf (cancel w))))
  <= length (Timers.pending (fst w)).
Proof.
  destruct w as [ts [lg th [h|]]]; cbn; [|lia].
  apply filter_length_le.
Qed.

(** What [start()] does to an enabled monitor that agrees with the
    runtime. *)
Lemma start_enabled (w : World) :
  armedOnce w ->
  le0 (thresholdMs (snd w)) = false ->
  stateOf (start w)
  = (Timers.mk (S (Timers.nextTimer (fst w)))
               [(Timers.nextTimer (fst w), thresholdMs (snd w))],
     mk (logging (snd w)) (thresholdMs (snd w))
        (Some (Timers.nextTimer (fst w))))
  /\ actionsOf (start w)
     = match timer (snd w) with
       | Some h =>
           [Logging (logging (snd w)) (str "warn")
                    (str "LongRunMonitor is already runninng");
            ClearTimeout h;
            SetTimeout (Timers.nextTimer (fst w)) (thresholdMs (snd w))]
       | None =>
           [SetTimeout (Timers.nextTimer (fst w)) (thresholdMs (snd w))]
       end.
Proof.
  intros Ha Hth. destruct w as [[nt pd] [lg th tm]].
  unfold armedOnce in Ha. cbn [fst snd timer thresholdMs logging] in *.
  unfold start, bind, get. cbn [snd fst thresholdMs timer]. rewrite Hth.
  destruct tm as [h|].
  - destruct Ha as [d Hd]. cbn in Hd. subst pd. cbn.
    rewrite Nat.eqb_refl. cbn. split; reflexivity.
  - cbn in Ha. subst pd. cbn. split; reflexivity.
Qed.

Lemma armedOnce_start (w : World) : armedOnce w -> armedOnce (stateOf (start w)).
Proof.
  intros Ha. destruct (le0 (thresholdMs (snd w))) eqn:Hth.
  - rewrite (LongRunMonitorFacts.start_disabled w Hth). exact Ha.
  - destruct (start_enabled w Ha Hth) as [-> _].
    unfold armedOnce. cbn [fst snd timer]. eexists. reflexivity.
Qed.

End ArmedFacts.

(** X1.  [start()] never stacks two timeouts.  On an enabled monitor that
    agrees with the runtime, [start()] leaves exactly one timeout armed,
    a fresh one with the threshold as its delay, which the monitor holds;
    when the monitor was armed already it first logs a warning and clears
    the timeout it held. *)
Theorem longRunMonitor_start_rearms (w : LongRunMonitor.World) :
  armedOnce w ->
  le0 (LongRunMonitor.thresholdMs (snd w)) = false ->
  let w' := stateOf (LongRunMonitor.start w) in
  let fresh := Timers.nextTimer (fst w) in
  let threshold := LongRunMonitor.thresholdMs (snd w) in
  LongRunMonitor.timer (snd w') = Some fresh
  /\ Timers.pending (fst w') = [(fresh, threshold)]
  /\ LongRunMonitor.thresholdMs (snd w') = threshold
  /\ (forall h d, In (h, d) (Timers.pending (fst w)) -> h <> fresh ->
                  Timers.isPending h (fst w') = false)
  /\ actionsOf (LongRunMonitor.start w)
     = match LongRunMonitor.timer (snd w) with
       | Some h =>
           [Logging (LongRunMonitor.logging (snd w)) (str "warn")
                    (str "LongRunMonitor is already runninng");
            ClearTimeout h;
            SetTimeout fresh threshold]
       | None => [SetTimeout fresh threshold]
       end.
Proof.
  intros Ha Hth. cbv zeta.
  destruct (ArmedFacts.start_enabled w Ha Hth) as [Es Ea].
  rewrite Es, Ea. cbn [fst snd LongRunMonitor.timer
                       LongRunMonitor.thresholdMs Timers.pending].
  repeat split.
  intros h d _ Hn. unfold Timers.isPending. cbn.
  destruct (Nat.eqb_spec (Timers.nextTimer (fst w)) h); [congruence|].
  reflexivity.
Qed.

Lemma longRunMonitor_start_rearms_witness :
  let w : LongRunMonitor.World :=
    (Timers.mk 1 [(0, ofZ 60000)],
     LongRunMonitor.mk RunTestListener.name (ofZ 60000) (Some 0)) in
  Timers.pending (fst (stateOf (LongRunMonitor.start w))) = [(1, ofZ 60000)]
  /\ actionsOf (LongRunMonitor.start w)
     = [Logging RunTestListener.name (str "warn")
                (str "LongRunMonitor is already runninng");
        ClearTimeout 0;
        SetTimeout 1 (ofZ 60000)].
Proof.
  cbv zeta.
  destruct (longRunMonitor_start_rearms
              (Timers.mk 1 [(0, ofZ 60000)],
               LongRunMonitor.mk RunTestListener.name (ofZ 60000) (Some 0)))
    as [_ [H2 [_ [_ H5]]]].
  - exists (ofZ 60000). reflexivity.
  - reflexivity.
  - split; [exact H2 | exact H5].
Defined.

Module WorldFacts.
Import RunTestListener RunTestListenerFacts RunTestListenerStdErr
       RunTestListenerEvents RunTestListenerExit RunCompleteFacts ArmedFacts.

Lemma runEnded_world (st : t) :
  worldOf (stateOf (runEnded st)) = stateOf (LongRunMonitor.cancel (worldOf st)).
Proof. destruct st as [ts [lg th [h|]] ri ec]; reflexivity. Qed.

Lemma runEnded_actions (st : t) :
  actionsOf (runEnded st)
  = match LongRunMonitor.timer (longRunMonitor st) with
    | Some h => [ClearTimeout h]
    | None => []
    end.
Proof. destruct st as [ts [lg th [h|]] ri ec]; reflexivity. Qed.

Lemma handleRunStart_world (p : JestProcess) (output : jsstring) (st : t) :
  worldOf (stateOf (handleRunStart p output st))
  = if includes (str "onRunStart") output
    then stateOf (LongRunMonitor.start (worldOf st)) else worldOf st.
Proof.
  destruct (includes (str "onRunStart") output) eqn:E.
  - rewrite (handleRunStart_eq p output st E). unfold worldOf.
    cbn [stateOf fst snd timers longRunMonitor].
    destruct (LongRunMonitor.start (timers st, longRunMonitor st))
      as [[u [ts m]] o]. reflexivity.
  - rewrite (handleRunStart_skip p output st E). reflexivity.
Qed.

Lemma handleRunComplete_world (p : JestProcess) (output : jsstring) (st : t) :
  worldOf (stateOf (handleRunComplete p output st))
  = if includes (str "onRunComplete") output
    then stateOf (LongRunMonitor.cancel (worldOf st)) else worldOf st.
Proof.
  destruct (includes (str "onRunComplete") output) eqn:E.
  - rewrite (handleRunComplete_eq p output st E).
    cbn [stateOf fst snd]. apply runEnded_world.
  - rewrite (handleRunComplete_skip p output st E). reflexivity.
Qed.

Lemma onProcessExit_world
      (p : JestProcess) (code : option Z) (signal : option jsstring)
      (st : t) :
  worldOf (stateOf (onProcessExit p code signal st))
  = stateOf (LongRunMonitor.cancel (worldOf st)).
Proof.
  unfold onProcessExit. rewrite !stateOf_bind.
  unfold setExitCode, modify, stateOf at 1. unfold worldOf at 1.
  cbn [fst snd timers longRunMonitor].
  unfold AbstractProcessListener.onProcessExit, when.
  match goal with |- context [if ?b then _ else _] => destruct b end;
    cbn [stateOf fst snd]; apply runEnded_world.
Qed.

Lemma timeout_world (h : nat) (st : t) :
  worldOf (stateOf (timeout h st))
  = if Timers.isPending h (timers st)
    then (Timers.expire h (timers st),
          LongRunMonitor.mk (LongRunMonitor.logging (longRunMonitor st))
                            (LongRunMonitor.thresholdMs (longRunMonitor st))
                            None)
    else worldOf st.
Proof.
  destruct st as [ts m ri ec]. unfold timeout, bind, get, when.
  cbn [timers runInfo longRunMonitor].
  destruct (Timers.isPending h ts); [|reflexivity].
  destruct ri; reflexivity.
Qed.

Section Stimuli.
Context `{Host}.
Variable sess : ListenerSession.

(** The timers and the monitor after a stimulus. *)
Lemma react_world (s : Stimulus) (st : t) :
  worldOf (stateOf (react sess s st)) = worldAfter s (worldOf st).
Proof.
  destruct s as [p e | h | p r].
  - destruct e; cbn [react onEvent AbstractProcessListener.onEvent handlers
                           AbstractProcessListener.h_onProcessStarting
                           AbstractProcessListener.h_onExecutableStdErr
                           AbstractProcessListener.h_onExecutableJSON
                           AbstractProcessListener.h_onExecutableOutput
                           AbstractProcessListener.h_onTerminalError
                           AbstractProcessListener.h_onProcessClose
                           AbstractProcessListener.h_onProcessExit
                           AbstractProcessListener.h_name worldAfter];
      try reflexivity.
    + destruct (shouldIgnoreOutput (cleanAnsi data)) eqn:Hi.
      * unfold onExecutableStdErr. rewrite Hi. reflexivity.
      * destruct (onExecutableStdErr_steps sess p (cleanAnsi data) data st Hi)
          as [-> _].
        rewrite handleRunComplete_world, handleRunStart_world. reflexivity.
    + unfold onExecutableOutput, when.
      destruct (negb (shouldIgnoreOutput (cleanAnsi data))); reflexivity.
    + rewrite onProcessClose_eq. reflexivity.
    + apply onProcessExit_world.
  - cbn [react worldAfter]. rewrite timeout_world. reflexivity.
  - cbn [react worldAfter]. unfold snapshotPromptAnswered, when.
    destruct r; reflexivity.
Qed.

(** The [long-run] events of a stimulus are those of the expiry of a
    timeout. *)
Lemma react_longRun (s : Stimulus) (st : t) :
  filter isLongRun (firedEvents (actionsOf (react sess s st)))
  = match s with
    | TimerExpired h =>
        if Timers.isPending h (timers st)
        then match runInfo st with
             | Some info =>
                 [LongRunEvent (process info) (numTotalTestSuites info)
                               (LongRunMonitor.thresholdMs (longRunMonitor st))]
             | None => []
             end
        else []
    | _ => []
    end.
Proof.
  destruct s as [p e | h | p r].
  - destruct e; cbn [react onEvent AbstractProcessListener.onEvent handlers
                           AbstractProcessListener.h_onProcessStarting
                           AbstractProcessListener.h_onExecutableStdErr
                           AbstractProcessListener.h_onExecutableJSON
                           AbstractProcessListener.h_onExecutableOutput
                           AbstractProcessListener.h_onTerminalError
                           AbstractProcessListener.h_onProcessClose
                           AbstractProcessListener.h_onProcessExit
                           AbstractProcessListener.h_name];
      try reflexivity.
    + rewrite onExecutableStdErr_fired.
      destruct (shouldIgnoreOutput (cleanAnsi data)); [reflexivity|].
      apply stdErrEvents_longRun.
    + unfold onExecutableOutput, when.
      destruct (negb (shouldIgnoreOutput (cleanAnsi data))); reflexivity.
    + rewrite onProcessClose_eq.
      unfold actionsOf at 1. cbn [snd]. rewrite firedEvents_app.
      rewrite (quiet_firedEvents _ (handleWatchProcessCrash_quiet _ _)).
      reflexivity.
    + rewrite onProcessExit_fired. reflexivity.
  - cbn [react]. rewrite timeout_fired.
    destruct (Timers.isPending h (timers st)); [|reflexivity].
    destruct (runInfo st); reflexivity.
  - cbn [react]. unfold snapshotPromptAnswered, when.
    destruct r; reflexivity.
Qed.

End Stimuli.

(** [start()] and [cancel()] keep the threshold. *)
Lemma start_threshold (w : LongRunMonitor.World) :
  LongRunMonitor.thresholdMs (snd (stateOf (LongRunMonitor.start w)))
  = LongRunMonitor.thresholdMs (snd w).
Proof.
  destruct w as [[nt pd] [lg th [h|]]]; unfold LongRunMonitor.start, bind, get;
    cbn [snd LongRunMonitor.thresholdMs]; destruct (le0 th); reflexivity.
Qed.

Lemma cancel_threshold (w : LongRunMonitor.World) :
  LongRunMonitor.thresholdMs (snd (stateOf (LongRunMonitor.cancel w)))
  = LongRunMonitor.thresholdMs (snd w).
Proof. destruct w as [[nt pd] [lg th [h|]]]; reflexivity. Qed.

Lemma worldAfter_threshold `{Host} (s : Stimulus) (w : LongRunMonitor.World) :
  LongRunMonitor.thresholdMs (snd (worldAfter s w))
  = LongRunMonitor.thresholdMs (snd w).
Proof.
  destruct s as [p e | h | p r]; [destruct e| |]; cbn [worldAfter];
    try reflexivity.
  - destruct (shouldIgnoreOutput (cleanAnsi data)); [reflexivity|].
    destruct (includes (str "onRunStart") (cleanAnsi data));
      destruct (includes (str "onRunComplete") (cleanAnsi data));
      rewrite ?cancel_threshold, ?start_threshold; reflexivity.
  - apply cancel_threshold.
  - destruct (Timers.isPending h (fst w)); reflexivity.
Qed.

Lemma armedOnce_cancelled (w : LongRunMonitor.World) :
  armedOnce w -> armedOnce (stateOf (LongRunMonitor.cancel w)).
Proof.
  intros Ha. destruct (armedOnce_cancel w Ha) as [Hp Ht].
  unfold armedOnce. rewrite Ht. exact Hp.
Qed.

Lemma armedOnce_pending (w : LongRunMonitor.World) :
  armedOnce w -> length (Timers.pending (fst w)) <= 1.
Proof.
  unfold armedOnce. destruct (LongRunMonitor.timer (snd w)).
  - intros [d ->]. cbn. lia.
  - intros ->. cbn. lia.
Qed.

Lemma armedOnce_expire (h : nat) (w : LongRunMonitor.World) :
  armedOnce w ->
  Timers.isPending h (fst w) = true ->
  Timers.pending (Timers.expire h (fst w)) = [].
Proof.
  unfold armedOnce, Timers.isPending, Timers.expire.
  destruct (LongRunMonitor.timer (snd w)) as [h0|].
  - intros [d ->]. cbn. destruct (Nat.eqb h0 h); [reflexivity|discriminate].
  - intros ->. discriminate.
Qed.

Lemma armedOnce_worldAfter `{Host} (s : Stimulus) (w : LongRunMonitor.World) :
  armedOnce w -> armedOnce (worldAfter s w).
Proof.
  intros Ha.
  destruct s as [p e | h | p r]; [destruct e| |]; cbn [worldAfter];
    try exact Ha.
  - destruct (shouldIgnoreOutput (cleanAnsi data)); [exact Ha|].
    destruct (includes (str "onRunStart") (cleanAnsi data));
      destruct (includes (str "onRunComplete") (cleanAnsi data));
      auto using armedOnce_cancelled, armedOnce_start.
  - apply armedOnce_cancelled, Ha.
  - destruct (Timers.isPending h (fst w)) eqn:Hp; [|exact Ha].
    unfold armedOnce. cbn [fst snd LongRunMonitor.timer].
    apply armedOnce_expire; assumption.
Qed.

Section Runs.
Context `{Host}.
Variable sess : ListenerSession.

Lemma run_wellArmed (l : list Stimulus) (st : t) :
  wellArmed st -> wellArmed (fst (run sess l st)).
Proof.
  revert st. induction l as [|s l IH]; intros st Ha; [exact Ha|].
  rewrite run_cons. cbn [fst]. apply IH.
  unfold wellArmed. change (armedOnce (worldOf (stateOf (react sess s st)))).
  rewrite react_world. apply armedOnce_worldAfter. exact Ha.
Qed.

Lemma run_threshold (l : list Stimulus) (st : t) :
  LongRunMonitor.thresholdMs (longRunMonitor (fst (run sess l st)))
  = LongRunMonitor.thresholdMs (longRunMonitor st).
Proof.
  revert st. induction l as [|s l IH]; intros st; [reflexivity|].
  rewrite run_cons. cbn [fst]. rewrite IH.
  change (LongRunMonitor.thresholdMs
            (snd (worldOf (stateOf (react sess s st))))
          = LongRunMonitor.thresholdMs (snd (worldOf st))).
  rewrite react_world. apply worldAfter_threshold.
Qed.

End Runs.

End WorldFacts.

(** X2.  The listener never has two timeouts armed.  After any sequence
    of process events, timer expiries and prompt answers on a new
    listener, the runtime holds no timeout when the monitor holds no
    timer, and exactly the monitor's timeout when it holds one. *)
Theorem at_most_one_timeout_armed `{Host}
        (sess : ListenerSession) (stimuli : list RunTestListener.Stimulus) :
  let st := fst (RunTestListener.run sess stimuli
                                     (RunTestListener.constructor sess)) in
  wellArmed st
  /\ length (Timers.pending (RunTestListener.timers st)) <= 1
  /\ monitorOwnsTimers st.
Proof.
  cbv zeta.
  assert (Ha : wellArmed (fst (RunTestListener.run
                                 sess stimuli
                                 (RunTestListener.constructor sess)))).
  { apply WorldFacts.run_wellArmed. unfold wellArmed, armedOnce.
    reflexivity. }
  split; [exact Ha|]. split.
  - exact (WorldFacts.armedOnce_pending _ Ha).
  - exact (ArmedFacts.armedOnce_owns _ Ha).
Qed.

Module LongRunFacts.
Import RunTestListener RunTestListenerFacts RunTestListenerStdErr
       RunTestListenerEvents RunTestListenerExit RunCompleteFacts
       ArmedFacts WorldFacts.

Lemma expire_shrinks (h : nat) (l : list (nat * number)) :
  existsb (fun e => Nat.eqb (fst e) h) l = true ->
  S (length (filter (fun e => negb (Nat.eqb (fst e) h)) l)) <= length l.
Proof.
  induction l as [|e l IH]; cbn; [discriminate|].
  destruct (Nat.eqb (fst e) h); cbn.
  - intros _. apply le_n_S, filter_length_le.
  - intros Hl. apply le_n_S, IH, Hl.
Qed.

Lemma longRunWith_filter (th : number) (l : list JestRunEvent) :
  Forall (longRunWith th) (filter isLongRun l) -> Forall (longRunWith th) l.
Proof.
  induction l as [|e l IH]; cbn; [constructor|].
  destruct e; cbn; intros Hf;
    try (constructor; [exact I | exact (IH Hf)]).
  inversion Hf; subst. constructor; auto.
Qed.

Section Stimuli.
Context `{Host}.
Variable sess : ListenerSession.

(** A stimulus that starts no run arms no timeout, and a [long-run] event
    uses up an armed timeout. *)
Lemma react_budget (s : Stimulus) (st : t) :
  startsRun s = false ->
  count isLongRun (firedEvents (actionsOf (react sess s st)))
  + length (Timers.pending (timers (stateOf (react sess s st))))
  <= length (Timers.pending (timers st)).
Proof.
  intros Hs. unfold count. rewrite react_longRun.
  change (timers (stateOf (react sess s st)))
    with (fst (worldOf (stateOf (react sess s st)))).
  rewrite react_world.
  destruct s as [p e | h | p r]; [destruct e| |]; cbn [worldAfter length];
    try (cbn; lia).
  - cbn [startsRun] in Hs.
    destruct (shouldIgnoreOutput (cleanAnsi data)); [cbn; lia|].
    cbn [negb andb] in Hs. rewrite Hs.
    destruct (includes (str "onRunComplete") (cleanAnsi data)); [|cbn; lia].
    apply (cancel_pending_le (worldOf st)).
  - apply (cancel_pending_le (worldOf st)).
  - cbn [worldOf fst].
    destruct (Timers.isPending h (timers st)) eqn:Hp; [|cbn; lia].
    cbn [fst Timers.expire Timers.pending].
    pose proof (expire_shrinks h _ Hp) as Hl.
    destruct (runInfo st); cbn [length]; lia.
Qed.

Lemma run_budget (l : list Stimulus) (st : t) :
  forallb (fun s => negb (startsRun s)) l = true ->
  count isLongRun (firedEvents (snd (run sess l st)))
  + length (Timers.pending (timers (fst (run sess l st))))
  <= length (Timers.pending (timers st)).
Proof.
  revert st. induction l as [|s l IH]; intros st Hl.
  - cbn. lia.
  - cbn [forallb] in Hl. apply andb_true_iff in Hl as [Hs Hl].
    apply negb_true_iff in Hs.
    rewrite run_cons. cbn [fst snd].
    rewrite firedEvents_app, count_app.
    pose proof (react_budget s st Hs).
    pose proof (IH (stateOf (react sess s st)) Hl). lia.
Qed.

(** While the monitor is disabled no timeout is armed and nothing
    expires. *)
Lemma react_disabled (s : Stimulus) (st : t) :
  le0 (LongRunMonitor.thresholdMs (longRunMonitor st)) = true ->
  Timers.pending (timers st) = [] ->
  Timers.pending (timers (stateOf (react sess s st))) = []
  /\ filter isLongRun (firedEvents (actionsOf (react sess s st))) = [].
Proof.
  intros Hth Hp. split.
  - change (timers (stateOf (react sess s st)))
      with (fst (worldOf (stateOf (react sess s st)))).
    rewrite react_world.
    assert (Hc : forall w, Timers.pending (fst w) = [] ->
                           Timers.pending
                             (fst (stateOf (LongRunMonitor.cancel w))) = []).
    { intros w Hw. pose proof (cancel_pending_le w) as Hl.
      rewrite Hw in Hl.
      destruct (Timers.pending (fst (stateOf (LongRunMonitor.cancel w))));
        [reflexivity | cbn in Hl; lia]. }
    destruct s as [p e | h | p r]; [destruct e| |]; cbn [worldAfter];
      try exact Hp.
    + destruct (shouldIgnoreOutput (cleanAnsi data)); [exact Hp|].
      rewrite (LongRunMonitorFacts.start_disabled (worldOf st) Hth).
      cbn [stateOf fst snd].
      destruct (includes (str "onRunStart") (cleanAnsi data));
        destruct (includes (str "onRunComplete") (cleanAnsi data));
        auto.
    + auto.
    + unfold Timers.isPending. cbn [worldOf fst]. rewrite Hp. exact Hp.
  - rewrite react_longRun. destruct s; try reflexivity.
    unfold Timers.isPending. rewrite Hp. reflexivity.
Qed.

Lemma run_disabled (l : list Stimulus) (st : t) :
  le0 (LongRunMonitor.thresholdMs (longRunMonitor st)) = true ->
  Timers.pending (timers st) = [] ->
  Timers.pending (timers (fst (run sess l st))) = []
  /\ filter isLongRun (firedEvents (snd (run sess l st))) = [].
Proof.
  revert st. induction l as [|s l IH]; intros st Hth Hp.
  - split; [exact Hp | reflexivity].
  - rewrite run_cons. cbn [fst snd].
    destruct (react_disabled s st Hth Hp) as [Hp1 Hf1].
    assert (Hth1 : le0 (LongRunMonitor.thresholdMs
                          (longRunMonitor (stateOf (react sess s st))))
                   = true).
    { change (longRunMonitor (stateOf (react sess s st)))
        with (snd (worldOf (stateOf (react sess s st)))).
      rewrite react_world, worldAfter_threshold. exact Hth. }
    destruct (IH _ Hth1 Hp1) as [Hp2 Hf2].
    split; [exact Hp2|].
    rewrite firedEvents_app, filter_app, Hf1, Hf2. reflexivity.
Qed.

Lemma run_longRunWith (l : list Stimulus) (st : t) :
  Forall (longRunWith (LongRunMonitor.thresholdMs (longRunMonitor st)))
         (firedEvents (snd (run sess l st))).
Proof.
  revert st. induction l as [|s l IH]; intros st; [constructor|].
  rewrite run_cons. cbn [snd]. rewrite firedEvents_app.
  apply Forall_app. split.
  - apply longRunWith_filter. rewrite react_longRun.
    destruct s; try constructor.
    destruct (Timers.isPending h (timers st)); [|constructor].
    destruct (runInfo st); constructor; [reflexivity | constructor].
  - specialize (IH (stateOf (react sess s st))).
    change (longRunMonitor (stateOf (react sess s st)))
      with (snd (worldOf (stateOf (react sess s st)))) in IH.
    rewrite react_world, worldAfter_threshold in IH. exact IH.
Qed.

End Stimuli.

Lemma disabledSetting_le0 (v : JsValue) :
  disabledSetting v = true ->
  le0 (LongRunMonitor.thresholdMs (LongRunMonitor.constructor name v)) = true.
Proof.
  destruct v; cbn; try discriminate; try reflexivity.
  intros Hn. apply negb_true_iff in Hn. rewrite Hn. reflexivity.
Qed.

End LongRunFacts.

(** X3.  A run is reported as long at most once.  Whatever a new listener
    went through, a sequence of stimuli among which no stderr chunk
    starts a run fires at most one [long-run] event: the timeout of the
    monitor is armed by a run start only and fires once. *)
Theorem long_run_at_most_once `{Host}
        (sess : ListenerSession)
        (before stimuli : list RunTestListener.Stimulus) :
  forallb (fun s => negb (startsRun s)) stimuli = true ->
  let st := fst (RunTestListener.run sess before
                                     (RunTestListener.constructor sess)) in
  count isLongRun (firedEvents (snd (RunTestListener.run sess stimuli st)))
  <= 1.
Proof.
  intros Hl. cbv zeta.
  pose proof (LongRunFacts.run_budget
                sess stimuli
                (fst (RunTestListener.run sess before
                                          (RunTestListener.constructor sess)))
                Hl) as Hb.
  assert (Ha : wellArmed (fst (RunTestListener.run
                                 sess before
                                 (RunTestListener.constructor sess)))).
  { apply WorldFacts.run_wellArmed. unfold wellArmed, armedOnce.
    reflexivity. }
  pose proof (WorldFacts.armedOnce_pending _ Ha) as Hp.
  cbn [fst] in Hp. lia.
Qed.

Lemma long_run_at_most_once_witness :
  let before :=
    [RunTestListener.ProcessEvent
       Sample.watchTests
       (executableStdErr (str "onRunStart: numTotalTestSuites: 3" ++ [LF]))] in
  let stimuli :=
    [RunTestListener.TimerExpired 0;
     RunTestListener.ProcessEvent Sample.watchTests
                                  (executableOutput (str "PASS"));
     RunTestListener.TimerExpired 0] in
  let st := fst (RunTestListener.run Sample.session before
                                     (RunTestListener.constructor
                                        Sample.session)) in
  count isLongRun
        (firedEvents (snd (RunTestListener.run Sample.session stimuli st)))
  = 1
  /\ count isLongRun
           (firedEvents (snd (RunTestListener.run Sample.session stimuli st)))
     <= 1.
Proof.
  cbv zeta. split.
  - vm_compute. reflexivity.
  - apply (long_run_at_most_once
             Sample.session
             [RunTestListener.ProcessEvent
                Sample.watchTests
                (executableStdErr
                   (str "onRunStart: numTotalTestSuites: 3" ++ [LF]))]
             [RunTestListener.TimerExpired 0;
              RunTestListener.ProcessEvent Sample.watchTests
                                           (executableOutput (str "PASS"));
              RunTestListener.TimerExpired 0]).
    vm_compute. reflexivity.
Defined.

(** X4.  A disabled monitor stays silent.  When the [monitorLongRun]
    setting is neither unset nor a number greater than zero (['off'],
    [0], a negative number, [NaN]), no sequence of stimuli makes a new
    listener fire a [long-run] event, and no timeout is left armed. *)
Theorem disabled_monitor_never_fires `{Host}
        (sess : ListenerSession) (stimuli : list RunTestListener.Stimulus) :
  disabledSetting (monitorLongRun (settings sess)) = true ->
  let r := RunTestListener.run sess stimuli
                               (RunTestListener.constructor sess) in
  filter isLongRun (firedEvents (snd r)) = []
  /\ Timers.pending (RunTestListener.timers (fst r)) = [].
Proof.
  intros Hd. cbv zeta.
  destruct (LongRunFacts.run_disabled
              sess stimuli (RunTestListener.constructor sess)) as [Hp Hf].
  - apply LongRunFacts.disabledSetting_le0, Hd.
  - reflexivity.
  - split; assumption.
Qed.

Lemma disabled_monitor_never_fires_witness :
  let sess := mkSession (mkSettings (JsStr (str "off")) true)
                        (str "workspace") in
  let stimuli :=
    [RunTestListener.ProcessEvent
       Sample.watchTests
       (executableStdErr (str "onRunStart: numTotalTestSuites: 3" ++ [LF]));
     RunTestListener.TimerExpired 0] in
  filter isLongRun
         (firedEvents
            (snd (RunTestListener.run sess stimuli
                                      (RunTestListener.constructor sess))))
  = [].
Proof.
  cbv zeta.
  apply (disabled_monitor_never_fires
           (mkSession (mkSettings (JsStr (str "off")) true)
                      (str "workspace"))
           [RunTestListener.ProcessEvent
              Sample.watchTests
              (executableStdErr
                 (str "onRunStart: numTotalTestSuites: 3" ++ [LF]));
            RunTestListener.TimerExpired 0]).
  reflexivity.
Defined.

(** X5.  Every [long-run] event that a listener fires carries the
    threshold that its monitor was constructed with: no handler changes
    the threshold. *)
Theorem long_run_carries_configured_threshold `{Host}
        (sess : ListenerSession) (stimuli : list RunTestListener.Stimulus) :
  let r := RunTestListener.run sess stimuli
                               (RunTestListener.constructor sess) in
  Forall (longRunWith (configuredThreshold sess)) (firedEvents (snd r))
  /\ LongRunMonitor.thresholdMs (RunTestListener.longRunMonitor (fst r))
     = configuredThreshold sess.
Proof.
  cbv zeta. split.
  - apply (LongRunFacts.run_longRunWith
             sess stimuli (RunTestListener.constructor sess)).
  - apply (WorldFacts.run_threshold
             sess stimuli (RunTestListener.constructor sess)).
Qed.

(* ================================================================== *)
(** * Further properties: ListTestFileListener over event sequences *)
(* ================================================================== *)

Module ListingFacts.
Import ListTestFileListener ListTestFileListenerFacts.

Lemma results_app (a b : list Action) :
  results (a ++ b) = results a ++ results b.
Proof. unfold results. apply flat_map_app. Qed.

Section WithHost.
Context `{Host}.

Lemma onProcessClose_once
      (p : JestProcess) (code : option Z) (signal : option jsstring)
      (this : t) :
  stateOf (onProcessClose p code signal this) = this
  /\ length (results (actionsOf (onProcessClose p code signal this))) = 1
  /\ firedEvents (actionsOf (onProcessClose p code signal this)) = []
  /\ forallb (fun a => negb (isIntervention a))
             (actionsOf (onProcessClose p code signal this)) = true.
Proof.
  assert (E : exists out,
             onProcessClose p code signal this = (tt, this, out)
             /\ length (results out) = 1
             /\ firedEvents out = []
             /\ forallb (fun a => negb (isIntervention a)) out = true).
  { unfold onProcessClose, AbstractProcessListener.onProcessClose.
    unfold bind at 1. cbn [ret]. unfold bind at 1. cbn [get].
    destruct (negb match exitCode this with
                   | Some c => (c =? 0)%Z
                   | None => false
                   end);
      [eexists; split; [reflexivity | repeat split]|].
    destruct (stringMatchAll (buffer this) JsonArrayRegexp) as [[|m json]|];
      try solve [eexists; split; [reflexivity | repeat split]].
    destruct (reduce (m :: json) []);
      (eexists; split; [reflexivity | repeat split]). }
  destruct E as [out [-> [Hr [Hf Hi]]]]. repeat split; assumption.
Qed.

Lemma onEvent_buffer (p : JestProcess) (e : JestProcessEvent) (this : t) :
  buffer (stateOf (onEvent p e this))
  = buffer this
    ++ match e with
       | executableOutput data => cleanAnsi data
       | _ => []
       end.
Proof.
  destruct e as [|d|d|d|d|c sg|c sg|tag]; rewrite ?app_nil_r;
    try reflexivity.
  - cbn [onEvent AbstractProcessListener.onEvent handlers
         AbstractProcessListener.h_onProcessClose].
    destruct (onProcessClose_once p c sg this) as [-> _].
    reflexivity.
  - cbn [onEvent AbstractProcessListener.onEvent handlers
         AbstractProcessListener.h_onProcessExit].
    unfold onProcessExit. rewrite !stateOf_bind.
    unfold AbstractProcessListener.onProcessExit, when.
    destruct (AbstractProcessListener.isProcessError c); reflexivity.
Qed.

Lemma onEvent_outcome (p : JestProcess) (e : JestProcessEvent) (this : t) :
  length (results (actionsOf (onEvent p e this)))
  = (if isCloseEvent (p, e) then 1 else 0)
  /\ firedEvents (actionsOf (onEvent p e this)) = processStarts [(p, e)]
  /\ forallb (fun a => negb (isIntervention a))
             (actionsOf (onEvent p e this)) = true.
Proof.
  destruct e as [|d|d|d|d|c sg|c sg|tag];
    try (repeat split; reflexivity).
  - cbn [onEvent AbstractProcessListener.onEvent handlers
         AbstractProcessListener.h_onProcessClose].
    destruct (onProcessClose_once p c sg this) as [_ [Hr [Hf Hi]]].
    repeat split; assumption.
  - cbn [onEvent AbstractProcessListener.onEvent handlers
         AbstractProcessListener.h_onProcessExit].
    unfold onProcessExit, AbstractProcessListener.onProcessExit, when.
    destruct (AbstractProcessListener.isProcessError c);
      repeat split; reflexivity.
Qed.

Lemma run_fields (l : list (JestProcess * JestProcessEvent)) (this : t) :
  buffer (fst (run l this)) = buffer this ++ stdoutOf l
  /\ stderrOutput (fst (run l this)) = stderrOutput this ++ stderrOf l
  /\ exitCode (fst (run l this)) = lastExit l (exitCode this).
Proof.
  revert this. induction l as [|[p e] l IH]; intros this.
  - cbn. rewrite !app_nil_r. repeat split.
  - rewrite listing_run_cons. cbn [fst snd].
    destruct (IH (stateOf (onEvent p e this))) as [Hb [He Hc]].
    rewrite Hb, He, Hc.
    rewrite onEvent_buffer, onEvent_stderrOutput, onEvent_exitCode.
    unfold stdoutOf, stderrOf. cbn [flat_map fst snd lastExit].
    rewrite <- !app_assoc. repeat split.
    destruct e; reflexivity.
Qed.

Lemma run_outcome (l : list (JestProcess * JestProcessEvent)) (this : t) :
  length (results (snd (run l this))) = count isCloseEvent l
  /\ firedEvents (snd (run l this)) = processStarts l
  /\ forallb (fun a => negb (isIntervention a)) (snd (run l this)) = true.
Proof.
  revert this. induction l as [|[p e] l IH]; intros this.
  - repeat split.
  - rewrite listing_run_cons. cbn [fst snd].
    destruct (IH (stateOf (onEvent p e this))) as [Hr [Hf Hi]].
    destruct (onEvent_outcome p e this) as [Hr1 [Hf1 Hi1]].
    rewrite results_app, length_app, firedEvents_app, forallb_app.
    rewrite Hr, Hf, Hi, Hr1, Hf1, Hi1.
    split; [|split].
    + unfold count. cbn [filter].
      destruct (isCloseEvent (p, e)); reflexivity.
    + unfold processStarts. cbn [flat_map]. rewrite app_nil_r.
      reflexivity.
    + reflexivity.
Qed.

End WithHost.

End ListingFacts.

(** X6.  What the listing listener keeps of a sequence of events: its
    buffer grows by the stdout chunks without their ANSI sequences, in
    order; its stderr text grows by the raw stderr chunks, in order; its
    exit code is the one of the last [processExit].  No other event
    touches these fields. *)
Theorem listing_listener_accumulates `{Host}
        (events : list (JestProcess * JestProcessEvent))
        (this : ListTestFileListener.t) :
  let after := fst (ListTestFileListener.run events this) in
  ListTestFileListener.buffer after
  = ListTestFileListener.buffer this ++ stdoutOf events
  /\ ListTestFileListener.stderrOutput after
     = ListTestFileListener.stderrOutput this ++ stderrOf events
  /\ ListTestFileListener.exitCode after
     = lastExit events (ListTestFileListener.exitCode this).
Proof. cbv zeta. apply ListingFacts.run_fields. Qed.

(** X7.  The listing listener reports through its callback only.  Over
    any sequence of events it calls the callback once for every
    [processClose] and at no other event; the only events it fires are
    the [process-start] events of [processStarting] (no [exit], no
    [data]); it schedules and stops no process, shows no prompt and arms
    no timeout. *)
Theorem listing_listener_reports_at_close `{Host}
        (events : list (JestProcess * JestProcessEvent))
        (this : ListTestFileListener.t) :
  let out := snd (ListTestFileListener.run events this) in
  length (results out) = count isCloseEvent events
  /\ firedEvents out = processStarts events
  /\ forallb (fun a => negb (isIntervention a)) out = true.
Proof. cbv zeta. apply ListingFacts.run_outcome. Qed.

(* ================================================================== *)
(** * Further properties: what RunTestListener sets off *)
(* ================================================================== *)

Module ActionFacts.
Import RunTestListener RunTestListenerFacts RunTestListenerStdErr
       RunTestListenerEvents RunTestListenerExit RunCompleteFacts
       RunStartFacts WorldFacts.

Lemma bookkeeping_filter (f : Action -> bool) (out : list Action) :
  (forall a, isBookkeeping a = true -> f a = false) ->
  forallb isBookkeeping out = true -> filter f out = [].
Proof.
  intros Hf. induction out as [|a out IH]; cbn; [reflexivity|].
  rewrite andb_true_iff. intros [Ha Hout].
  rewrite (Hf a Ha). auto.
Qed.

Lemma start_bookkeeping (w : LongRunMonitor.World) :
  forallb isBookkeeping (actionsOf (LongRunMonitor.start w)) = true.
Proof.
  destruct w as [[nt pd] [lg th [h|]]];
    unfold LongRunMonitor.start, bind, get;
    cbn [snd LongRunMonitor.thresholdMs LongRunMonitor.timer];
    destruct (le0 th); reflexivity.
Qed.

Lemma handleRunStart_bookkeeping (p : JestProcess) (output : jsstring) (st : t) :
  forallb isBookkeeping (actionsOf (handleRunStart p output st)) = true.
Proof.
  destruct (includes (str "onRunStart") output) eqn:E.
  - rewrite (handleRunStart_eq p output st E). cbn [actionsOf snd].
    rewrite forallb_app, start_bookkeeping. reflexivity.
  - rewrite (handleRunStart_skip p output st E). reflexivity.
Qed.

Lemma map_Fire_bookkeeping (es : list JestRunEvent) :
  forallb isBookkeeping (map Fire es) = true.
Proof. induction es; cbn; auto. Qed.

Lemma handleRunComplete_bookkeeping
      (p : JestProcess) (output : jsstring) (st : t) :
  forallb isBookkeeping (actionsOf (handleRunComplete p output st)) = true.
Proof.
  destruct (includes (str "onRunComplete") output) eqn:E.
  - rewrite (handleRunComplete_eq p output st E). cbn [actionsOf snd].
    rewrite !forallb_app, map_Fire_bookkeeping.
    change (snd (runEnded st)) with (actionsOf (runEnded st)).
    rewrite runEnded_actions.
    destruct (LongRunMonitor.timer (longRunMonitor st)); reflexivity.
  - rewrite (handleRunComplete_skip p output st E). reflexivity.
Qed.

Lemma onProcessExit_actions
      (p : JestProcess) (code : option Z) (signal : option jsstring)
      (st : t) :
  actionsOf (onProcessExit p code signal st)
  = match LongRunMonitor.timer (longRunMonitor st) with
    | Some h => [ClearTimeout h]
    | None => []
    end
    ++ actionsOf (AbstractProcessListener.onProcessExit
                    name p code signal st).
Proof.
  unfold onProcessExit. rewrite !actionsOf_bind, runEnded_actions.
  unfold setExitCode, modify. cbn [actionsOf snd]. rewrite app_nil_r.
  unfold AbstractProcessListener.onProcessExit, when.
  destruct (AbstractProcessListener.isProcessError code); reflexivity.
Qed.

Lemma timeout_bookkeeping (h : nat) (st : t) :
  forallb isBookkeeping (actionsOf (timeout h st)) = true.
Proof.
  destruct st as [ts m ri ec]. unfold timeout, bind, get, when.
  cbn [timers runInfo longRunMonitor].
  destruct (Timers.isPending h ts); [|reflexivity].
  destruct ri; reflexivity.
Qed.

(** The actions of the snapshot prompt and of the recovery from an
    unsupported watch mode. *)
Lemma handleSnapshotTestFailuer_actions
      (sess : ListenerSession) (p : JestProcess) (data : jsstring) (st : t) :
  exists message,
    actionsOf (handleSnapshotTestFailuer sess p data st)
    = if negb (updateSnapshot (request p))
         && enableSnapshotUpdateMessages (settings sess)
         && test SnapshotFailRegex data
      then [ShowInformationMessage message (str "Replace them") p]
      else [].
Proof.
  unfold handleSnapshotTestFailuer, when.
  destruct (updateSnapshot (request p)); cbn [negb andb];
    [exists []; reflexivity|].
  eexists.
  destruct (enableSnapshotUpdateMessages (settings sess)
            && test SnapshotFailRegex data); reflexivity.
Qed.

Lemma handleWatchNotSupportedError_actions
      (p : JestProcess) (data : jsstring) (st : t) :
  filter (fun a => negb (isBookkeeping a))
         (actionsOf (handleWatchNotSupportedError p data st))
  = if watchNotSupported data
       && JsString.eqb (type (request p)) (str "watch-tests")
    then [ScheduleProcess WatchAllTests; ProcessStop p]
    else [].
Proof.
  unfold handleWatchNotSupportedError, watchNotSupported, when.
  destruct (test IS_OUTSIDE_REPOSITORY_REGEXP data
            || test WATCH_IS_NOT_SUPPORTED_REGEXP data); [|reflexivity].
  cbn [andb].
  destruct (JsString.eqb (type (request p)) (str "watch-tests"));
    reflexivity.
Qed.

Lemma filter_sub {A} (f g : A -> bool) (l : list A) :
  (forall a, f a = true -> g a = true) ->
  filter f l = filter f (filter g l).
Proof.
  intros Hfg. induction l as [|a l IH]; cbn; [reflexivity|].
  destruct (f a) eqn:Ef.
  - rewrite (Hfg a Ef). cbn. rewrite Ef, <- IH. reflexivity.
  - destruct (g a); cbn; rewrite ?Ef; exact IH.
Qed.

Section Stimuli.
Context `{Host}.
Variable sess : ListenerSession.

(** What a stimulus sets off apart from events, log entries and timers. *)
Lemma react_sets_off (s : Stimulus) (st : t) :
  filter (fun a => negb (isBookkeeping a)) (actionsOf (react sess s st))
  = match s with
    | ProcessEvent p (executableStdErr data) =>
        if shouldIgnoreOutput (cleanAnsi data) then []
        else
          actionsOf (handleSnapshotTestFailuer sess p (cleanAnsi data) st)
          ++ (if watchNotSupported (cleanAnsi data)
                 && JsString.eqb (type (request p)) (str "watch-tests")
              then [ScheduleProcess WatchAllTests; ProcessStop p]
              else [])
    | ProcessEvent p (executableJSON data) => [UpdateWithData data p]
    | PromptAnswered p true =>
        [ScheduleProcess (UpdateSnapshot (request p))]
    | _ => []
    end.
Proof.
  destruct s as [p e | h | p r].
  - destruct e as [|d|d|d|d|c sg|c sg|tag];
      cbn [react onEvent AbstractProcessListener.onEvent handlers
                 AbstractProcessListener.h_onProcessStarting
                 AbstractProcessListener.h_onExecutableStdErr
                 AbstractProcessListener.h_onExecutableJSON
                 AbstractProcessListener.h_onExecutableOutput
                 AbstractProcessListener.h_onTerminalError
                 AbstractProcessListener.h_onProcessClose
                 AbstractProcessListener.h_onProcessExit
                 AbstractProcessListener.h_name];
      try reflexivity.
    + destruct (shouldIgnoreOutput (cleanAnsi d)) eqn:Hi.
      * unfold onExecutableStdErr. rewrite Hi. reflexivity.
      * destruct (onExecutableStdErr_steps sess p (cleanAnsi d) d st Hi)
          as [_ ->].
        rewrite !filter_app.
        rewrite (bookkeeping_filter _ _ (fun a Ha => f_equal negb Ha)
                                    (handleRunStart_bookkeeping _ _ _)).
        rewrite (bookkeeping_filter _ _ (fun a Ha => f_equal negb Ha)
                                    (handleRunComplete_bookkeeping _ _ _)).
        rewrite handleWatchNotSupportedError_actions.
        cbn [filter isBookkeeping negb app].
        f_equal.
        assert (Es : actionsOf
                       (handleSnapshotTestFailuer
                          sess p (cleanAnsi d)
                          (stateOf
                             (handleRunComplete
                                p (cleanAnsi d)
                                (stateOf
                                   (handleRunStart p (cleanAnsi d) st)))))
                     = actionsOf
                         (handleSnapshotTestFailuer sess p (cleanAnsi d) st)).
        { unfold handleSnapshotTestFailuer, when.
          destruct (updateSnapshot (request p)); [reflexivity|].
          destruct (enableSnapshotUpdateMessages (settings sess)
                    && test SnapshotFailRegex (cleanAnsi d)); reflexivity. }
        rewrite Es.
        destruct (handleSnapshotTestFailuer_actions sess p (cleanAnsi d) st)
          as [m E].
        rewrite E.
        destruct (negb (updateSnapshot (request p))
                  && enableSnapshotUpdateMessages (settings sess)
                  && test SnapshotFailRegex (cleanAnsi d)); reflexivity.
    + unfold onExecutableOutput, when.
      destruct (negb (shouldIgnoreOutput (cleanAnsi d))); reflexivity.
    + rewrite onProcessClose_eq. cbn [actionsOf snd].
      rewrite filter_app. cbn [filter isBookkeeping negb].
      rewrite app_nil_r.
      apply bookkeeping_filter; [intros a Ha; rewrite Ha; reflexivity|].
      unfold handleWatchProcessCrash.
      match goal with |- context [if ?b then _ else _] => destruct b end;
        reflexivity.
    + rewrite onProcessExit_actions, filter_app.
      unfold AbstractProcessListener.onProcessExit, when.
      destruct (LongRunMonitor.timer (longRunMonitor st));
        destruct (AbstractProcessListener.isProcessError c); reflexivity.
  - cbn [react].
    apply bookkeeping_filter; [intros a Ha; rewrite Ha; reflexivity|].
    apply timeout_bookkeeping.
  - cbn [react]. destruct r; reflexivity.
Qed.

(** Counting over a sequence what every stimulus yields at most once. *)
Lemma run_count_actions (f : Action -> bool) (q : Stimulus -> bool) :
  (forall s st,
      count f (actionsOf (react sess s st)) = if q s then 1 else 0) ->
  forall l st, count f (snd (run sess l st)) = count q l.
Proof.
  intros Hr. induction l as [|s l IH]; intros st; [reflexivity|].
  rewrite run_cons. cbn [snd]. rewrite count_app, Hr, IH.
  unfold count. cbn [filter]. destruct (q s); reflexivity.
Qed.

Lemma run_count_events (f : JestRunEvent -> bool) (q : Stimulus -> bool) :
  (forall s st,
      count f (firedEvents (actionsOf (react sess s st)))
      = if q s then 1 else 0) ->
  forall l st, count f (firedEvents (snd (run sess l st))) = count q l.
Proof.
  intros Hr. induction l as [|s l IH]; intros st; [reflexivity|].
  rewrite run_cons. cbn [snd]. rewrite firedEvents_app, count_app, Hr, IH.
  unfold count. cbn [filter]. destruct (q s); reflexivity.
Qed.

Lemma run_filter_actions (f : Action -> bool) (g : Stimulus -> list Action) :
  (forall s st, filter f (actionsOf (react sess s st)) = g s) ->
  forall l st, filter f (snd (run sess l st)) = flat_map g l.
Proof.
  intros Hr. induction l as [|s l IH]; intros st; [reflexivity|].
  rewrite run_cons. cbn [snd flat_map]. rewrite filter_app, Hr, IH.
  reflexivity.
Qed.

Lemma run_Forall_actions (P : Action -> Prop) :
  (forall s st, Forall P (actionsOf (react sess s st))) ->
  forall l st, Forall P (snd (run sess l st)).
Proof.
  intros Hr. induction l as [|s l IH]; intros st; [constructor|].
  rewrite run_cons. cbn [snd]. apply Forall_app. split; [apply Hr|apply IH].
Qed.

(** A property that holds of events, log entries and timers holds of all
    actions when it holds of the others among them. *)
Lemma Forall_sets_off (P : Action -> Prop) (out : list Action) :
  (forall a, isBookkeeping a = true -> P a) ->
  Forall P (filter (fun a => negb (isBookkeeping a)) out) ->
  Forall P out.
Proof.
  intros Hb. induction out as [|a out IH]; cbn; [constructor|].
  destruct (isBookkeeping a) eqn:E; cbn.
  - intros Hf. constructor; [apply Hb, E | apply IH, Hf].
  - intros Hf. inversion Hf; subst. constructor; auto.
Qed.

(** The events of a stimulus that mark the start and the end of a run. *)
Lemma react_start (s : Stimulus) (st : t) :
  count isStart (firedEvents (actionsOf (react sess s st)))
  = if startsRun s then 1 else 0.
Proof.
  unfold count.
  destruct s as [p e | h | p r].
  - destruct e as [|d|d|d|d|c sg|c sg|tag];
      cbn [react onEvent AbstractProcessListener.onEvent handlers
                 AbstractProcessListener.h_onProcessStarting
                 AbstractProcessListener.h_onExecutableStdErr
                 AbstractProcessListener.h_onExecutableJSON
                 AbstractProcessListener.h_onExecutableOutput
                 AbstractProcessListener.h_onTerminalError
                 AbstractProcessListener.h_onProcessClose
                 AbstractProcessListener.h_onProcessExit
                 AbstractProcessListener.h_name startsRun];
      try reflexivity.
    + rewrite onExecutableStdErr_fired.
      destruct (shouldIgnoreOutput (cleanAnsi d)); [reflexivity|].
      rewrite stdErrEvents_start. cbn [negb andb].
      destruct (includes (str "onRunStart") (cleanAnsi d)); reflexivity.
    + unfold onExecutableOutput, when.
      destruct (negb (shouldIgnoreOutput (cleanAnsi d))); reflexivity.
    + rewrite onProcessClose_eq. cbn [actionsOf snd].
      rewrite firedEvents_app.
      rewrite (quiet_firedEvents _ (handleWatchProcessCrash_quiet _ _)).
      reflexivity.
    + rewrite onProcessExit_fired. reflexivity.
  - cbn [react startsRun]. rewrite timeout_fired.
    destruct (Timers.isPending h (timers st)); [|reflexivity].
    destruct (runInfo st); reflexivity.
  - cbn [react]. destruct r; reflexivity.
Qed.

Lemma stdErrEvents_end (p : JestProcess) (message raw : jsstring) :
  filter isEnd (stdErrEvents p message raw)
  = if includes (str "onRunComplete") message then [EndEvent p] else [].
Proof.
  unfold stdErrEvents. rewrite !filter_app.
  destruct (includes (str "onRunStart") message),
           (includes (str "onRunComplete") message);
    cbn [filter isEnd app];
    rewrite ?filter_app, ?execErrorEvents_end; reflexivity.
Qed.

Lemma react_end (s : Stimulus) (st : t) :
  count isEnd (firedEvents (actionsOf (react sess s st)))
  = if endsRun s then 1 else 0.
Proof.
  unfold count.
  destruct s as [p e | h | p r].
  - destruct e as [|d|d|d|d|c sg|c sg|tag];
      cbn [react onEvent AbstractProcessListener.onEvent handlers
                 AbstractProcessListener.h_onProcessStarting
                 AbstractProcessListener.h_onExecutableStdErr
                 AbstractProcessListener.h_onExecutableJSON
                 AbstractProcessListener.h_onExecutableOutput
                 AbstractProcessListener.h_onTerminalError
                 AbstractProcessListener.h_onProcessClose
                 AbstractProcessListener.h_onProcessExit
                 AbstractProcessListener.h_name endsRun];
      try reflexivity.
    + rewrite onExecutableStdErr_fired.
      destruct (shouldIgnoreOutput (cleanAnsi d)); [reflexivity|].
      rewrite stdErrEvents_end. cbn [negb andb].
      destruct (includes (str "onRunComplete") (cleanAnsi d)); reflexivity.
    + unfold onExecutableOutput, when.
      destruct (negb (shouldIgnoreOutput (cleanAnsi d))); reflexivity.
    + rewrite onProcessClose_eq. cbn [actionsOf snd].
      rewrite firedEvents_app.
      rewrite (quiet_firedEvents _ (handleWatchProcessCrash_quiet _ _)).
      reflexivity.
    + rewrite onProcessExit_fired. reflexivity.
  - cbn [react endsRun]. rewrite timeout_fired.
    destruct (Timers.isPending h (timers st)); [|reflexivity].
    destruct (runInfo st); reflexivity.
  - cbn [react]. destruct r; reflexivity.
Qed.

End Stimuli.

End ActionFacts.

(** X8.  Only stderr starts and ends runs.  Over any sequence of stimuli
    the listener fires one [start] event for every stderr chunk that is
    not suppressed and holds [onRunStart], and one [end] event for every
    such chunk that holds [onRunComplete]; stdout, JSON results, terminal
    errors, the exit and the close of the process, timeouts and prompt
    answers fire neither. *)
Theorem starts_and_ends_come_from_stderr `{Host}
        (sess : ListenerSession) (stimuli : list RunTestListener.Stimulus)
        (st : RunTestListener.t) :
  let events := firedEvents (snd (RunTestListener.run sess stimuli st)) in
  count isStart events = count startsRun stimuli
  /\ count isEnd events = count endsRun stimuli.
Proof.
  cbv zeta. split.
  - apply ActionFacts.run_count_events. apply ActionFacts.react_start.
  - apply ActionFacts.run_count_events. apply ActionFacts.react_end.
Qed.


Module SetOffFacts.
Import RunTestListener RunTestListenerFacts RunTestListenerStdErr
       RunTestListenerExit ActionFacts.

Section Stimuli.
Context `{Host}.
Variable sess : ListenerSession.

(** Filtering what a stimulus sets off, for a filter that keeps no event,
    log entry or timer. *)
Lemma react_filter (f : Action -> bool) (s : Stimulus) (st : t) :
  (forall a, f a = true -> isBookkeeping a = false) ->
  filter f (actionsOf (react sess s st))
  = filter f
      match s with
      | ProcessEvent p (executableStdErr data) =>
          if shouldIgnoreOutput (cleanAnsi data) then []
          else
            actionsOf (handleSnapshotTestFailuer sess p (cleanAnsi data) st)
            ++ (if watchNotSupported (cleanAnsi data)
                   && JsString.eqb (type (request p)) (str "watch-tests")
                then [ScheduleProcess WatchAllTests; ProcessStop p]
                else [])
      | ProcessEvent p (executableJSON data) => [UpdateWithData data p]
      | PromptAnswered p true =>
          [ScheduleProcess (UpdateSnapshot (request p))]
      | _ => []
      end.
Proof.
  intros Hf.
  rewrite (filter_sub f (fun a => negb (isBookkeeping a))).
  - rewrite react_sets_off. reflexivity.
  - intros a Ha. rewrite (Hf a Ha). reflexivity.
Qed.

Lemma react_consent (s : Stimulus) (st : t) :
  filter isScheduleUpdate (actionsOf (react sess s st)) = consents [s].
Proof.
  rewrite react_filter by (intros [] Ha; try discriminate Ha; reflexivity).
  unfold consents. cbn [flat_map]. rewrite app_nil_r.
  destruct s as [p e | h | p r]; [destruct e| |]; try reflexivity.
  - destruct (shouldIgnoreOutput (cleanAnsi data)); [reflexivity|].
    destruct (handleSnapshotTestFailuer_actions sess p (cleanAnsi data) st)
      as [m ->].
    rewrite filter_app.
    destruct (negb (updateSnapshot (request p))
              && enableSnapshotUpdateMessages (settings sess)
              && test SnapshotFailRegex (cleanAnsi data));
      destruct (watchNotSupported (cleanAnsi data)
                && JsString.eqb (type (request p)) (str "watch-tests"));
      reflexivity.
  - destruct r; reflexivity.
Qed.

Lemma react_prompt (s : Stimulus) (st : t) :
  count isPrompt (actionsOf (react sess s st))
  = if promptsFor sess s then 1 else 0.
Proof.
  unfold count.
  rewrite react_filter by (intros [] Ha; try discriminate Ha; reflexivity).
  destruct s as [p e | h | p r]; [destruct e| |]; try reflexivity.
  - cbn [promptsFor].
    destruct (shouldIgnoreOutput (cleanAnsi data)); [reflexivity|].
    destruct (handleSnapshotTestFailuer_actions sess p (cleanAnsi data) st)
      as [m ->].
    rewrite filter_app. cbn [negb andb].
    destruct (negb (updateSnapshot (request p))); cbn [andb];
      [|destruct (watchNotSupported (cleanAnsi data)
                  && JsString.eqb (type (request p)) (str "watch-tests"));
        reflexivity].
    destruct (enableSnapshotUpdateMessages (settings sess)
              && test SnapshotFailRegex (cleanAnsi data));
      destruct (watchNotSupported (cleanAnsi data)
                && JsString.eqb (type (request p)) (str "watch-tests"));
      reflexivity.
  - destruct r; reflexivity.
Qed.

Lemma react_json (s : Stimulus) (st : t) :
  filter isUpdateWithData (actionsOf (react sess s st)) = jsonResults [s].
Proof.
  rewrite react_filter by (intros [] Ha; try discriminate Ha; reflexivity).
  unfold jsonResults. cbn [flat_map]. rewrite app_nil_r.
  destruct s as [p e | h | p r]; [destruct e| |]; try reflexivity.
  - destruct (shouldIgnoreOutput (cleanAnsi data)); [reflexivity|].
    destruct (handleSnapshotTestFailuer_actions sess p (cleanAnsi data) st)
      as [m ->].
    rewrite filter_app.
    destruct (negb (updateSnapshot (request p))
              && enableSnapshotUpdateMessages (settings sess)
              && test SnapshotFailRegex (cleanAnsi data));
      destruct (watchNotSupported (cleanAnsi data)
                && JsString.eqb (type (request p)) (str "watch-tests"));
      reflexivity.
  - destruct r; reflexivity.
Qed.

Lemma react_restart (f : Action -> bool) (s : Stimulus) (st : t) :
  f = isScheduleWatchAll \/ f = isProcessStop ->
  count f (actionsOf (react sess s st))
  = if restartsWatch s then 1 else 0.
Proof.
  intros Hf. unfold count.
  rewrite react_filter
    by (intros [] Ha; destruct Hf; subst f; try discriminate Ha;
        reflexivity).
  destruct s as [p e | h | p r]; [destruct e| |];
    try (destruct Hf; subst f; reflexivity).
  - cbn [restartsWatch].
    destruct (shouldIgnoreOutput (cleanAnsi data));
      [destruct Hf; subst f; reflexivity|].
    destruct (handleSnapshotTestFailuer_actions sess p (cleanAnsi data) st)
      as [m ->].
    rewrite filter_app. cbn [negb andb].
    destruct (negb (updateSnapshot (request p))
              && enableSnapshotUpdateMessages (settings sess)
              && test SnapshotFailRegex (cleanAnsi data));
      destruct (watchNotSupported (cleanAnsi data)
                && JsString.eqb (type (request p)) (str "watch-tests"));
      destruct Hf; subst f; reflexivity.
  - destruct r; destruct Hf; subst f; reflexivity.
Qed.

Lemma react_stops (s : Stimulus) (st : t) :
  Forall stopsOnlyWatchTests (actionsOf (react sess s st)).
Proof.
  apply Forall_sets_off.
  - intros [] Ha; try discriminate Ha; exact I.
  - rewrite react_sets_off.
    destruct s as [p e | h | p r]; [destruct e| |]; try constructor.
    + destruct (shouldIgnoreOutput (cleanAnsi data)); [constructor|].
      apply Forall_app. split.
      * destruct (handleSnapshotTestFailuer_actions
                    sess p (cleanAnsi data) st) as [m ->].
        destruct (negb (updateSnapshot (request p))
                  && enableSnapshotUpdateMessages (settings sess)
                  && test SnapshotFailRegex (cleanAnsi data));
          repeat constructor.
      * destruct (watchNotSupported (cleanAnsi data)); cbn [andb];
          [|constructor].
        destruct (JsString.eqb (type (request p)) (str "watch-tests"))
          eqn:E; [|constructor].
        repeat constructor. cbn. apply JsStringFacts.eqb_eq, E.
    + exact I.
    + constructor.
    + destruct r; repeat constructor.
Qed.

End Stimuli.

End SetOffFacts.

(** X10.  Snapshots are updated on the user's consent only.  Over any
    sequence of stimuli the update-snapshot runs that the listener
    schedules are those of the accepted prompts, in order, each with the
    request of the process that the prompt was about; no output of the
    process and no declined prompt schedules one. *)
Theorem update_snapshot_needs_consent `{Host}
        (sess : ListenerSession) (stimuli : list RunTestListener.Stimulus)
        (st : RunTestListener.t) :
  filter isScheduleUpdate (snd (RunTestListener.run sess stimuli st))
  = consents stimuli.
Proof.
  unfold consents.
  apply (ActionFacts.run_filter_actions sess).
  intros s st'. rewrite SetOffFacts.react_consent.
  unfold consents. cbn [flat_map]. apply app_nil_r.
Qed.

(** X11.  When the listener offers to update snapshots.  Over any
    sequence of stimuli it shows one prompt for every stderr chunk that
    is not suppressed, comes from a process that is not itself an
    update-snapshot run and matches [SnapshotFailRegex], provided that
    [enableSnapshotUpdateMessages] is set; it shows no other prompt. *)
Theorem snapshot_prompts `{Host}
        (sess : ListenerSession) (stimuli : list RunTestListener.Stimulus)
        (st : RunTestListener.t) :
  count isPrompt (snd (RunTestListener.run sess stimuli st))
  = count (promptsFor sess) stimuli
  /\ (enableSnapshotUpdateMessages (settings sess) = false ->
      count isPrompt (snd (RunTestListener.run sess stimuli st)) = 0).
Proof.
  assert (E : count isPrompt (snd (RunTestListener.run sess stimuli st))
              = count (promptsFor sess) stimuli).
  { apply (ActionFacts.run_count_actions sess).
    apply SetOffFacts.react_prompt. }
  split; [exact E|].
  intros Hoff. rewrite E. unfold count.
  induction stimuli as [|s l IH]; [reflexivity|].
  cbn [filter].
  assert (Hs : promptsFor sess s = false).
  { destruct s as [p e | h | p r]; [destruct e| |]; try reflexivity.
    cbn [promptsFor]. rewrite Hoff.
    rewrite andb_false_r. reflexivity. }
  rewrite Hs. apply IH.
  apply (ActionFacts.run_count_actions sess).
  apply SetOffFacts.react_prompt.
Qed.

(** X12.  The restart of a watch run.  Over any sequence of stimuli the
    listener schedules a watch-all run as often as it stops a process,
    once for every stderr chunk that is not suppressed, matches one of
    the two watch-not-supported patterns and comes from a [watch-tests]
    process; it never stops a process of another type. *)
Theorem watch_restart_stops_the_watch_run `{Host}
        (sess : ListenerSession) (stimuli : list RunTestListener.Stimulus)
        (st : RunTestListener.t) :
  let out := snd (RunTestListener.run sess stimuli st) in
  count isScheduleWatchAll out = count restartsWatch stimuli
  /\ count isProcessStop out = count restartsWatch stimuli
  /\ Forall stopsOnlyWatchTests out.
Proof.
  cbv zeta. split; [|split].
  - apply (ActionFacts.run_count_actions sess).
    intros s st'. apply SetOffFacts.react_restart. left. reflexivity.
  - apply (ActionFacts.run_count_actions sess).
    intros s st'. apply SetOffFacts.react_restart. right. reflexivity.
  - apply (ActionFacts.run_Forall_actions sess).
    apply SetOffFacts.react_stops.
Qed.

(** X13.  Every JSON result of the process is handed to [updateWithData]
    with its process, unchanged and in order, whether or not a run is
    under way; nothing else is handed to it. *)
Theorem json_results_are_passed_on `{Host}
        (sess : ListenerSession) (stimuli : list RunTestListener.Stimulus)
        (st : RunTestListener.t) :
  filter isUpdateWithData (snd (RunTestListener.run sess stimuli st))
  = jsonResults stimuli.
Proof.
  unfold jsonResults.
  apply (ActionFacts.run_filter_actions sess).
  intros s st'. rewrite SetOffFacts.react_json.
  unfold jsonResults. cbn [flat_map]. apply app_nil_r.
Qed.

(* ================================================================== *)
(** * Further properties: the texts that the listeners work on *)
(* ================================================================== *)

Module TextFacts.
Import RegExpFacts PiecesFacts JsonArrayFacts JsonArrayMatches
       ControlMessageFacts CleanupFacts.

Lemma searchFrom_None_inv (re : RegExp) (s : jsstring) :
  forall p i,
    searchFrom re p s i = None ->
    forall a b, s = a ++ b -> execAt re (prevAfter p a) b = None.
Proof.
  induction s as [|c s IH]; intros p i Hs a b E.
  - destruct a; [|discriminate E]. cbn in E. subst b.
    cbn [searchFrom] in Hs. cbn [prevAfter fold_left].
    destruct (execAt re p []); [discriminate Hs | reflexivity].
  - cbn [searchFrom] in Hs.
    destruct (execAt re p (c :: s)) eqn:Ex; [discriminate Hs|].
    destruct a as [|x a].
    + cbn in E. subst b. exact Ex.
    + cbn in E. injection E as Ec E. subst x.
      rewrite prevAfter_cons. exact (IH (Some c) (S i) Hs a b E).
Qed.

Lemma pieces_all_kept (re : RegExp) (s : jsstring) :
  forall p,
    (forall a b, s = a ++ b -> execAt re (prevAfter p a) b = None) ->
    pieces re p s 0 = map Kept s.
Proof.
  induction s as [|c s IH]; intros p Hn.
  - apply pieces_nil. exact (Hn [] [] eq_refl).
  - rewrite (pieces_no_match re p c s (Hn [] (c :: s) eq_refl)).
    cbn [map]. f_equal. apply IH.
    intros a b E. subst s.
    exact (Hn (c :: a) b eq_refl).
Qed.

Lemma replace_all_kept (by_ s : jsstring) :
  flat_map (fun p => match p with Matched _ => by_ | Kept c => [c] end)
           (map Kept s) = s.
Proof. induction s as [|c s IH]; cbn; [reflexivity | f_equal; exact IH]. Qed.

Lemma cleanupOutput_cleaned (s : jsstring) :
  RunTestListener.cleanupOutput s = cleaned None s.
Proof. reflexivity. Qed.

Lemma cleanupOutput_unchanged (s : jsstring) :
  hasControlMessage s = false -> RunTestListener.cleanupOutput s = s.
Proof.
  unfold hasControlMessage, exec. intros Hs.
  destruct (searchFrom CONTROL_MESSAGES None s 0) eqn:E; [discriminate Hs|].
  unfold RunTestListener.cleanupOutput, stringReplace.
  rewrite (pieces_all_kept CONTROL_MESSAGES s None
                           (searchFrom_None_inv CONTROL_MESSAGES s None 0 E)).
  apply replace_all_kept.
Qed.

Lemma from_nil_free (stop : ascii -> bool) (s : jsstring) :
  forallb (fun c => negb (stop c)) s = true -> from stop s = [].
Proof.
  induction s as [|c s IH]; cbn; [reflexivity|].
  destruct (stop c); cbn; [discriminate | exact IH].
Qed.

Lemma no_newline_no_control_message (s : jsstring) :
  forallb (fun c => negb (isLF c)) s = true -> hasControlMessage s = false.
Proof.
  intros Hs. unfold hasControlMessage, exec.
  rewrite searchFrom_none; [reflexivity|].
  intros a b E. apply execAt_None. unfold controlAt.
  subst s. rewrite forallb_app in Hs. apply andb_true_iff in Hs as [_ Hb].
  rewrite (from_nil_free isLF b Hb).
  destruct (lineStart (prevAfter None a) && isControlLine (upTo isLF b));
    reflexivity.
Qed.

Lemma cleaned_lineStart (p q : option ascii) (s : jsstring) :
  lineStart p = lineStart q -> cleaned p s = cleaned q s.
Proof.
  intros E. destruct s as [|c s]; [rewrite !cleaned_nil; reflexivity|].
  pose proof (controlAt_lineStart p q (c :: s) E) as Ec.
  destruct (controlAt p (c :: s)) as [r|] eqn:Ep.
  - rewrite (cleaned_match p _ r Ep).
    rewrite (cleaned_match q _ r (eq_sym Ec)). reflexivity.
  - rewrite (cleaned_keep p c s Ep).
    rewrite (cleaned_keep q c s (eq_sym Ec)). reflexivity.
Qed.

Lemma upTo_app_stop (stop : ascii -> bool) (a : jsstring) (c : ascii)
      (b : jsstring) :
  stop c = true -> upTo stop (a ++ c :: b) = upTo stop a.
Proof.
  intros Hc. induction a as [|x a IH]; cbn.
  - rewrite Hc. reflexivity.
  - destruct (stop x); [reflexivity | f_equal; exact IH].
Qed.

Lemma from_app_stop (stop : ascii -> bool) (a : jsstring) (c : ascii)
      (b : jsstring) :
  stop c = true -> from stop (a ++ c :: b) = from stop a ++ c :: b.
Proof.
  intros Hc. induction a as [|x a IH]; cbn.
  - rewrite Hc. reflexivity.
  - destruct (stop x); [reflexivity | exact IH].
Qed.

(** A match of [CONTROL_MESSAGES] within a text that ends in a newline is
    the same whatever follows the text. *)
Lemma controlAt_app_LF (p : option ascii) (a b : jsstring) :
  controlAt p ((a ++ [LF]) ++ b)
  = option_map (fun r => r ++ b) (controlAt p (a ++ [LF])).
Proof.
  unfold controlAt. rewrite <- app_assoc. cbn [app].
  rewrite !(upTo_app_stop isLF a LF) by reflexivity.
  rewrite !(from_app_stop isLF a LF) by reflexivity.
  destruct (lineStart p && isControlLine (upTo isLF a)); [|reflexivity].
  destruct (from isLF a) as [|x r]; cbn; [reflexivity|].
  rewrite <- app_assoc. reflexivity.
Qed.

Lemma controlAt_suffix (p : option ascii) (s r : jsstring) :
  controlAt p s = Some r -> exists u x, s = u ++ x :: r.
Proof.
  intros E. apply controlAt_Some in E. destruct E as [_ [_ [x Ex]]].
  exists (upTo isLF s), x. rewrite <- Ex. symmetry. apply upTo_from.
Qed.

Lemma closed_suffix (u : jsstring) (x : ascii) (r a : jsstring) :
  u ++ x :: r = a ++ [LF] -> r = [] \/ exists r0, r = r0 ++ [LF].
Proof.
  intros E. destruct r as [|y r]; [left; reflexivity|]. right.
  destruct (exists_last (l := y :: r)) as [r0 [z Er]]; [discriminate|].
  exists r0. rewrite Er in E |- *.
  change (u ++ x :: r0 ++ [z]) with (u ++ (x :: r0) ++ [z]) in E.
  rewrite app_assoc in E. apply app_inj_tail in E. destruct E as [_ ->].
  reflexivity.
Qed.

(** Cleaning a text that is empty or ends in a newline does not depend on
    what follows it. *)
Lemma cleaned_app_closed (n : nat) :
  forall (x : jsstring) (p : option ascii) (b : jsstring),
    length x <= n ->
    (x = [] \/ exists a, x = a ++ [LF]) ->
    cleaned p (x ++ b) = cleaned p x ++ cleaned (prevAfter p x) b.
Proof.
  induction n as [|n IH]; intros x p b Hn Hx.
  - destruct x; [|cbn in Hn; lia]. rewrite cleaned_nil. reflexivity.
  - destruct Hx as [->|[a Ea]]; [rewrite cleaned_nil; reflexivity|].
    pose proof (controlAt_app_LF p a b) as Ec. rewrite <- Ea in Ec.
    destruct (controlAt p x) as [r|] eqn:Ex; cbn [option_map] in Ec.
    + rewrite (cleaned_match p (x ++ b) (r ++ b) Ec).
      rewrite (cleaned_match p x r Ex).
      destruct (controlAt_suffix p x r Ex) as [u [y Eu]].
      assert (Hr : r = [] \/ exists r0, r = r0 ++ [LF]).
      { apply (closed_suffix u y r a). rewrite <- Eu. exact Ea. }
      assert (Hl : length r <= n).
      { rewrite Eu in Hn. rewrite length_app in Hn. cbn in Hn. lia. }
      rewrite (IH r (Some LF) b Hl Hr).
      f_equal. apply cleaned_lineStart.
      rewrite Ea, prevAfter_last.
      destruct Hr as [->|[r0 ->]]; [reflexivity|].
      rewrite prevAfter_last. reflexivity.
    + destruct x as [|c x']; [destruct a; discriminate Ea|].
      cbn [app] in Ec |- *.
      rewrite (cleaned_keep p c (x' ++ b) Ec).
      rewrite (cleaned_keep p c x' Ex).
      cbn [app]. f_equal.
      rewrite prevAfter_cons. apply IH.
      * cbn in Hn. lia.
      * destruct a as [|c' a'].
        -- left. cbn in Ea. injection Ea as _ Ea. exact Ea.
        -- right. exists a'. cbn in Ea. injection Ea as _ Ea. exact Ea.
Qed.

End TextFacts.

(** X14.  What the listing listener reads from its buffer.  The matches
    of [JsonArrayRegexp] in a text are its lines that open with a
    bracket and close with one, in order, and [match] returns [null] when
    there is none.  Such a line has two code units at least and holds no
    line terminator; a bracket that opens a line does not count when the
    line goes on after the closing bracket. *)
Theorem json_array_matches_are_bracket_lines (s : jsstring) :
  stringMatchAll s JsonArrayRegexp
  = match bracketLines s with
    | [] => None
    | json => Some json
    end
  /\ Forall (fun l => exists body,
                 l = "["%char :: body ++ ["]"%char]
                 /\ forallb notTerminator l = true)
            (bracketLines s).
Proof.
  split; [apply JsonArrayMatches.stringMatchAll_JsonArrayRegexp|].
  unfold bracketLines. apply Forall_forall. intros l Hl.
  apply filter_In in Hl. destruct Hl as [Hin Hb].
  assert (Hlines : forall t l0, In l0 (linesOf t) ->
                                forallb notTerminator l0 = true).
  { clear. induction t as [|c t IH]; intros l0 Hin.
    - cbn in Hin. destruct Hin as [<-|[]]. reflexivity.
    - cbn [linesOf] in Hin.
      destruct (isLineTerminator c) eqn:Ec.
      + destruct Hin as [<-|Hin]; [reflexivity | exact (IH l0 Hin)].
      + destruct (linesOf t) as [|l1 ls] eqn:El.
        * destruct Hin as [<-|[]]. cbn. unfold notTerminator at 1.
          rewrite Ec. reflexivity.
        * destruct Hin as [<-|Hin].
          -- cbn [forallb]. unfold notTerminator at 1. rewrite Ec.
             cbn [negb andb]. apply IH. left. reflexivity.
          -- apply IH. right. exact Hin. }
  assert (Hlast : forall (c : ascii) (t : jsstring),
             lastIs c t = true -> exists body, t = body ++ [c]).
  { clear. intros c. induction t as [|x t IH]; [discriminate|].
    destruct t as [|y t].
    - cbn. intros E. apply Ascii.eqb_eq in E. subst x. exists []. reflexivity.
    - intros E. change (lastIs c (y :: t) = true) in E.
      destruct (IH E) as [body Eb]. exists (x :: body).
      rewrite Eb. reflexivity. }
  unfold isBracketLine in Hb.
  destruct l as [|c l']; [discriminate Hb|].
  destruct (Ascii.eqb_spec c "["%char) as [->|Hn].
  - destruct (Hlast _ _ Hb) as [body ->].
    exists body. split; [reflexivity|].
    exact (Hlines s _ Hin).
  - exfalso. revert Hb. clear -Hn.
    destruct c as [[] [] [] [] [] [] [] []]; try discriminate;
      congruence.
Qed.

(** X15.  [cleanupOutput] changes a text exactly when the text holds a
    control message: a text that [CONTROL_MESSAGES] matches nowhere comes
    back as it is, and every other text comes back different.  A text
    without a newline is therefore never changed, and cleaning twice is
    cleaning once. *)
Theorem cleanupOutput_fixpoint (s : jsstring) :
  (RunTestListener.cleanupOutput s = s <-> hasControlMessage s = false)
  /\ RunTestListener.cleanupOutput (RunTestListener.cleanupOutput s)
     = RunTestListener.cleanupOutput s
  /\ (forallb (fun c => negb (isLF c)) s = true ->
      RunTestListener.cleanupOutput s = s).
Proof.
  split; [split|split].
  - intros E. rewrite <- E. apply CleanupFacts.cleanupOutput_clean.
  - apply TextFacts.cleanupOutput_unchanged.
  - apply TextFacts.cleanupOutput_unchanged.
    apply CleanupFacts.cleanupOutput_clean.
  - intros Hs. apply TextFacts.cleanupOutput_unchanged.
    apply TextFacts.no_newline_no_control_message. exact Hs.
Qed.

(** X16.  [cleanupOutput] works line by line: after a newline it starts
    afresh.  Cleaning a text that ends in a newline followed by another
    text gives the two cleaned texts one after the other, so that chunks
    that end in a newline can be cleaned one by one. *)
Theorem cleanupOutput_after_newline (a b : jsstring) :
  RunTestListener.cleanupOutput (a ++ LF :: b)
  = RunTestListener.cleanupOutput (a ++ [LF])
    ++ RunTestListener.cleanupOutput b.
Proof.
  rewrite !TextFacts.cleanupOutput_cleaned.
  change (a ++ LF :: b) with (a ++ [LF] ++ b). rewrite app_assoc.
  rewrite (TextFacts.cleaned_app_closed
             (length (a ++ [LF])) (a ++ [LF]) None b (le_n _))
    by (right; exists a; reflexivity).
  f_equal. apply TextFacts.cleaned_lineStart.
  rewrite PiecesFacts.prevAfter_last. reflexivity.
Qed.

Module CountFacts.
Import RegExpFacts PiecesFacts JsonArrayMatches MarkerFacts RunStartFacts.

Lemma searchFrom_Some_inv (re : RegExp) (s : jsstring) :
  forall p i m,
    searchFrom re p s i = Some m ->
    exists a b st,
      s = a ++ b
      /\ execAt re (prevAfter p a) b = Some st
      /\ captures m = caps st.
Proof.
  induction s as [|c s IH]; intros p i m Hs.
  - cbn [searchFrom] in Hs.
    destruct (execAt re p []) as [st|] eqn:Ex; [|discriminate Hs].
    injection Hs as <-. exists [], [], st. repeat split. exact Ex.
  - cbn [searchFrom] in Hs.
    destruct (execAt re p (c :: s)) as [st|] eqn:Ex.
    + injection Hs as <-. exists [], (c :: s), st. repeat split. exact Ex.
    + destruct (IH (Some c) (S i) m Hs) as [a [b [st [E [Hx Hc]]]]].
      exists (c :: a), b, st. subst s. repeat split; assumption.
Qed.

Lemma digitValue_nonneg (c : ascii) :
  isDigit c = true -> (0 <= digitValue c)%Z.
Proof.
  unfold isDigit, digitValue. intros H.
  apply andb_true_iff in H as [H _]. apply N.leb_le in H. lia.
Qed.

Lemma decimalValue_nonneg (ds : jsstring) :
  forallb isDigit ds = true -> (0 <= decimalValue ds)%Z.
Proof.
  unfold decimalValue.
  assert (G : forall acc, (0 <= acc)%Z -> forallb isDigit ds = true ->
                          (0 <= fold_left
                                  (fun a c => 10 * a + digitValue c)%Z
                                  ds acc)%Z).
  { induction ds as [|c ds IH]; intros acc Ha Hd; [exact Ha|].
    cbn [forallb] in Hd. apply andb_true_iff in Hd as [Hc Hd].
    cbn [fold_left]. apply IH; [|exact Hd].
    pose proof (digitValue_nonneg c Hc). lia. }
  apply G. lia.
Qed.

(** A double that is an integer and the rounding of a natural number is a
    natural number. *)
Lemma roundInteger_integer (v : Z) :
  (0 <= v)%Z ->
  isInteger (roundInteger v) = true ->
  exists z, (0 <= z)%Z /\ roundInteger v = ofZ z.
Proof.
  intros Hv. unfold roundInteger.
  destruct (v <? 2 ^ 53)%Z; [intros _; exists v; split; [exact Hv|reflexivity]|].
  cbv zeta.
  match goal with
  | |- context [if (2 ^ 1024 <=? ?x)%Z then _ else _] =>
      set (w := x); destruct (2 ^ 1024 <=? w)%Z eqn:Ew
  end; [discriminate|].
  intros _. exists w. split; [|reflexivity].
  subst w. apply Z.mul_nonneg_nonneg; [|apply Z.pow_nonneg; lia].
  assert (Hq : (0 <= v / 2 ^ (Z.log2 v - 52))%Z).
  { apply Z_div_nonneg_nonneg; [exact Hv | apply Z.pow_nonneg; lia]. }
  match goal with
  | |- (0 <= if ?b then _ else _)%Z => destruct b; lia
  end.
Qed.

End CountFacts.

(** X17.  Where the count of test suites comes from.  When
    [getNumTotalTestSuites] returns a number, the text holds, up to
    case, the words [onRunStart: numTotalTestSuites: ] followed by a
    digit; the number is the value of the digits that follow the words,
    rounded to a double, and it is a whole number that is not negative.
    The count is never made up, and never [NaN] or infinite. *)
Theorem getNumTotalTestSuites_sound (text : jsstring) (n : number) :
  RunTestListener.getNumTotalTestSuites text = Some n ->
  exists before after digits,
    text = before ++ after
    /\ litPrefix true runStartWord after = true
    /\ digits = upTo notDigit (skipn (length runStartWord) after)
    /\ digits <> []
    /\ forallb isDigit digits = true
    /\ n = roundInteger (decimalValue digits)
    /\ exists z, (0 <= z)%Z /\ n = ofZ z.
Proof.
  unfold RunTestListener.getNumTotalTestSuites, stringMatch, exec.
  destruct (searchFrom RUN_START_TEST_SUITES_REGEX None text 0) as [m|] eqn:Es;
    [|discriminate].
  destruct (CountFacts.searchFrom_Some_inv _ _ _ _ _ Es)
    as [a [b [st [Et [Ex Ec]]]]].
  pose proof (MarkerFacts.execAt_RUN_START (prevAfter None a) b) as Hm.
  rewrite Ex in Hm. destruct Hm as [Hw [Hd Hc]].
  unfold group. rewrite Ec, Hc.
  set (ds := upTo notDigit (skipn (length runStartWord) b)).
  assert (Hds : forallb isDigit ds = true).
  { rewrite <- MarkerFacts.forallb_negb_negb.
    apply (JsonArrayMatches.upTo_none notDigit). }
  assert (Hne : ds <> []).
  { subst ds. destruct (skipn (length runStartWord) b) as [|c r];
      [discriminate Hd|].
    cbn [startsWith1] in Hd. cbn [upTo]. unfold notDigit at 1.
    rewrite Hd. discriminate. }
  destruct (isInteger (Number ds)) eqn:Ei; [|discriminate].
  intros E. injection E as <-.
  exists a, b, ds. repeat split; try assumption.
  - unfold Number. rewrite Hds. reflexivity.
  - unfold Number in *. rewrite Hds in *.
    apply CountFacts.roundInteger_integer; [|exact Ei].
    apply CountFacts.decimalValue_nonneg, Hds.
Qed.

Lemma getNumTotalTestSuites_sound_witness :
  exists z, (0 <= z)%Z /\ ofZ 12 = ofZ z.
Proof.
  destruct (getNumTotalTestSuites_sound
              (str "onRunStart: numTotalTestSuites: 12" ++ [LF])
              (ofZ 12))
    as [_ [_ [_ [_ [_ [_ [_ [_ [_ H]]]]]]]]].
  - vm_compute. reflexivity.
  - exact H.
Defined.

(* ================================================================== *)
(** * Further properties: the patterns of the error messages *)
(* ================================================================== *)

Module PatternFacts.
Import RegExpFacts ControlMessageFacts.

Lemma nonempty_app {A} (a b : list A) :
  nonempty (a ++ b) = nonempty a || nonempty b.
Proof. destruct a; reflexivity. Qed.

Lemma nonempty_map {A B} (f : A -> B) (l : list A) :
  nonempty (map f l) = nonempty l.
Proof. destruct l; reflexivity. Qed.

Lemma nonempty_flat_map {A B} (f : A -> list B) (l : list A) :
  nonempty (flat_map f l) = existsb (fun a => nonempty (f a)) l.
Proof.
  induction l as [|a l IH]; [reflexivity|].
  cbn [flat_map existsb]. rewrite nonempty_app, IH. reflexivity.
Qed.

Lemma existsb_eq {A} (f g : A -> bool) (l : list A) :
  (forall a, f a = g a) -> existsb f l = existsb g l.
Proof.
  intros E. induction l as [|a l IH]; [reflexivity|].
  cbn. rewrite E, IH. reflexivity.
Qed.

Lemma anyTail_eq (f g : jsstring -> bool) (s : jsstring) :
  (forall b, f b = g b) -> anyTail f s = anyTail g s.
Proof.
  intros E. induction s as [|c s IH]; cbn; rewrite E; [reflexivity|].
  rewrite IH. reflexivity.
Qed.

Lemma anyTail_orb (f g : jsstring -> bool) (s : jsstring) :
  anyTail (fun b => f b || g b) s = anyTail f s || anyTail g s.
Proof.
  induction s as [|c s IH]; cbn.
  - rewrite !orb_false_r. reflexivity.
  - rewrite IH.
    destruct (f (c :: s)), (g (c :: s)), (anyTail f s), (anyTail g s);
      reflexivity.
Qed.

Lemma anyAt_anyTail (f : jsstring -> bool) (s : jsstring) :
  forall p, anyAt (fun _ b => f b) p s = anyTail f s.
Proof.
  induction s as [|c s IH]; intros p; cbn; [reflexivity|].
  rewrite IH. reflexivity.
Qed.

Lemma anyAt_eq (f g : option ascii -> jsstring -> bool) (s : jsstring) :
  (forall p b, f p b = g p b) -> forall p, anyAt f p s = anyAt g p s.
Proof.
  intros E. induction s as [|c s IH]; intros p; cbn; rewrite E;
    [reflexivity|]. rewrite IH. reflexivity.
Qed.

(** [test] looks for a position at which the pattern matches. *)
Lemma test_anyAt (re : RegExp) (s : jsstring) :
  test re s
  = anyAt (fun p b =>
             nonempty (matcher (flags re) (source re) (mkMState p b [])))
          None s.
Proof.
  unfold test, exec. generalize (@None ascii) as p. generalize 0 as i.
  induction s as [|c s IH]; intros i p; cbn [searchFrom anyAt];
    unfold execAt;
    destruct (matcher (flags re) (source re) _) as [|st l];
    cbn [hd_error nonempty orb]; try reflexivity.
  apply IH.
Qed.

Lemma nonempty_LitL (fl : Flags) (w : jsstring) (st : MState) :
  nonempty (matcher fl (LitL w) st) = litPrefix (ignoreCase fl) w (rest st).
Proof.
  rewrite matcher_LitL.
  destruct (litPrefix (ignoreCase fl) w (rest st)); reflexivity.
Qed.

Lemma nonempty_Seq_LitL (fl : Flags) (w : jsstring) (r : Regex)
      (st : MState) :
  nonempty (matcher fl (Seq (LitL w) r) st)
  = litPrefix (ignoreCase fl) w (rest st)
    && nonempty (matcher fl r (advance (length w) st)).
Proof.
  rewrite matcher_Seq, matcher_LitL.
  destruct (litPrefix (ignoreCase fl) w (rest st)); [|reflexivity].
  rewrite flat_map_single. reflexivity.
Qed.

Lemma nonempty_Alt (fl : Flags) (r1 r2 : Regex) (st : MState) :
  nonempty (matcher fl (Alt r1 r2) st)
  = nonempty (matcher fl r1 st) || nonempty (matcher fl r2 st).
Proof. rewrite matcher_Alt. apply nonempty_app. Qed.

Lemma nonempty_Group (fl : Flags) (i : nat) (r : Regex) (st : MState) :
  nonempty (matcher fl (Group i r) st) = nonempty (matcher fl r st).
Proof. rewrite matcher_Group. apply nonempty_map. Qed.

(** The ways of [x*] for a pattern [x] that takes any code unit: every
    position from the current one on. *)
Lemma any_repeat (f : jsstring -> bool) (s : jsstring) :
  forall (pv : option ascii) (cs : list (nat * option jsstring))
         (fuel : nat),
    length s < fuel ->
    existsb (fun st => f (rest st))
            (repeat (step (fun _ => true)) [] true fuel (mkMState pv s cs))
    = anyTail f s.
Proof.
  induction s as [|c s IH]; intros pv cs fuel Hf;
    (destruct fuel as [|fuel]; [cbn in Hf; lia|]);
    rewrite repeat_step; cbn [rest caps].
  - cbn. reflexivity.
  - rewrite existsb_app. rewrite IH by (cbn in Hf; lia).
    cbn [existsb rest anyTail]. rewrite orb_false_r. apply orb_comm.
Qed.

Lemma nonempty_Seq_Star_any (fl : Flags) (items : list ClassItem)
      (r : Regex) (f : jsstring -> bool) (st : MState) :
  (forall x, xorb false (classHas fl items x) = true) ->
  (forall st', nonempty (matcher fl r st') = f (rest st')) ->
  nonempty (matcher fl (Seq (Star true (Class false items)) r) st)
  = anyTail f (rest st).
Proof.
  intros Hall Hr. rewrite matcher_Seq, nonempty_flat_map.
  rewrite (existsb_eq _ (fun st' => f (rest st')) _ Hr).
  change (matcher fl (Star true (Class false items)) st)
    with (repeat (matcher fl (Class false items)) [] true
                 (S (length (rest st))) st).
  rewrite (repeat_ext (matcher fl (Class false items))
                      (step (fun _ => true)) [] true)
    by (intros st'; apply step_ext; exact Hall).
  destruct st as [pv s cs]. apply any_repeat. cbn. lia.
Qed.

(** The ways of [x*] for a pattern [x] that takes a code unit satisfying
    [p], followed by something that does not start with such a code
    unit: the position after the code units satisfying [p]. *)
Lemma run_then (p : ascii -> bool) (f : jsstring -> bool) (s : jsstring) :
  (forall c r, p c = true -> f (c :: r) = false) ->
  forall (pv : option ascii) (cs : list (nat * option jsstring))
         (fuel : nat),
    length s < fuel ->
    existsb (fun st => f (rest st))
            (repeat (step p) [] true fuel (mkMState pv s cs))
    = f (from (fun c => negb (p c)) s).
Proof.
  intros Hp. induction s as [|c s IH]; intros pv cs fuel Hf;
    (destruct fuel as [|fuel]; [cbn in Hf; lia|]);
    rewrite repeat_step; cbn [rest caps].
  - cbn. apply orb_false_r.
  - cbn [from]. destruct (p c) eqn:Ec; cbn [negb].
    + rewrite existsb_app. rewrite IH by (cbn in Hf; lia).
      cbn [existsb rest]. rewrite (Hp c s Ec). rewrite !orb_false_r.
      reflexivity.
    + cbn. apply orb_false_r.
Qed.

Lemma repeat_nonempty (body : MState -> list MState) (gs : list nat)
      (fuel : nat) (st : MState) :
  nonempty (repeat body gs true fuel st) = true.
Proof.
  destruct fuel; [reflexivity|]. cbn [repeat].
  rewrite nonempty_app. apply orb_true_r.
Qed.

Lemma litPrefix_split (ci : bool) (w v s : jsstring) :
  litPrefix ci (w ++ v) s
  = litPrefix ci w s && litPrefix ci v (skipn (length w) s).
Proof.
  revert s. induction w as [|x w IH]; intros s; [reflexivity|].
  destruct s as [|y s]; [reflexivity|].
  cbn [app litPrefix length skipn]. rewrite IH, andb_assoc. reflexivity.
Qed.

(** [x?] for a pattern character [x], followed by a pattern. *)
Lemma nonempty_Seq_Opt_Char (fl : Flags) (c : ascii) (r : Regex)
      (f : jsstring -> bool) (st : MState) :
  (forall st', nonempty (matcher fl r st') = f (rest st')) ->
  nonempty (matcher fl (Seq (Opt (Char c)) r) st)
  = match rest st with
    | x :: s' => charEq fl c x && f s'
    | [] => false
    end
    || f (rest st).
Proof.
  intros Hr. rewrite matcher_Seq, nonempty_flat_map.
  rewrite (existsb_eq _ (fun st' => f (rest st')) _ Hr).
  destruct st as [pv s cs].
  change (matcher fl (Opt (Char c)) (mkMState pv s cs))
    with (filter (fun st' => length (rest st') <? length s)
                 (step (charEq fl c) (mkMState pv s cs))
          ++ [mkMState pv s cs]).
  rewrite existsb_app. cbn [existsb rest]. rewrite orb_false_r.
  f_equal.
  destruct s as [|x s']; [reflexivity|].
  rewrite step_cons. destruct (charEq fl c x); [|reflexivity].
  cbn [filter rest length].
  assert (Hl : (length s' <? S (length s')) = true)
    by (apply Nat.ltb_lt; lia).
  rewrite Hl. cbn. apply orb_false_r.
Qed.

Lemma source_SnapshotFailRegex :
  source SnapshotFailRegex
  = Alt (Group 1 (Seq (LitL (str "snapshot"))
                      (Seq (Opt (Char "s")) (LitL (str " failed")))))
        (Group 2 (LitL (str "snapshot test failed"))).
Proof. reflexivity. Qed.

Lemma source_IS_OUTSIDE_REPOSITORY_REGEXP :
  source IS_OUTSIDE_REPOSITORY_REGEXP
  = Seq (LitL (str "Test suite failed to run"))
        (Seq (Star true (Class false [ClassSpace; ClassNotSpace]))
             (Seq (LitL (str "fatal:"))
                  (Seq (Star true (Class false [ClassSpace; ClassNotSpace]))
                       (LitL (str "is outside repository"))))).
Proof. reflexivity. Qed.

Lemma source_WATCH_IS_NOT_SUPPORTED_REGEXP :
  source WATCH_IS_NOT_SUPPORTED_REGEXP
  = Seq AssertStart
        (Seq (Star true (Char "s"))
             (Seq (LitL watchWord) (Star true (Char "s")))).
Proof. reflexivity. Qed.

Lemma any_code_unit (fl : Flags) (x : ascii) :
  xorb false (classHas fl [ClassSpace; ClassNotSpace] x) = true.
Proof.
  unfold classHas, setHas. cbn [existsb itemHas xorb].
  destruct (ignoreCase fl); destruct (isSpace x); reflexivity.
Qed.

End PatternFacts.

(** X18.  What counts as a snapshot failure.  [SnapshotFailRegex]
    matches a text exactly when the text holds, up to case, one of
    [snapshot failed], [snapshots failed] and [snapshot test failed]. *)
Theorem SnapshotFailRegex_words (s : jsstring) :
  test SnapshotFailRegex s
  = includesCI (str "snapshots failed") s
    || includesCI (str "snapshot failed") s
    || includesCI (str "snapshot test failed") s.
Proof.
  rewrite PatternFacts.test_anyAt, PatternFacts.source_SnapshotFailRegex.
  unfold includesCI. rewrite <- !PatternFacts.anyTail_orb.
  rewrite <- (PatternFacts.anyAt_anyTail _ s None).
  apply PatternFacts.anyAt_eq. intros p b.
  rewrite PatternFacts.nonempty_Alt, !PatternFacts.nonempty_Group.
  rewrite PatternFacts.nonempty_LitL, PatternFacts.nonempty_Seq_LitL.
  rewrite (PatternFacts.nonempty_Seq_Opt_Char
             _ _ _ (litPrefix true (str " failed")))
    by (intros st'; apply PatternFacts.nonempty_LitL).
  rewrite RegExpFacts.rest_advance. cbn [rest].
  change (ignoreCase (flags SnapshotFailRegex)) with true.
  change (str "snapshots failed")
    with (str "snapshot" ++ "s"%char :: str " failed").
  change (str "snapshot failed") with (str "snapshot" ++ str " failed").
  rewrite !PatternFacts.litPrefix_split.
  f_equal. rewrite <- andb_orb_distrib_r. f_equal.
Qed.

(** X19.  What counts as the watch-not-supported message.
    [WATCH_IS_NOT_SUPPORTED_REGEXP] matches a text exactly when some
    line of it reads, after any number of letters [s] in either case,
    the words [--watch is not supported without git/hg, please use
    --watchAll], up to case.  The two [s*] of the pattern stand for the
    letter, not for blanks. *)
Theorem WATCH_IS_NOT_SUPPORTED_REGEXP_lines (s : jsstring) :
  test WATCH_IS_NOT_SUPPORTED_REGEXP s = anyAt watchLineAt None s.
Proof.
  rewrite PatternFacts.test_anyAt,
    PatternFacts.source_WATCH_IS_NOT_SUPPORTED_REGEXP.
  apply PatternFacts.anyAt_eq. intros p b.
  rewrite ControlMessageFacts.matcher_Seq.
  rewrite ControlMessageFacts.matcher_AssertStart by reflexivity.
  unfold watchLineAt. cbn [prev].
  destruct (lineStart p); [|reflexivity].
  rewrite RegExpFacts.flat_map_single.
  rewrite ControlMessageFacts.matcher_Seq, PatternFacts.nonempty_flat_map.
  rewrite (PatternFacts.existsb_eq
             _ (fun st' => litPrefix true watchWord (rest st'))).
  - change (matcher (flags WATCH_IS_NOT_SUPPORTED_REGEXP)
                    (Star true (Char "s")) (mkMState p b []))
      with (repeat (step isLetterS) [] true (S (length b))
                   (mkMState p b [])).
    rewrite (PatternFacts.run_then isLetterS (litPrefix true watchWord));
      [reflexivity | | lia].
    intros c r Hc. unfold isLetterS in Hc. apply Ascii.eqb_eq in Hc.
    unfold watchWord. cbn [str list_ascii_of_string litPrefix].
    rewrite <- Hc. reflexivity.
  - intros st'. rewrite PatternFacts.nonempty_Seq_LitL.
    change (matcher (flags WATCH_IS_NOT_SUPPORTED_REGEXP)
                    (Star true (Char "s"))
                    (advance (length watchWord) st'))
      with (repeat (matcher (flags WATCH_IS_NOT_SUPPORTED_REGEXP) (Char "s"))
                   [] true
                   (S (length (rest (advance (length watchWord) st'))))
                   (advance (length watchWord) st')).
    rewrite PatternFacts.repeat_nonempty. apply andb_true_r.
Qed.

(** X20.  What counts as the outside-repository message.
    [IS_OUTSIDE_REPOSITORY_REGEXP] matches a text exactly when the text
    holds, up to case and in this order, [Test suite failed to run],
    [fatal:] and [is outside repository], with anything between them,
    line breaks included. *)
Theorem IS_OUTSIDE_REPOSITORY_REGEXP_words (s : jsstring) :
  test IS_OUTSIDE_REPOSITORY_REGEXP s
  = includesInOrder [str "Test suite failed to run"; str "fatal:";
                     str "is outside repository"] s.
Proof.
  rewrite PatternFacts.test_anyAt,
    PatternFacts.source_IS_OUTSIDE_REPOSITORY_REGEXP.
  cbn [includesInOrder].
  rewrite <- (PatternFacts.anyAt_anyTail _ s None).
  apply PatternFacts.anyAt_eq. intros p b.
  rewrite PatternFacts.nonempty_Seq_LitL. cbn [rest]. f_equal.
  rewrite (PatternFacts.nonempty_Seq_Star_any
             _ _ _
             (fun b0 =>
                litPrefix true (str "fatal:") b0
                && anyTail (fun b1 =>
                              litPrefix true (str "is outside repository") b1
                              && true)
                           (skipn (length (str "fatal:")) b0))).
  - rewrite RegExpFacts.rest_advance. reflexivity.
  - apply PatternFacts.any_code_unit.
  - intros st'. rewrite PatternFacts.nonempty_Seq_LitL. f_equal.
    rewrite (PatternFacts.nonempty_Seq_Star_any
               _ _ _
               (fun b1 =>
                  litPrefix true (str "is outside repository") b1 && true)).
    + rewrite RegExpFacts.rest_advance. reflexivity.
    + apply PatternFacts.any_code_unit.
    + intros st''. rewrite PatternFacts.nonempty_LitL.
      symmetry. apply andb_true_r.
Qed.

(* ================================================================== *)
(** * Further properties: the data events of RunTestListener *)
(* ================================================================== *)

Module DataFacts.
Import RunTestListener RunTestListenerFacts RunTestListenerStdErr
       RunTestListenerEvents RunTestListenerExit RunTestListenerData
       RunCompleteFacts.

Lemma stdErrEvents_error (p : JestProcess) (message raw : jsstring) :
  filter isErrorData (stdErrEvents p message raw)
  = if includes (str "onRunComplete") message
    then execErrorEvents p message else [].
Proof.
  unfold stdErrEvents. rewrite !filter_app.
  destruct (includes (str "onRunStart") message),
           (includes (str "onRunComplete") message);
    cbn [filter isErrorData app];
    rewrite ?filter_app, ?execErrorEvents_error; cbn [filter isErrorData];
    rewrite ?app_nil_r; reflexivity.
Qed.

Section Stimuli.
Context `{Host}.
Variable sess : ListenerSession.

Lemma run_filter_events (f : JestRunEvent -> bool)
      (g : Stimulus -> list JestRunEvent) :
  (forall s st, filter f (firedEvents (actionsOf (react sess s st))) = g s) ->
  forall l st, filter f (firedEvents (snd (run sess l st))) = flat_map g l.
Proof.
  intros Hr. induction l as [|s l IH]; intros st; [reflexivity|].
  rewrite run_cons. cbn [snd flat_map].
  rewrite firedEvents_app, filter_app, Hr, IH. reflexivity.
Qed.

Lemma react_output (s : Stimulus) (st : t) :
  filter isOutputData (firedEvents (actionsOf (react sess s st)))
  = outputOf s.
Proof.
  destruct s as [p e | h | p r].
  - destruct e as [|d|d|d|d|c sg|c sg|tag];
      cbn [react onEvent AbstractProcessListener.onEvent handlers
                 AbstractProcessListener.h_onProcessStarting
                 AbstractProcessListener.h_onExecutableStdErr
                 AbstractProcessListener.h_onExecutableJSON
                 AbstractProcessListener.h_onExecutableOutput
                 AbstractProcessListener.h_onTerminalError
                 AbstractProcessListener.h_onProcessClose
                 AbstractProcessListener.h_onProcessExit
                 AbstractProcessListener.h_name outputOf];
      try reflexivity.
    + rewrite onExecutableStdErr_fired.
      destruct (shouldIgnoreOutput (cleanAnsi d)); [reflexivity|].
      apply stdErrEvents_output.
    + unfold onExecutableOutput, when.
      destruct (shouldIgnoreOutput (cleanAnsi d)); reflexivity.
    + rewrite onProcessClose_eq. cbn [actionsOf snd].
      rewrite firedEvents_app.
      rewrite (quiet_firedEvents _ (handleWatchProcessCrash_quiet _ _)).
      reflexivity.
    + rewrite onProcessExit_fired. reflexivity.
  - cbn [react outputOf]. rewrite timeout_fired.
    destruct (Timers.isPending h (timers st)); [|reflexivity].
    destruct (runInfo st); reflexivity.
  - cbn [react]. destruct r; reflexivity.
Qed.

Lemma react_error (s : Stimulus) (st : t) :
  filter isErrorData (firedEvents (actionsOf (react sess s st)))
  = errorOf s.
Proof.
  destruct s as [p e | h | p r].
  - destruct e as [|d|d|d|d|c sg|c sg|tag];
      cbn [react onEvent AbstractProcessListener.onEvent handlers
                 AbstractProcessListener.h_onProcessStarting
                 AbstractProcessListener.h_onExecutableStdErr
                 AbstractProcessListener.h_onExecutableJSON
                 AbstractProcessListener.h_onExecutableOutput
                 AbstractProcessListener.h_onTerminalError
                 AbstractProcessListener.h_onProcessClose
                 AbstractProcessListener.h_onProcessExit
                 AbstractProcessListener.h_name errorOf];
      try reflexivity.
    + rewrite onExecutableStdErr_fired.
      destruct (shouldIgnoreOutput (cleanAnsi d)); [reflexivity|].
      cbn [negb andb]. apply stdErrEvents_error.
    + unfold onExecutableOutput, when.
      destruct (shouldIgnoreOutput (cleanAnsi d)); reflexivity.
    + rewrite onProcessClose_eq. cbn [actionsOf snd].
      rewrite firedEvents_app.
      rewrite (quiet_firedEvents _ (handleWatchProcessCrash_quiet _ _)).
      reflexivity.
    + rewrite onProcessExit_fired. reflexivity.
  - cbn [react errorOf]. rewrite timeout_fired.
    destruct (Timers.isPending h (timers st)); [|reflexivity].
    destruct (runInfo st); reflexivity.
  - cbn [react]. destruct r; reflexivity.
Qed.

End Stimuli.

End DataFacts.

(** X21.  No output is lost, doubled or put out of order.  Over any
    sequence of stimuli the [data] events without [isError] that the
    listener fires are, in order: one for every chunk of stderr or of
    stdout that is not suppressed, with the chunk without its ANSI
    sequences as text and, as raw text, the chunk without its control
    messages for stderr and the chunk as it came for stdout; and the
    notice of every accepted snapshot prompt.  The [data] events with
    [isError] are one for every terminal error, suppressed or not, and
    the execution errors of the chunks that complete a run. *)
Theorem output_is_forwarded_in_order `{Host}
        (sess : ListenerSession) (stimuli : list RunTestListener.Stimulus)
        (st : RunTestListener.t) :
  let events := firedEvents (snd (RunTestListener.run sess stimuli st)) in
  filter isOutputData events = flat_map outputOf stimuli
  /\ filter isErrorData events = flat_map errorOf stimuli.
Proof.
  cbv zeta. split.
  - apply DataFacts.run_filter_events. apply DataFacts.react_output.
  - apply DataFacts.run_filter_events. apply DataFacts.react_error.
Qed.

(* ================================================================== *)
(** * Further properties: the timeout of a run *)
(* ================================================================== *)

Module RunInfoFacts.
Import RunTestListener RunTestListenerFacts RunTestListenerStdErr
       RunTestListenerEvents RunTestListenerExit RunCompleteFacts
       ArmedFacts WorldFacts.

Section Stimuli.
Context `{Host}.
Variable sess : ListenerSession.

Lemma react_armedInRun (s : Stimulus) (st : t) :
  armedInRun st -> armedInRun (stateOf (react sess s st)).
Proof.
  intros Ha. unfold armedInRun.
  change (longRunMonitor (stateOf (react sess s st)))
    with (snd (worldOf (stateOf (react sess s st)))).
  rewrite react_world.
  destruct s as [p e | h | p r].
  - destruct e as [|d|d|d|d|c sg|c sg|tag];
      cbn [react onEvent AbstractProcessListener.onEvent handlers
                 AbstractProcessListener.h_onProcessStarting
                 AbstractProcessListener.h_onExecutableStdErr
                 AbstractProcessListener.h_onExecutableJSON
                 AbstractProcessListener.h_onExecutableOutput
                 AbstractProcessListener.h_onTerminalError
                 AbstractProcessListener.h_onProcessClose
                 AbstractProcessListener.h_onProcessExit
                 AbstractProcessListener.h_name worldAfter];
      try exact Ha.
    + destruct (shouldIgnoreOutput (cleanAnsi d)) eqn:Hi.
      * unfold onExecutableStdErr. rewrite Hi. exact Ha.
      * destruct (onExecutableStdErr_steps sess p (cleanAnsi d) d st Hi)
          as [-> _].
        destruct (includes (str "onRunComplete") (cleanAnsi d)) eqn:Ec.
        -- rewrite LongRunMonitorFacts.cancel_timer. congruence.
        -- rewrite (handleRunComplete_skip _ _ _ Ec). cbn [stateOf fst snd].
           destruct (includes (str "onRunStart") (cleanAnsi d)) eqn:Es.
           ++ rewrite (handleRunStart_eq _ _ _ Es). cbn [stateOf fst snd runInfo].
              intros _. discriminate.
           ++ rewrite (handleRunStart_skip _ _ _ Es). exact Ha.
    + unfold onExecutableOutput, when.
      destruct (negb (shouldIgnoreOutput (cleanAnsi d))); exact Ha.
    + rewrite onProcessClose_eq. exact Ha.
    + rewrite LongRunMonitorFacts.cancel_timer. congruence.
  - cbn [react worldAfter]. rewrite timeout_runInfo.
    destruct (Timers.isPending h (fst (worldOf st))); [|exact Ha].
    cbn [snd LongRunMonitor.timer]. congruence.
  - cbn [react worldAfter]. unfold snapshotPromptAnswered, when.
    destruct r; exact Ha.
Qed.

Lemma run_armedInRun (l : list Stimulus) (st : t) :
  armedInRun st -> armedInRun (fst (run sess l st)).
Proof.
  revert st. induction l as [|s l IH]; intros st Ha; [exact Ha|].
  rewrite run_cons. cbn [fst]. apply IH, react_armedInRun, Ha.
Qed.

End Stimuli.

Lemma timeout_state (h : nat) (st : t) :
  Timers.isPending h (timers st) = true ->
  stateOf (timeout h st)
  = mk (Timers.expire h (timers st))
       (LongRunMonitor.mk (LongRunMonitor.logging (longRunMonitor st))
                          (LongRunMonitor.thresholdMs (longRunMonitor st))
                          None)
       (runInfo st) (exitCode st).
Proof.
  intros Hp. destruct st as [ts m ri ec]. unfold timeout, bind, get, when.
  cbn [timers runInfo longRunMonitor exitCode] in *. rewrite Hp.
  destruct ri; reflexivity.
Qed.

End RunInfoFacts.

(** X22.  An armed timeout reports the run.  In every state that a new
    listener reaches, a timeout that is armed belongs to a run under way:
    when it expires the listener fires exactly one [long-run] event, with
    the process and the count of that run and the configured threshold;
    the run goes on, no timeout is left armed, and the same timeout
    expiring again does nothing. *)
Theorem armed_timeout_reports_the_run `{Host}
        (sess : ListenerSession) (before : list RunTestListener.Stimulus)
        (h : nat) :
  let st := fst (RunTestListener.run sess before
                                     (RunTestListener.constructor sess)) in
  let r := RunTestListener.react sess (RunTestListener.TimerExpired h) st in
  Timers.isPending h (RunTestListener.timers st) = true ->
  exists info,
    RunTestListener.runInfo st = Some info
    /\ firedEvents (actionsOf r)
       = [LongRunEvent (RunTestListener.process info)
                       (RunTestListener.numTotalTestSuites info)
                       (configuredThreshold sess)]
    /\ RunTestListener.runInfo (stateOf r) = Some info
    /\ Timers.pending (RunTestListener.timers (stateOf r)) = []
    /\ LongRunMonitor.timer (RunTestListener.longRunMonitor (stateOf r))
       = None
    /\ actionsOf (RunTestListener.react
                    sess (RunTestListener.TimerExpired h) (stateOf r)) = [].
Proof.
  cbv zeta. intros Hp.
  set (st := fst (RunTestListener.run sess before
                                      (RunTestListener.constructor sess))).
  fold st in Hp.
  assert (Hw : wellArmed st).
  { apply WorldFacts.run_wellArmed. unfold wellArmed, armedOnce.
    reflexivity. }
  assert (Hr : armedInRun st).
  { apply RunInfoFacts.run_armedInRun. intros Ht. exfalso. apply Ht.
    reflexivity. }
  assert (Hth : LongRunMonitor.thresholdMs (RunTestListener.longRunMonitor st)
                = configuredThreshold sess).
  { apply (WorldFacts.run_threshold
             sess before (RunTestListener.constructor sess)). }
  assert (Ht : LongRunMonitor.timer (RunTestListener.longRunMonitor st)
               <> None).
  { unfold wellArmed, armedOnce in Hw. cbn [fst snd] in Hw.
    destruct (LongRunMonitor.timer (RunTestListener.longRunMonitor st));
      [discriminate|].
    unfold Timers.isPending in Hp. rewrite Hw in Hp. discriminate Hp. }
  destruct (RunTestListener.runInfo st) as [info|] eqn:Ei;
    [|exfalso; exact (Hr Ht Ei)].
  exists info. split; [reflexivity|].
  cbn [RunTestListener.react].
  rewrite RunTestListenerExit.timeout_fired, Hp, Ei, Hth.
  split; [reflexivity|].
  rewrite (RunInfoFacts.timeout_state h st Hp).
  cbn [RunTestListener.runInfo RunTestListener.timers
       RunTestListener.longRunMonitor LongRunMonitor.timer].
  assert (He : Timers.pending (Timers.expire h (RunTestListener.timers st))
               = []).
  { exact (WorldFacts.armedOnce_expire h _ Hw Hp). }
  repeat split; try assumption.
  unfold RunTestListener.timeout, bind, get, when, Timers.isPending.
  cbn [RunTestListener.timers]. rewrite He. reflexivity.
Qed.

Lemma armed_timeout_reports_the_run_witness :
  firedEvents
    (actionsOf
       (RunTestListener.react
          Sample.session (RunTestListener.TimerExpired 0)
          (fst (RunTestListener.run
                  Sample.session
                  [RunTestListener.ProcessEvent
                     Sample.watchTests
                     (executableStdErr
                        (str "onRunStart: numTotalTestSuites: 3" ++ [LF]))]
                  (RunTestListener.constructor Sample.session)))))
  = [LongRunEvent Sample.watchTests (Some (ofZ 3)) (ofZ 60000)].
Proof.
  destruct (armed_timeout_reports_the_run
              Sample.session
              [RunTestListener.ProcessEvent
                 Sample.watchTests
                 (executableStdErr
                    (str "onRunStart: numTotalTestSuites: 3" ++ [LF]))]
              0)
    as [info [Ei [Ef _]]].
  - vm_compute. reflexivity.
  - rewrite Ef. vm_compute in Ei. injection Ei as <-. reflexivity.
Defined.
